(** * ForviaGENCAD: groove / clip generation and the assembly pipeline

    A shallow embedding of [groove_generator.py], [clip_generator.py] and
    [gen_cad_pipeline.py].

    Conventions of the embedding.
    - Python floats are read as real numbers ([R]); rounding, infinities and
      NaN are outside the model, except in [runtime_input], where a parse can
      produce them.  On a NaN every comparison of the source is false, so
      [ClipParameters.validate] lets a NaN field through: statements about
      validated parameters speak of real-valued fields.  Python ints are [Z].
    - The geometry kernel (OpenCASCADE) is external.  A shape is the term of
      kernel constructor calls that built it ([TopoDS_Shape]); what the kernel
      answers when asked (is this operation done, is this shape valid, what is
      its volume, what does writing return) is a record of oracles
      ([Kernel]).  Building a primitive is total in the embedding: what the
      kernel raises on a degenerate dimension is not modelled, and only the
      boolean operations and the STL writer, whose exceptions the pipeline
      handles, can raise.  Statements about the feature loop therefore speak
      of the runs in which the loop completes.
    - Printing, shape construction and file writing are recorded as a trace
      of events; Python exceptions are an explicit outcome. *)

From Stdlib Require Import Reals Lra List String ZArith Bool Lia DecimalString.
Import ListNotations.
Open Scope string_scope.
Open Scope R_scope.

(** ** Python outcomes *)

Inductive exn : Type :=
| ZeroDivisionError
| OverflowError
| KernelError (what : string).

Inductive result (A : Type) : Type :=
| Ok (a : A)
| Raise (e : exn).
Arguments Ok {A} a.
Arguments Raise {A} e.

Definition rbind {A B : Type} (c : result A) (f : A -> result B) : result B :=
  match c with
  | Ok a => f a
  | Raise e => Raise e
  end.

(** Comparisons of floats, as booleans. *)

Definition Rleb (x y : R) : bool := if Rle_dec x y then true else false.
Definition Rltb (x y : R) : bool := if Rlt_dec x y then true else false.
Definition Rgeb (x y : R) : bool := if Rge_dec x y then true else false.
Definition Rgtb (x y : R) : bool := if Rgt_dec x y then true else false.
Definition Reqb (x y : R) : bool := if Req_dec_T x y then true else false.

(** ** The kernel's value types *)

Record gp_XYZ : Type := XYZ { cx : R; cy : R; cz : R }.

Definition gp_Pnt := gp_XYZ.
Definition gp_Vec := gp_XYZ.
Definition gp_Dir := gp_XYZ.

Record gp_Ax2 : Type := Ax2 { Location : gp_Pnt; Direction : gp_Dir }.

Inductive gp_Trsf : Type :=
| SetTranslation (v : gp_Vec)
| SetRotation (q_from q_to : gp_Vec)
| Multiplied (t1 t2 : gp_Trsf).

(** An edge is a segment between two points; a wire is the list of the
    edges added to it. *)
Definition TopoDS_Edge : Type := gp_Pnt * gp_Pnt.
Definition TopoDS_Wire : Type := list TopoDS_Edge.

Definition BRepBuilderAPI_MakeEdge (p q : gp_Pnt) : TopoDS_Edge := (p, q).
Definition BRepBuilderAPI_MakeWire (edges : list TopoDS_Edge) : TopoDS_Wire := edges.

Inductive TopoDS_Shape : Type :=
| BRepPrimAPI_MakeBox (P : gp_Pnt) (dx dy dz : R)
| BRepPrimAPI_MakeCylinder (Axes : gp_Ax2) (radius H : R)
| BRepBuilderAPI_MakeFace (wire : TopoDS_Wire)
| BRepPrimAPI_MakePrism (base : TopoDS_Shape) (V : gp_Vec)
| BRepBuilderAPI_Transform (shape : TopoDS_Shape) (T : gp_Trsf)
| OneShape (path : string)
| MakeThickSolidByJoin (shape : TopoDS_Shape) (offset : R)
| Reversed (shape : TopoDS_Shape)
| BRepAlgoAPI_Fuse (S1 S2 : TopoDS_Shape)
| BRepAlgoAPI_Cut (S1 S2 : TopoDS_Shape).

(** ** Extent of a constructed shape

    The axis-aligned extent of the point set a construction denotes, for the
    constructions the generators use: boxes, cylinders, polygonal faces,
    prisms and translations.  The kernel's [Bnd_Box] is this extent enlarged
    by its gap. *)

Record Bnd_Box : Type :=
  Box { xmin : R; ymin : R; zmin : R; xmax : R; ymax : R; zmax : R }.

Definition point_box (p : gp_Pnt) : Bnd_Box :=
  Box (cx p) (cy p) (cz p) (cx p) (cy p) (cz p).

Definition join (a b : Bnd_Box) : Bnd_Box :=
  Box (Rmin (xmin a) (xmin b)) (Rmin (ymin a) (ymin b)) (Rmin (zmin a) (zmin b))
      (Rmax (xmax a) (xmax b)) (Rmax (ymax a) (ymax b)) (Rmax (zmax a) (zmax b)).

Definition shift (v : gp_Vec) (a : Bnd_Box) : Bnd_Box :=
  Box (xmin a + cx v) (ymin a + cy v) (zmin a + cz v)
      (xmax a + cx v) (ymax a + cy v) (zmax a + cz v).

(** Extent of a cylinder along one coordinate: [o] is the axis origin's
    coordinate, [a] the (unit) axis direction's. *)
Definition cyl_lo (o a r h : R) : R := Rmin o (o + h * a) - r * sqrt (1 - a * a).
Definition cyl_hi (o a r h : R) : R := Rmax o (o + h * a) + r * sqrt (1 - a * a).

Definition edge_extent (e : TopoDS_Edge) : Bnd_Box :=
  join (point_box (fst e)) (point_box (snd e)).

Definition wire_extent (w : TopoDS_Wire) : option Bnd_Box :=
  match w with
  | [] => None
  | e :: es => Some (fold_left (fun acc x => join acc (edge_extent x)) es (edge_extent e))
  end.

Fixpoint extent (s : TopoDS_Shape) : option Bnd_Box :=
  match s with
  | BRepPrimAPI_MakeBox P dx dy dz =>
      Some (join (point_box P) (shift (XYZ dx dy dz) (point_box P)))
  | BRepPrimAPI_MakeCylinder A r h =>
      let o := Location A in
      let d := Direction A in
      Some (Box (cyl_lo (cx o) (cx d) r h) (cyl_lo (cy o) (cy d) r h)
                (cyl_lo (cz o) (cz d) r h)
                (cyl_hi (cx o) (cx d) r h) (cyl_hi (cy o) (cy d) r h)
                (cyl_hi (cz o) (cz d) r h))
  | BRepBuilderAPI_MakeFace w => wire_extent w
  | BRepPrimAPI_MakePrism b V =>
      match extent b with
      | Some x => Some (join x (shift V x))
      | None => None
      end
  | BRepBuilderAPI_Transform s' (SetTranslation v) =>
      match extent s' with
      | Some x => Some (shift v x)
      | None => None
      end
  | _ => None
  end.

(** ** groove_generator.py *)

Inductive GrooveType : Type := RECTANGULAR | CIRCULAR | SQUARE | TRIANGLE.

Definition GrooveType_value (t : GrooveType) : string :=
  match t with
  | RECTANGULAR => "rectangular"
  | CIRCULAR => "circular"
  | SQUARE => "square"
  | TRIANGLE => "triangle"
  end.

Module GrooveParameters.

Record t : Type := Build {
  width : R;
  depth : R;
  height : R;          (* Extrusion height (formerly 'length') *)
  length : R;          (* Kept for backward compatibility *)
  type : GrooveType;
  fillet_radius : R
}.

(** The dataclass defaults. *)
Definition default_width : R := 2.
Definition default_depth : R := 1.
Definition default_height : R := 10.
Definition default_length : R := 10.
Definition default_type : GrooveType := RECTANGULAR.
Definition default_fillet_radius : R := 0.

End GrooveParameters.

Module GrooveGenerator.

Record t : Type := __init__ { params : GrooveParameters.t }.

(** [create_shape]: the primitive at the origin, centred on XY, extending
    along -Z. *)
Definition create_shape (self : t) : TopoDS_Shape :=
  match GrooveParameters.type (params self) with
  | RECTANGULAR =>
      let w := GrooveParameters.width (params self) in
      let l := GrooveParameters.length (params self) in
      let d := GrooveParameters.depth (params self) in
      BRepPrimAPI_MakeBox (XYZ (- w / 2) (- l / 2) (- d)) w l d
  | CIRCULAR =>
      let r := GrooveParameters.width (params self) / 2 in
      let d := GrooveParameters.depth (params self) in
      BRepPrimAPI_MakeCylinder (Ax2 (XYZ 0 0 (- d)) (XYZ 0 0 1)) r d
  | SQUARE =>
      let w := GrooveParameters.width (params self) in
      let d := GrooveParameters.depth (params self) in
      BRepPrimAPI_MakeBox (XYZ (- w / 2) (- w / 2) (- d)) w w d
  | TRIANGLE =>
      let w := GrooveParameters.width (params self) in
      let l := GrooveParameters.length (params self) in
      let d := GrooveParameters.depth (params self) in
      let h := (w * sqrt 3) / 2 in
      let p1 := XYZ (- w / 2) 0 (- d) in
      let p2 := XYZ (w / 2) 0 (- d) in
      let p3 := XYZ 0 0 (- d + h) in
      let edge1 := BRepBuilderAPI_MakeEdge p1 p2 in
      let edge2 := BRepBuilderAPI_MakeEdge p2 p3 in
      let edge3 := BRepBuilderAPI_MakeEdge p3 p1 in
      let wire := BRepBuilderAPI_MakeWire [edge1; edge2; edge3] in
      let face := BRepBuilderAPI_MakeFace wire in
      let prism := BRepPrimAPI_MakePrism face (XYZ 0 l 0) in
      BRepBuilderAPI_Transform prism (SetTranslation (XYZ 0 (- l / 2) 0))
  end.

(** [place_shape]: rotation of local Z onto the normal, then translation to
    the location; the tangent is accepted and not used. *)
Definition place_shape (self : t) (shape : TopoDS_Shape) (location : gp_Pnt)
    (normal : gp_Dir) (tangent : option gp_Dir) : TopoDS_Shape :=
  let trsf_rot := SetRotation (XYZ 0 0 1) normal in
  let trsf_mov := SetTranslation location in
  let full_trsf := Multiplied trsf_mov trsf_rot in
  BRepBuilderAPI_Transform shape full_trsf.

End GrooveGenerator.

(** ** clip_generator.py *)

(** Float division: Python raises on a zero divisor. *)
Definition py_div (x y : R) : result R :=
  if Req_dec_T y 0 then Raise ZeroDivisionError else Ok (x / y).

Module ClipParameters.

Record t : Type := Build {
  groove_params : GrooveParameters.t;   (* Reference groove geometry *)
  height : R;                           (* User-specified clip height *)
  assembly_clearance : R;               (* Width reduction for fit (mm) *)
  retention_offset : R                  (* Depth reduction for retention (mm) *)
}.

Definition default_assembly_clearance : R := 2 / 10.
Definition default_retention_offset : R := 1 / 10.

Section Validate.

(** How Python prints a float inside an f-string. *)
Variable float_str : R -> string.

Definition msg_height : string := "Clip height must be positive".

Definition msg_clearance (self : t) : string :=
  "Assembly clearance (" ++ float_str (assembly_clearance self)
    ++ "mm) must be less than groove width ("
    ++ float_str (GrooveParameters.width (groove_params self)) ++ "mm)".

Definition msg_offset (self : t) : string :=
  "Retention offset (" ++ float_str (retention_offset self)
    ++ "mm) must be less than groove depth ("
    ++ float_str (GrooveParameters.depth (groove_params self)) ++ "mm)".

Definition msg_width (clip_width : R) : string :=
  "Calculated clip width (" ++ float_str clip_width ++ "mm) must be positive".

Definition msg_depth (clip_depth : R) : string :=
  "Calculated clip depth (" ++ float_str clip_depth ++ "mm) must be positive".

Definition validate (self : t) : bool * string :=
  if Rleb (height self) 0 then (false, msg_height)
  else if Rgeb (assembly_clearance self) (GrooveParameters.width (groove_params self))
  then (false, msg_clearance self)
  else if Rgeb (retention_offset self) (GrooveParameters.depth (groove_params self))
  then (false, msg_offset self)
  else
    let clip_width := GrooveParameters.width (groove_params self) - assembly_clearance self in
    let clip_depth := GrooveParameters.depth (groove_params self) - retention_offset self in
    if Rleb clip_width 0 then (false, msg_width clip_width)
    else if Rleb clip_depth 0 then (false, msg_depth clip_depth)
    else (true, "Valid").

End Validate.

End ClipParameters.

Module ClipGenerator.

Record t : Type := Build {
  params : ClipParameters.t;
  _derived_groove_params : option GrooveParameters.t
}.

Definition __init__ (params : ClipParameters.t) : t := Build params None.

(** [derive_from_groove]: computed on the first call and cached in
    [_derived_groove_params]; later calls return the cached record. *)
Definition derive_from_groove (self : t) : result (GrooveParameters.t * t) :=
  match _derived_groove_params self with
  | Some cached => Ok (cached, self)
  | None =>
      let gp := ClipParameters.groove_params (params self) in
      let clip_width := GrooveParameters.width gp - ClipParameters.assembly_clearance (params self) in
      let clip_depth := GrooveParameters.depth gp - ClipParameters.retention_offset (params self) in
      rbind (if Rgtb (GrooveParameters.fillet_radius gp) 0
             then rbind (py_div clip_width (GrooveParameters.width gp))
                        (fun ratio => Ok (GrooveParameters.fillet_radius gp * ratio))
             else Ok 0)
        (fun fillet =>
           let derived :=
             GrooveParameters.Build
               clip_width
               clip_depth
               (ClipParameters.height (params self))
               (ClipParameters.height (params self))
               (GrooveParameters.type gp)
               fillet in
           Ok (derived, Build (params self) (Some derived)))
  end.

(** [create_shape]: the groove generator's shape for the derived
    parameters, shifted along Z by the negated retention offset when that
    offset is not zero. *)
Definition create_shape (self : t) : result (TopoDS_Shape * t) :=
  rbind (derive_from_groove self)
    (fun '(derived_params, self) =>
       let groove_gen := GrooveGenerator.__init__ derived_params in
       let shape := GrooveGenerator.create_shape groove_gen in
       let shape :=
         if negb (Reqb (ClipParameters.retention_offset (params self)) 0)
         then BRepBuilderAPI_Transform shape
                (SetTranslation (XYZ 0 0 (- ClipParameters.retention_offset (params self))))
         else shape in
       Ok (shape, self)).

Definition place_shape (self : t) (shape : TopoDS_Shape) (location : gp_Pnt)
    (normal : gp_Dir) (tangent : option gp_Dir) : result (TopoDS_Shape * t) :=
  rbind (derive_from_groove self)
    (fun '(derived_params, self) =>
       let groove_gen := GrooveGenerator.__init__ derived_params in
       Ok (GrooveGenerator.place_shape groove_gen shape location normal tangent, self)).

End ClipGenerator.

(** ** Python strings and lists *)

(** [s.startswith(p)]. *)
Fixpoint startswith (p s : string) : bool :=
  match p, s with
  | EmptyString, _ => true
  | String a p', String b s' => Ascii.eqb a b && startswith p' s'
  | String _ _, EmptyString => false
  end.

(** [s.replace(old, new)] for a non-empty [old]: occurrences are replaced
    from the left and do not overlap; [skip] counts the characters of a
    matched occurrence still to be dropped. *)
Fixpoint replace_from (skip : nat) (old new s : string) : string :=
  match s with
  | EmptyString => EmptyString
  | String c s' =>
      match skip with
      | S n => replace_from n old new s'
      | O =>
          if startswith old s
          then new ++ replace_from (Nat.pred (String.length old)) old new s'
          else String c (replace_from O old new s')
      end
  end.

Definition replace (old new s : string) : string := replace_from O old new s.

(** [l[:n]] for a Python int [n]: a negative [n] counts from the end. *)
Definition slice_to {A : Type} (l : list A) (n : Z) : list A :=
  if (n <? 0)%Z
  then firstn (Z.to_nat (Z.of_nat (List.length l) + n)) l
  else firstn (Z.to_nat n) l.

(** ** gen_cad_pipeline.py *)

Module gen_cad_pipeline.

(** Reference Centroids (from green.stp / generate_precise_clips.py) *)
Definition REFERENCE_CENTROIDS : list (R * R * R) :=
  [ (59611 / 100, 73690 / 100, 56751 / 100);   (* C1 *)
    (63655 / 100, 72073 / 100, 62151 / 100);   (* C6 *)
    (63255 / 100, 72938 / 100, 73743 / 100);   (* C7 *)
    (61676 / 100, 72860 / 100, 73997 / 100);   (* C3 *)
    (67699 / 100, 70109 / 100, 75884 / 100);   (* C5 *)
    (65810 / 100, 70792 / 100, 79784 / 100);   (* C4 *)
    (62397 / 100, 71739 / 100, 81996 / 100) ]. (* C2 *)

(** What the pipeline does to the outside world, in order. *)
Inductive event : Type :=
| stdout (line : string)
| created (shape : TopoDS_Shape)
| STEPControl_Write (shape : TopoDS_Shape) (path : string)
| StlAPI_Write (shape : TopoDS_Shape) (path : string).

Definition M (A : Type) : Type := (list event * result A)%type.

Definition ret {A : Type} (a : A) : M A := ([], Ok a).

Definition bind {A B : Type} (c : M A) (f : A -> M B) : M B :=
  match c with
  | (tr, Ok a) => let '(tr', r) := f a in ((tr ++ tr')%list, r)
  | (tr, Raise e) => (tr, Raise e)
  end.

Definition emit (e : event) : M unit := ([e], Ok tt).

Definition lift {A : Type} (r : result A) : M A := ([], r).

Declare Scope pipeline_scope.
Delimit Scope pipeline_scope with pipeline.
Notation "x <- c ;; k" := (bind c (fun x => k))
  (at level 61, c at next level, right associativity) : pipeline_scope.
Notation "' p <- c ;; k" := (bind c (fun x => match x with p => k end))
  (at level 61, p pattern, c at next level, right associativity) : pipeline_scope.
Notation "c ;; k" := (bind c (fun _ => k))
  (at level 61, right associativity) : pipeline_scope.

(** Outcome of asking the kernel for a boolean operation: the builder
    reports done, reports not done, or the call raises. *)
Inductive status : Type := IsDone | NotDone | Throws (what : string).

(** Answer of the point-to-shape distance query, with the surface normal
    at the nearest point ([None] when the normal is not defined). *)
Record Extrema : Type := {
  Extrema_IsDone : bool;
  NbSolution : nat;
  PointOnShape2 : gp_Pnt;
  SupportOnShape2_is_FACE : bool;
  Normal : option gp_Dir
}.

Record Kernel : Type := {
  ReadFile : string -> Z;
  IsValid : TopoDS_Shape -> bool;
  More_FACE : TopoDS_Shape -> bool;
  MakeThickSolid_IsDone : TopoDS_Shape -> R -> bool;
  VolumeProperties_Mass : TopoDS_Shape -> R;
  (** [GProp_GProps().Mass()]: the mass of a property set nothing was
      added to. *)
  GProp_GProps_Mass : R;
  DistShapeShape_Value : TopoDS_Shape -> TopoDS_Shape -> R;
  DistShapeShape : gp_Pnt -> TopoDS_Shape -> Extrema;
  Fuse_status : TopoDS_Shape -> TopoDS_Shape -> status;
  Cut_status : TopoDS_Shape -> TopoDS_Shape -> status;
  Write : TopoDS_Shape -> string -> Z;
  Stl_raises : TopoDS_Shape -> string -> option string
}.

Record RuntimeParams : Type := {
  thickness : R;
  groove_count : Z;
  groove_shape : GrooveType;
  groove_height : R;
  groove_width : R;
  groove_depth : R;
  clip_height : R;
  assembly_clearance : R;
  retention_offset : R
}.

Section Pipeline.

Variable k : Kernel.
(** [str] of a float and its [:.4f] rendering. *)
Variable float_str : R -> string.
Variable float_4f : R -> string.

Local Open Scope pipeline_scope.

Definition log (phase message : string) : M unit :=
  emit (stdout ("[" ++ phase ++ "] " ++ message)).

Definition check_validity (shape : TopoDS_Shape) (name : string) : M bool :=
  if IsValid k shape
  then log "Validation" (name ++ " is VALID.") ;; ret true
  else log "Validation" (name ++ " is INVALID.") ;; ret false.

Definition thicken (shape : TopoDS_Shape) (t : R) : option TopoDS_Shape :=
  if MakeThickSolid_IsDone k shape t
  then Some (MakeThickSolidByJoin shape t)
  else None.

(** Phase 4, the loop over the target locations. *)
Fixpoint place_features (groove_generator : GrooveGenerator.t)
    (clip_generator : ClipGenerator.t) (thickened_body : TopoDS_Shape)
    (locations : list (R * R * R))
    (grooves_to_cut clips_to_fuse : list TopoDS_Shape)
    : M (list TopoDS_Shape * list TopoDS_Shape) :=
  match locations with
  | [] => ret (grooves_to_cut, clips_to_fuse)
  | (rx, ry, rz) :: rest =>
      let target_pnt := XYZ rx ry rz in
      let dist_calc := DistShapeShape k target_pnt thickened_body in
      if Extrema_IsDone dist_calc && (0 <? NbSolution dist_calc)%nat
         && SupportOnShape2_is_FACE dist_calc
      then
        let closest_pnt := PointOnShape2 dist_calc in
        match Normal dist_calc with
        | Some normal =>
            let groove_shape := GrooveGenerator.create_shape groove_generator in
            emit (created groove_shape) ;;
            let placed_groove :=
              GrooveGenerator.place_shape groove_generator groove_shape closest_pnt normal None in
            '(clip_shape, clip_generator) <- lift (ClipGenerator.create_shape clip_generator) ;;
            emit (created clip_shape) ;;
            '(placed_clip, clip_generator) <-
              lift (ClipGenerator.place_shape clip_generator clip_shape closest_pnt normal None) ;;
            place_features groove_generator clip_generator thickened_body rest
              (grooves_to_cut ++ [placed_groove])%list (clips_to_fuse ++ [placed_clip])%list
        | None =>
            place_features groove_generator clip_generator thickened_body rest
              grooves_to_cut clips_to_fuse
        end
      else
        place_features groove_generator clip_generator thickened_body rest
          grooves_to_cut clips_to_fuse
  end.

(** Pre-combination of the tools: each tool is fused into the running
    compound when the fuse is done. *)
Fixpoint fuse_tools (tool_body : TopoDS_Shape) (tools : list TopoDS_Shape)
    : result TopoDS_Shape :=
  match tools with
  | [] => Ok tool_body
  | tool :: rest =>
      match Fuse_status k tool_body tool with
      | IsDone => fuse_tools (BRepAlgoAPI_Fuse tool_body tool) rest
      | NotDone => fuse_tools tool_body rest
      | Throws e => Raise (KernelError e)
      end
  end.

(** The [try] block of the groove cut: [Some] is [valid_cut] with the new
    [final_solid]; an exception anywhere inside is swallowed. *)
Definition bulk_cut (thickened_body : TopoDS_Shape) (grooves_to_cut : list TopoDS_Shape)
    : option TopoDS_Shape :=
  match grooves_to_cut with
  | [] => None
  | first :: rest =>
      match fuse_tools first rest with
      | Ok tool_body =>
          match Cut_status k thickened_body tool_body with
          | IsDone =>
              if negb (Reqb (GProp_GProps_Mass k) 0)
              then Some (BRepAlgoAPI_Cut thickened_body tool_body)
              else None
          | NotDone => None
          | Throws _ => None
          end
      | Raise _ => None
      end
  end.

Fixpoint cut_each (temp_solid : TopoDS_Shape) (tools : list TopoDS_Shape)
    : result TopoDS_Shape :=
  match tools with
  | [] => Ok temp_solid
  | tool :: rest =>
      match Cut_status k temp_solid tool with
      | IsDone => cut_each (BRepAlgoAPI_Cut temp_solid tool) rest
      | NotDone => cut_each temp_solid rest
      | Throws e => Raise (KernelError e)
      end
  end.

(** Boolean cuts: [final_solid] after the groove stage. *)
Definition cut_grooves (thickened_body : TopoDS_Shape) (grooves_to_cut : list TopoDS_Shape)
    : result TopoDS_Shape :=
  match grooves_to_cut with
  | [] => Ok thickened_body
  | _ :: _ =>
      match bulk_cut thickened_body grooves_to_cut with
      | Some final_solid => Ok final_solid
      | None => cut_each thickened_body grooves_to_cut
      end
  end.

(** The [try] block of the clip fuse. *)
Definition bulk_fuse (final_solid : TopoDS_Shape) (clips_to_fuse : list TopoDS_Shape)
    : option TopoDS_Shape :=
  match clips_to_fuse with
  | [] => None
  | first :: rest =>
      match fuse_tools first rest with
      | Ok clip_body =>
          match Fuse_status k final_solid clip_body with
          | IsDone => Some (BRepAlgoAPI_Fuse final_solid clip_body)
          | NotDone => None
          | Throws _ => None
          end
      | Raise _ => None
      end
  end.

Fixpoint fuse_each (temp_solid : TopoDS_Shape) (clips : list TopoDS_Shape)
    : result TopoDS_Shape :=
  match clips with
  | [] => Ok temp_solid
  | clip :: rest =>
      match Fuse_status k temp_solid clip with
      | IsDone => fuse_each (BRepAlgoAPI_Fuse temp_solid clip) rest
      | NotDone => fuse_each temp_solid rest
      | Throws e => Raise (KernelError e)
      end
  end.

Definition fuse_clips (final_solid : TopoDS_Shape) (clips_to_fuse : list TopoDS_Shape)
    : result TopoDS_Shape :=
  match clips_to_fuse with
  | [] => Ok final_solid
  | _ :: _ =>
      match bulk_fuse final_solid clips_to_fuse with
      | Some fused => Ok fused
      | None => fuse_each final_solid clips_to_fuse
      end
  end.

(** Phases 5 and 6. *)
Definition validate_and_export (final_solid : TopoDS_Shape) (output_path : string)
    : M (bool * string) :=
  log "Phase 5" "Validating Final Solid..." ;;
  _ <- check_validity final_solid "Final Output" ;;
  log "Phase 6" ("Exporting to " ++ output_path ++ "...") ;;
  emit (STEPControl_Write final_solid output_path) ;;
  let status := Write k final_solid output_path in
  let stl_path := replace ".step" ".stl" (replace ".stp" ".stl" output_path) in
  log "Phase 6" ("Generating preview STL: " ++ stl_path) ;;
  match Stl_raises k final_solid stl_path with
  | None => emit (StlAPI_Write final_solid stl_path)
  | Some e => log "Phase 6" ("Warning: Could not generate STL preview: " ++ e)
  end ;;
  if (status =? 1)%Z then ret (true, "Success") else ret (false, "Export Failed").

(** The two parameter records built at the start of phase 4. *)
Definition groove_params_of (runtime_params : RuntimeParams) : GrooveParameters.t :=
  GrooveParameters.Build
    (groove_width runtime_params)
    (groove_depth runtime_params)
    (groove_height runtime_params)
    (groove_height runtime_params)
    (groove_shape runtime_params)
    GrooveParameters.default_fillet_radius.

Definition clip_params_of (runtime_params : RuntimeParams) : ClipParameters.t :=
  ClipParameters.Build (groove_params_of runtime_params)
    (clip_height runtime_params)
    (assembly_clearance runtime_params)
    (retention_offset runtime_params).

(** Phases 4 to 6, from the thickened body on. *)
Definition features_and_export (thickened_body : TopoDS_Shape) (output_path : string)
    (runtime_params : RuntimeParams) : M (bool * string) :=
  log "Phase 4" "Generating Parametric Grooves..." ;;
  let groove_params := groove_params_of runtime_params in
  let groove_generator := GrooveGenerator.__init__ groove_params in
  let clip_params := clip_params_of runtime_params in
  let '(is_valid, msg) := ClipParameters.validate float_str clip_params in
  if negb is_valid
  then
    log "Phase 4" ("Critical Error: Invalid clip parameters - " ++ msg) ;;
    ret (false, "Invalid clip parameters: " ++ msg)
  else
    let clip_generator := ClipGenerator.__init__ clip_params in
    let target_count := groove_count runtime_params in
    let locations_to_process := slice_to REFERENCE_CENTROIDS target_count in
    '(grooves_to_cut, clips_to_fuse) <-
      place_features groove_generator clip_generator thickened_body
        locations_to_process [] [] ;;
    final_solid <- lift (cut_grooves thickened_body grooves_to_cut) ;;
    final_solid <- lift (fuse_clips final_solid clips_to_fuse) ;;
    validate_and_export final_solid output_path.

(** Phase 3, then phases 4 to 6. *)
Definition check_geometry_and_continue (input_shape thickened_body : TopoDS_Shape)
    (output_path : string) (runtime_params : RuntimeParams) : M (bool * string) :=
  log "Phase 3" "Verifying outer geometry preservation..." ;;
  let dev := DistShapeShape_Value k input_shape thickened_body in
  (if Rgtb dev (1 / 1000)
   then log "Phase 3" ("Warning: Deviation " ++ float_4f dev ++ "mm detected.")
   else ret tt) ;;
  features_and_export thickened_body output_path runtime_params.

(** The two thickening attempts of phase 2. *)
Definition thicken_both_ways (input_shape : TopoDS_Shape) (thickness : R)
    : M (option TopoDS_Shape) :=
  let thickened_body := thicken input_shape (- Rabs thickness) in
  match thickened_body with
  | None =>
      log "Phase 2" "Thickening failed with negative offset. Trying positive..." ;;
      ret (thicken input_shape (Rabs thickness))
  | Some _ => ret thickened_body
  end.

(** The volume check of phase 2: a negative volume reverses the body. *)
Definition fix_orientation (thickened_body : TopoDS_Shape) : M TopoDS_Shape :=
  if Rltb (VolumeProperties_Mass k thickened_body) 0
  then
    log "Phase 2" "Notice: Negative Volume detected. Reversing orientation..." ;;
    ret (Reversed thickened_body)
  else ret thickened_body.

(** Phase 2, then the rest. *)
Definition thicken_and_continue (input_shape : TopoDS_Shape) (output_path : string)
    (runtime_params : RuntimeParams) : M (bool * string) :=
  let thickness := thickness runtime_params in
  log "Phase 2" ("Applying thickness " ++ float_str thickness ++ "mm INWARD...") ;;
  thickened_body <- thicken_both_ways input_shape thickness ;;
  match thickened_body with
  | None =>
      log "Phase 2" "Critical Error: Thickening failed in both directions." ;;
      ret (false, "Thickening failed.")
  | Some thickened_body =>
      thickened_body <- fix_orientation thickened_body ;;
      check_geometry_and_continue input_shape thickened_body output_path runtime_params
  end.

Definition run_pipeline (input_path output_path : string)
    (runtime_params : RuntimeParams) : M (bool * string) :=
  log "Phase 1" ("Loading " ++ input_path ++ "...") ;;
  let status := ReadFile k input_path in
  if negb (status =? 1)%Z
  then
    log "Phase 1" "Error: Could not read file." ;;
    ret (false, "Could not read STEP file.")
  else
    let input_shape := OneShape input_path in
    input_ok <- check_validity input_shape "Input" ;;
    if negb input_ok
    then
      log "Phase 1" "Critical Error: Input geometry corrupted." ;;
      ret (false, "Input geometry corrupted.")
    else
      let is_surface := More_FACE k input_shape in
      (if negb is_surface
       then log "Phase 1" "Warning: Input does not seem to contain faces."
       else ret tt) ;;
      thicken_and_continue input_shape output_path runtime_params.

End Pipeline.

End gen_cad_pipeline.



(** * Properties *)

(** ** Float comparisons *)

Lemma Rleb_true (x y : R) : Rleb x y = true <-> x <= y.
Proof. unfold Rleb; destruct (Rle_dec x y); split; intros; auto; discriminate || lra. Qed.

Lemma Rleb_false (x y : R) : Rleb x y = false <-> y < x.
Proof. unfold Rleb; destruct (Rle_dec x y); split; intros; auto; discriminate || lra. Qed.

Lemma Rltb_true (x y : R) : Rltb x y = true <-> x < y.
Proof. unfold Rltb; destruct (Rlt_dec x y); split; intros; auto; discriminate || lra. Qed.

Lemma Rltb_false (x y : R) : Rltb x y = false <-> y <= x.
Proof. unfold Rltb; destruct (Rlt_dec x y); split; intros; auto; discriminate || lra. Qed.

Lemma Rgeb_true (x y : R) : Rgeb x y = true <-> x >= y.
Proof. unfold Rgeb; destruct (Rge_dec x y); split; intros; auto; discriminate || lra. Qed.

Lemma Rgeb_false (x y : R) : Rgeb x y = false <-> x < y.
Proof. unfold Rgeb; destruct (Rge_dec x y); split; intros; auto; discriminate || lra. Qed.

Lemma Rgtb_true (x y : R) : Rgtb x y = true <-> x > y.
Proof. unfold Rgtb; destruct (Rgt_dec x y); split; intros; auto; discriminate || lra. Qed.

Lemma Rgtb_false (x y : R) : Rgtb x y = false <-> x <= y.
Proof. unfold Rgtb; destruct (Rgt_dec x y); split; intros; auto; discriminate || lra. Qed.

Lemma Reqb_true (x y : R) : Reqb x y = true <-> x = y.
Proof. unfold Reqb; destruct (Req_dec_T x y); split; intros; auto; discriminate || lra. Qed.

Lemma Reqb_false (x y : R) : Reqb x y = false <-> x <> y.
Proof. unfold Reqb; destruct (Req_dec_T x y); split; intros; auto; discriminate || lra. Qed.

(** ** ClipParameters.validate *)

(** Width and depth of the groove a clip is derived from. *)
Definition source_width (p : ClipParameters.t) : R :=
  GrooveParameters.width (ClipParameters.groove_params p).

Definition source_depth (p : ClipParameters.t) : R :=
  GrooveParameters.depth (ClipParameters.groove_params p).

(** Width and depth of the clip: [clip_width] and [clip_depth] of [validate]
    and [derive_from_groove]. *)
Definition derived_width (p : ClipParameters.t) : R :=
  source_width p - ClipParameters.assembly_clearance p.

Definition derived_depth (p : ClipParameters.t) : R :=
  source_depth p - ClipParameters.retention_offset p.

(** The five outcomes of a failed validation and the one of a successful
    one, each with the comparisons that led to it. *)
Inductive validate_case (float_str : R -> string) (p : ClipParameters.t)
  : bool * string -> Prop :=
| case_height :
    ClipParameters.height p <= 0 ->
    validate_case float_str p (false, ClipParameters.msg_height)
| case_clearance :
    0 < ClipParameters.height p ->
    ClipParameters.assembly_clearance p >= source_width p ->
    validate_case float_str p (false, ClipParameters.msg_clearance float_str p)
| case_offset :
    0 < ClipParameters.height p ->
    ClipParameters.assembly_clearance p < source_width p ->
    ClipParameters.retention_offset p >= source_depth p ->
    validate_case float_str p (false, ClipParameters.msg_offset float_str p)
| case_width :
    0 < ClipParameters.height p ->
    ClipParameters.assembly_clearance p < source_width p ->
    ClipParameters.retention_offset p < source_depth p ->
    derived_width p <= 0 ->
    validate_case float_str p (false, ClipParameters.msg_width float_str (derived_width p))
| case_depth :
    0 < ClipParameters.height p ->
    ClipParameters.assembly_clearance p < source_width p ->
    ClipParameters.retention_offset p < source_depth p ->
    0 < derived_width p ->
    derived_depth p <= 0 ->
    validate_case float_str p (false, ClipParameters.msg_depth float_str (derived_depth p))
| case_valid :
    0 < ClipParameters.height p ->
    ClipParameters.assembly_clearance p < source_width p ->
    ClipParameters.retention_offset p < source_depth p ->
    0 < derived_width p ->
    0 < derived_depth p ->
    validate_case float_str p (true, "Valid").

Lemma validate_cases (float_str : R -> string) (p : ClipParameters.t) :
  validate_case float_str p (ClipParameters.validate float_str p).
Proof.
  unfold ClipParameters.validate.
  fold (source_width p). fold (source_depth p).
  fold (derived_width p). fold (derived_depth p).
  destruct (Rleb (ClipParameters.height p) 0) eqn:Hh.
  { apply case_height. now apply Rleb_true. }
  apply Rleb_false in Hh.
  destruct (Rgeb (ClipParameters.assembly_clearance p) (source_width p)) eqn:Hc.
  { apply case_clearance; [assumption | now apply Rgeb_true]. }
  apply Rgeb_false in Hc.
  destruct (Rgeb (ClipParameters.retention_offset p) (source_depth p)) eqn:Hr.
  { apply case_offset; [assumption | assumption | now apply Rgeb_true]. }
  apply Rgeb_false in Hr.
  cbv zeta.
  destruct (Rleb (derived_width p) 0) eqn:Hw.
  { apply Rleb_true in Hw. now apply case_width. }
  apply Rleb_false in Hw.
  destruct (Rleb (derived_depth p) 0) eqn:Hd.
  { apply Rleb_true in Hd. now apply case_depth. }
  apply Rleb_false in Hd.
  now apply case_valid.
Qed.

Lemma validate_true_inv (float_str : R -> string) (p : ClipParameters.t) :
  fst (ClipParameters.validate float_str p) = true ->
  0 < ClipParameters.height p
  /\ ClipParameters.assembly_clearance p < source_width p
  /\ ClipParameters.retention_offset p < source_depth p.
Proof.
  intros H.
  destruct (validate_cases float_str p); simpl in H; try discriminate; auto.
Qed.

Lemma validate_true_intro (float_str : R -> string) (p : ClipParameters.t) :
  0 < ClipParameters.height p ->
  ClipParameters.assembly_clearance p < source_width p ->
  ClipParameters.retention_offset p < source_depth p ->
  ClipParameters.validate float_str p = (true, "Valid").
Proof.
  intros Hh Hc Hr.
  destruct (validate_cases float_str p); unfold derived_width, derived_depth in *;
    try reflexivity; lra.
Qed.

Lemma validate_false_intro (float_str : R -> string) (p : ClipParameters.t) :
  ClipParameters.height p <= 0
  \/ ClipParameters.assembly_clearance p >= source_width p
  \/ ClipParameters.retention_offset p >= source_depth p
  \/ derived_width p <= 0
  \/ derived_depth p <= 0 ->
  fst (ClipParameters.validate float_str p) = false.
Proof.
  intros H.
  destruct (validate_cases float_str p); unfold derived_width, derived_depth in *;
    try reflexivity.
  exfalso. lra.
Qed.

(** ** The pipeline monad *)

Import gen_cad_pipeline.

Lemma bind_Ok {A B : Type} (tr : list event) (a : A) (f : A -> M B) :
  bind (tr, Ok a) f = ((tr ++ fst (f a))%list, snd (f a)).
Proof. unfold bind. destruct (f a). reflexivity. Qed.

Lemma bind_Raise {A B : Type} (tr : list event) (e : exn) (f : A -> M B) :
  bind (tr, Raise e) f = (tr, Raise e).
Proof. reflexivity. Qed.

Lemma bind_log {B : Type} (phase message : string) (f : unit -> M B) :
  bind (log phase message) f
  = (stdout ("[" ++ phase ++ "] " ++ message) :: fst (f tt), snd (f tt)).
Proof. unfold log, emit. now rewrite bind_Ok. Qed.

Lemma bind_ret {A B : Type} (a : A) (f : A -> M B) : bind (ret a) f = f a.
Proof. unfold ret. rewrite bind_Ok. now destruct (f a). Qed.

Lemma bind_assoc {A B C : Type} (c : M A) (f : A -> M B) (g : B -> M C) :
  bind (bind c f) g = bind c (fun x => bind (f x) g).
Proof.
  destruct c as [tr [a|e]]; [|reflexivity].
  unfold bind at 2 3. destruct (f a) as [tr' [b|e]].
  - unfold bind. destruct (g b) as [tr'' r]. now rewrite app_assoc.
  - reflexivity.
Qed.

Lemma check_validity_eq (k : Kernel) (shape : TopoDS_Shape) (name : string) :
  check_validity k shape name
  = ([stdout ("[Validation] " ++ name
              ++ (if IsValid k shape then " is VALID." else " is INVALID."))],
     Ok (IsValid k shape)).
Proof.
  unfold check_validity. destruct (IsValid k shape); rewrite bind_log; reflexivity.
Qed.

(** A run that stopped with a failure having only printed: no shape was
    created and nothing was written. *)
Definition printed_only (tr : list event) : Prop :=
  forall e, In e tr -> exists line, e = stdout line.

Definition aborted (run : M (bool * string)) : Prop :=
  printed_only (fst run) /\ exists msg, snd run = Ok (false, msg).

Lemma printed_only_cons (line : string) (tr : list event) :
  printed_only tr -> printed_only (stdout line :: tr).
Proof.
  intros H e [<- | Hin]; [now exists line | now apply H].
Qed.

Lemma printed_only_nil : printed_only [].
Proof. intros e []. Qed.

Lemma aborted_log (phase message : string) (f : unit -> M (bool * string)) :
  aborted (f tt) -> aborted (bind (log phase message) f).
Proof.
  intros [Htr Hres]. rewrite bind_log. split; simpl.
  - now apply printed_only_cons.
  - exact Hres.
Qed.

Lemma aborted_ret (msg : string) : aborted (ret (false, msg)).
Proof.
  split; simpl; [apply printed_only_nil | now exists msg].
Qed.

Section PipelineFacts.

Variable k : Kernel.
Variable float_str : R -> string.
Variable float_4f : R -> string.

Lemma features_and_export_invalid (thickened_body : TopoDS_Shape) (output_path : string)
    (runtime_params : RuntimeParams) :
  fst (ClipParameters.validate float_str (clip_params_of runtime_params)) = false ->
  features_and_export k float_str thickened_body output_path runtime_params
  = ([stdout "[Phase 4] Generating Parametric Grooves...";
      stdout ("[Phase 4] Critical Error: Invalid clip parameters - "
              ++ snd (ClipParameters.validate float_str (clip_params_of runtime_params)))],
     Ok (false, "Invalid clip parameters: "
                ++ snd (ClipParameters.validate float_str (clip_params_of runtime_params)))).
Proof.
  intros H. unfold features_and_export. rewrite bind_log.
  destruct (ClipParameters.validate float_str (clip_params_of runtime_params)) as [ok msg].
  simpl in H. subst ok. cbn [negb]. rewrite bind_log. reflexivity.
Qed.

Lemma check_geometry_aborted (input_shape thickened_body : TopoDS_Shape)
    (output_path : string) (runtime_params : RuntimeParams) :
  fst (ClipParameters.validate float_str (clip_params_of runtime_params)) = false ->
  aborted (check_geometry_and_continue k float_str float_4f input_shape thickened_body
             output_path runtime_params).
Proof.
  intros H. unfold check_geometry_and_continue. apply aborted_log.
  assert (Hrest : aborted (features_and_export k float_str thickened_body output_path
                             runtime_params)).
  { rewrite features_and_export_invalid by assumption.
    split; simpl.
    - now repeat apply printed_only_cons; apply printed_only_nil.
    - eexists. reflexivity. }
  destruct (Rgtb _ _).
  - now apply aborted_log.
  - now rewrite bind_ret.
Qed.

Lemma thicken_and_continue_aborted (input_shape : TopoDS_Shape) (output_path : string)
    (runtime_params : RuntimeParams) :
  fst (ClipParameters.validate float_str (clip_params_of runtime_params)) = false ->
  aborted (thicken_and_continue k float_str float_4f input_shape output_path runtime_params).
Proof.
  intros H. unfold thicken_and_continue. apply aborted_log.
  assert (Hafter : forall body,
    aborted (bind (fix_orientation k body) (fun b =>
       check_geometry_and_continue k float_str float_4f input_shape b output_path
         runtime_params))).
  { intros body. unfold fix_orientation. destruct (Rltb _ _).
    - rewrite bind_assoc. apply aborted_log. rewrite bind_ret.
      now apply check_geometry_aborted.
    - rewrite bind_ret. now apply check_geometry_aborted. }
  assert (Hfail : aborted
    (bind (log "Phase 2" "Critical Error: Thickening failed in both directions.")
       (fun _ => ret (false, "Thickening failed.")))).
  { apply aborted_log, aborted_ret. }
  unfold thicken_both_ways.
  destruct (thicken k input_shape (- Rabs (thickness runtime_params))) as [body|].
  - rewrite bind_ret. apply Hafter.
  - rewrite bind_assoc. apply aborted_log. rewrite bind_ret.
    destruct (thicken k input_shape (Rabs (thickness runtime_params))) as [body|].
    + apply Hafter.
    + apply Hfail.
Qed.

Lemma run_pipeline_aborted (input_path output_path : string)
    (runtime_params : RuntimeParams) :
  fst (ClipParameters.validate float_str (clip_params_of runtime_params)) = false ->
  aborted (run_pipeline k float_str float_4f input_path output_path runtime_params).
Proof.
  intros H. unfold run_pipeline. apply aborted_log.
  destruct (negb (ReadFile k input_path =? 1)%Z).
  { apply aborted_log, aborted_ret. }
  rewrite check_validity_eq, bind_Ok.
  destruct (IsValid k (OneShape input_path)); cbn [negb].
  - assert (Hrest := thicken_and_continue_aborted (OneShape input_path) output_path
                       runtime_params H).
    destruct (More_FACE k (OneShape input_path)); cbn [negb].
    + rewrite bind_ret. destruct Hrest as [Htr Hres].
      split; simpl; [now apply printed_only_cons | exact Hres].
    + rewrite bind_log. destruct Hrest as [Htr Hres].
      split; simpl; [now repeat apply printed_only_cons | exact Hres].
  - rewrite bind_log. unfold ret.
    split; simpl.
    + now repeat apply printed_only_cons; apply printed_only_nil.
    + eexists. reflexivity.
Qed.

End PipelineFacts.

(** ** Sample inputs *)

(** A float rendering, for runs on concrete inputs. *)
Definition plain_str : R -> string := fun _ => "#".

(** The parameters of [verify_clip_height.py]: a 5 x 5 rectangular groove of
    height 20 (its [length] left at the default), a clip of height 10 with
    zero clearance and zero retention offset. *)
Definition verify_groove_params : GrooveParameters.t :=
  GrooveParameters.Build 5 5 20 GrooveParameters.default_length RECTANGULAR
    GrooveParameters.default_fillet_radius.

Definition verify_clip_params : ClipParameters.t :=
  ClipParameters.Build verify_groove_params 10 0 0.

(** A clip whose clearance (6) exceeds the groove width (5). *)
Definition wide_clearance_params : ClipParameters.t :=
  ClipParameters.Build
    (GrooveParameters.Build 5 (5 / 2) 10 10 RECTANGULAR 0) 20 6 (1 / 10).

(** A filleted groove with the default clearances. *)
Definition filleted_clip_params : ClipParameters.t :=
  ClipParameters.Build
    (GrooveParameters.Build 5 (5 / 2) 10 10 RECTANGULAR (1 / 2)) 20
    ClipParameters.default_assembly_clearance ClipParameters.default_retention_offset.

(** ** C8: when validation fails, and what the pipeline does then *)

(** C8: [validate] fails exactly when the clip height is not positive, or
    the clearance is at least the source width, or the retention offset is at
    least the source depth, or a derived dimension is not positive.  The
    message of a failure is that of the first check that fails, and names
    it: "Clip height must be positive" for a height that is not positive,
    the clearance and the groove width for a clearance at least the width,
    the offset and the groove depth for an offset at least the depth (the
    checks on the derived sizes repeat these two and never fire).  When the
    parameters of a run fail validation, the run ends in a failure having
    only printed: no shape is created and nothing is written, and from phase
    4 the failure carries the validation message. *)
Theorem validate_failure_spec (float_str : R -> string) (p : ClipParameters.t) :
  (fst (ClipParameters.validate float_str p) = false <->
     ClipParameters.height p <= 0
     \/ ClipParameters.assembly_clearance p >= source_width p
     \/ ClipParameters.retention_offset p >= source_depth p
     \/ derived_width p <= 0
     \/ derived_depth p <= 0)
  /\ (ClipParameters.height p <= 0 ->
      ClipParameters.validate float_str p = (false, "Clip height must be positive"))
  /\ (0 < ClipParameters.height p ->
      ClipParameters.assembly_clearance p >= source_width p ->
      ClipParameters.validate float_str p
      = (false,
         "Assembly clearance (" ++ float_str (ClipParameters.assembly_clearance p)
           ++ "mm) must be less than groove width ("
           ++ float_str (source_width p) ++ "mm)"))
  /\ (0 < ClipParameters.height p ->
      ClipParameters.assembly_clearance p < source_width p ->
      ClipParameters.retention_offset p >= source_depth p ->
      ClipParameters.validate float_str p
      = (false,
         "Retention offset (" ++ float_str (ClipParameters.retention_offset p)
           ++ "mm) must be less than groove depth ("
           ++ float_str (source_depth p) ++ "mm)"))
  /\ (fst (ClipParameters.validate float_str p) = false ->
      (snd (ClipParameters.validate float_str p) = "Clip height must be positive"
         /\ ClipParameters.height p <= 0)
      \/ (snd (ClipParameters.validate float_str p)
            = "Assembly clearance (" ++ float_str (ClipParameters.assembly_clearance p)
                ++ "mm) must be less than groove width ("
                ++ float_str (source_width p) ++ "mm)"
            /\ ClipParameters.assembly_clearance p >= source_width p)
      \/ (snd (ClipParameters.validate float_str p)
            = "Retention offset (" ++ float_str (ClipParameters.retention_offset p)
                ++ "mm) must be less than groove depth ("
                ++ float_str (source_depth p) ++ "mm)"
            /\ ClipParameters.retention_offset p >= source_depth p))
  /\ (forall (k : Kernel) (float_4f : R -> string) (input_path output_path : string)
        (runtime_params : RuntimeParams),
      clip_params_of runtime_params = p ->
      fst (ClipParameters.validate float_str p) = false ->
      aborted (run_pipeline k float_str float_4f input_path output_path runtime_params))
  /\ (forall (k : Kernel) (thickened_body : TopoDS_Shape) (output_path : string)
        (runtime_params : RuntimeParams),
      clip_params_of runtime_params = p ->
      fst (ClipParameters.validate float_str p) = false ->
      snd (features_and_export k float_str thickened_body output_path runtime_params)
      = Ok (false, "Invalid clip parameters: " ++ snd (ClipParameters.validate float_str p))).
Proof.
  repeat apply conj.
  - intros H. destruct (validate_cases float_str p); simpl in H; try discriminate; tauto.
  - apply validate_false_intro.
  - intros Hh. destruct (validate_cases float_str p); try reflexivity; exfalso; lra.
  - intros Hh Hc.
    destruct (validate_cases float_str p); try reflexivity; exfalso; lra.
  - intros Hh Hc Hr.
    destruct (validate_cases float_str p); try reflexivity; exfalso; lra.
  - intros H. destruct (validate_cases float_str p); simpl in H; try discriminate.
    + left. now split.
    + right; left. now split.
    + right; right. now split.
    + exfalso. unfold derived_width in *. lra.
    + exfalso. unfold derived_depth in *. lra.
  - intros k float_4f input_path output_path runtime_params <- H.
    now apply run_pipeline_aborted.
  - intros k thickened_body output_path runtime_params <- H.
    now rewrite features_and_export_invalid.
Qed.

(** A kernel on which every operation succeeds: the file reads, every shape
    is valid, the inward offset is done, volumes are positive, every target
    point projects onto a face with normal +Z, every boolean is done and the
    export is confirmed.  The empty property set has mass zero. *)
Definition nominal_kernel : Kernel := {|
  ReadFile := fun _ => 1%Z;
  IsValid := fun _ => true;
  More_FACE := fun _ => true;
  MakeThickSolid_IsDone := fun _ _ => true;
  VolumeProperties_Mass := fun _ => 1;
  GProp_GProps_Mass := 0;
  DistShapeShape_Value := fun _ _ => 0;
  DistShapeShape := fun p _ =>
    {| Extrema_IsDone := true;
       NbSolution := 1;
       PointOnShape2 := p;
       SupportOnShape2_is_FACE := true;
       Normal := Some (XYZ 0 0 1) |};
  Fuse_status := fun _ _ => IsDone;
  Cut_status := fun _ _ => IsDone;
  Write := fun _ _ => 1%Z;
  Stl_raises := fun _ _ => None
|}.

(** A run whose clearance (6) exceeds the groove width (5). *)
Definition wide_clearance_run : RuntimeParams := {|
  thickness := 265 / 100;
  groove_count := 5;
  groove_shape := RECTANGULAR;
  groove_height := 10;
  groove_width := 5;
  groove_depth := 5 / 2;
  clip_height := 20;
  assembly_clearance := 6;
  retention_offset := 1 / 10
|}.

Lemma validate_failure_spec_witness :
  fst (ClipParameters.validate plain_str wide_clearance_params) = false
  /\ ClipParameters.validate plain_str wide_clearance_params
     = (false, "Assembly clearance (#mm) must be less than groove width (#mm)")
  /\ aborted (run_pipeline nominal_kernel plain_str plain_str "in.stp" "out.stp"
                wide_clearance_run)
  /\ snd (features_and_export nominal_kernel plain_str (OneShape "in.stp") "out.stp"
            wide_clearance_run)
     = Ok (false, "Invalid clip parameters: "
                  ++ snd (ClipParameters.validate plain_str wide_clearance_params)).
Proof.
  destruct (validate_failure_spec plain_str wide_clearance_params)
    as (Hiff & _ & Hclr & _ & _ & Hrun & Hfeat).
  assert (Hh : 0 < ClipParameters.height wide_clearance_params) by (simpl; lra).
  assert (Hc : ClipParameters.assembly_clearance wide_clearance_params
               >= source_width wide_clearance_params)
    by (unfold source_width; simpl; lra).
  assert (Hf : fst (ClipParameters.validate plain_str wide_clearance_params) = false)
    by (apply Hiff; right; left; exact Hc).
  split; [exact Hf|].
  split; [exact (Hclr Hh Hc)|].
  split.
  - exact (Hrun nominal_kernel plain_str "in.stp" "out.stp" wide_clearance_run eq_refl Hf).
  - exact (Hfeat nominal_kernel (OneShape "in.stp") "out.stp" wide_clearance_run eq_refl Hf).
Defined.

(** ** C9: the derived parameters *)

Lemma py_div_Ok (x y : R) : y <> 0 -> py_div x y = Ok (x / y).
Proof.
  intros H. unfold py_div. destruct (Req_dec_T y 0); [contradiction | reflexivity].
Qed.

(** The derived record of a clip, as [derive_from_groove] builds it when the
    source fillet radius is not negative. *)
Definition derived_params (p : ClipParameters.t) : GrooveParameters.t :=
  GrooveParameters.Build
    (derived_width p)
    (derived_depth p)
    (ClipParameters.height p)
    (ClipParameters.height p)
    (GrooveParameters.type (ClipParameters.groove_params p))
    (if Rgtb (GrooveParameters.fillet_radius (ClipParameters.groove_params p)) 0
     then GrooveParameters.fillet_radius (ClipParameters.groove_params p)
          * (derived_width p / source_width p)
     else 0).

Lemma derive_from_groove_fresh (p : ClipParameters.t) :
  (0 < GrooveParameters.fillet_radius (ClipParameters.groove_params p) ->
   source_width p <> 0) ->
  ClipGenerator.derive_from_groove (ClipGenerator.__init__ p)
  = Ok (derived_params p, ClipGenerator.Build p (Some (derived_params p))).
Proof.
  intros Hw. unfold ClipGenerator.derive_from_groove, derived_params. simpl.
  fold (source_width p). fold (source_depth p).
  fold (derived_width p). fold (derived_depth p).
  destruct (Rgtb _ 0) eqn:Hf.
  - apply Rgtb_true in Hf. rewrite py_div_Ok by (apply Hw; lra). reflexivity.
  - reflexivity.
Qed.

(** A generator that has already derived returns the cached record and
    stays as it is. *)
Lemma derive_from_groove_cached (p : ClipParameters.t) (cached : GrooveParameters.t) :
  ClipGenerator.derive_from_groove (ClipGenerator.Build p (Some cached))
  = Ok (cached, ClipGenerator.Build p (Some cached)).
Proof. reflexivity. Qed.

(** C9: [derive_from_groove] returns parameters whose width is the source
    width minus the clearance, whose depth is the source depth minus the
    retention offset, whose kind is the source kind and whose fillet radius
    is the source fillet radius scaled by derived width over source width
    (for a fillet radius that is not negative; a positive one needs a
    non-zero source width for the division); when [0 < clearance < width]
    and [0 < offset < depth] the derived width and depth are positive. *)
Theorem derive_from_groove_spec (p : ClipParameters.t) :
  0 <= GrooveParameters.fillet_radius (ClipParameters.groove_params p) ->
  (0 < GrooveParameters.fillet_radius (ClipParameters.groove_params p) ->
   source_width p <> 0) ->
  exists (derived : GrooveParameters.t) (generator : ClipGenerator.t),
    ClipGenerator.derive_from_groove (ClipGenerator.__init__ p) = Ok (derived, generator)
    /\ GrooveParameters.width derived = source_width p - ClipParameters.assembly_clearance p
    /\ GrooveParameters.depth derived = source_depth p - ClipParameters.retention_offset p
    /\ GrooveParameters.type derived = GrooveParameters.type (ClipParameters.groove_params p)
    /\ GrooveParameters.fillet_radius derived
       = GrooveParameters.fillet_radius (ClipParameters.groove_params p)
         * (GrooveParameters.width derived / source_width p)
    /\ (0 < ClipParameters.assembly_clearance p < source_width p ->
        0 < ClipParameters.retention_offset p < source_depth p ->
        0 < GrooveParameters.width derived /\ 0 < GrooveParameters.depth derived).
Proof.
  intros Hf Hw.
  exists (derived_params p), (ClipGenerator.Build p (Some (derived_params p))).
  split; [now apply derive_from_groove_fresh|].
  unfold derived_params, derived_width, derived_depth. simpl.
  repeat split; try lra.
  destruct (Rgtb _ 0) eqn:Hg; [reflexivity|].
  apply Rgtb_false in Hg.
  assert (H0 : GrooveParameters.fillet_radius (ClipParameters.groove_params p) = 0) by lra.
  rewrite H0. ring.
Qed.

Lemma derive_from_groove_spec_witness :
  exists (derived : GrooveParameters.t) (generator : ClipGenerator.t),
    ClipGenerator.derive_from_groove (ClipGenerator.__init__ filleted_clip_params)
    = Ok (derived, generator)
    /\ GrooveParameters.width derived = 5 - 2 / 10
    /\ GrooveParameters.depth derived = 5 / 2 - 1 / 10
    /\ GrooveParameters.type derived = RECTANGULAR
    /\ GrooveParameters.fillet_radius derived
       = 1 / 2 * (GrooveParameters.width derived / 5)
    /\ 0 < GrooveParameters.width derived /\ 0 < GrooveParameters.depth derived.
Proof.
  assert (Hf : 0 <= GrooveParameters.fillet_radius
                      (ClipParameters.groove_params filleted_clip_params))
    by (simpl; lra).
  assert (Hw : 0 < GrooveParameters.fillet_radius
                     (ClipParameters.groove_params filleted_clip_params) ->
               source_width filleted_clip_params <> 0)
    by (intros _; unfold source_width; simpl; lra).
  destruct (derive_from_groove_spec filleted_clip_params Hf Hw)
    as (derived & generator & Hd & Hwd & Hdp & Hty & Hfl & Hpos).
  exists derived, generator.
  assert (Hc : 0 < ClipParameters.assembly_clearance filleted_clip_params
               < source_width filleted_clip_params)
    by (unfold source_width, ClipParameters.default_assembly_clearance; simpl;
        unfold ClipParameters.default_assembly_clearance; lra).
  assert (Hr : 0 < ClipParameters.retention_offset filleted_clip_params
               < source_depth filleted_clip_params)
    by (unfold source_depth; simpl; unfold ClipParameters.default_retention_offset; lra).
  destruct (Hpos Hc Hr) as [Hp1 Hp2].
  repeat split; assumption.
Defined.

(** ** Extents of the generated shapes *)

Ltac minmax :=
  unfold Rmin, Rmax; repeat (destruct (Rle_dec _ _)); try lra.

Lemma sqrt3_pos : 0 < sqrt 3.
Proof. apply sqrt_lt_R0. lra. Qed.

Lemma sqrt3_sqr : sqrt 3 * sqrt 3 = 3.
Proof. apply sqrt_sqrt. lra. Qed.

Lemma sqrt3_lt_2 : sqrt 3 < 2.
Proof.
  destruct (Rlt_dec (sqrt 3) 2) as [H|H]; [exact H | exfalso].
  assert (H2 : 2 <= sqrt 3) by lra.
  assert (H4 : 2 * 2 <= sqrt 3 * sqrt 3) by (apply Rmult_le_compat; lra).
  rewrite sqrt3_sqr in H4. lra.
Qed.

(** The box kinds: a box for RECTANGULAR and SQUARE, a cylinder for
    CIRCULAR.  Along Z they span from minus the depth to zero. *)
Lemma groove_extent_z_flat (gp : GrooveParameters.t) :
  GrooveParameters.type gp <> TRIANGLE ->
  0 <= GrooveParameters.depth gp ->
  exists b : Bnd_Box,
    extent (GrooveGenerator.create_shape (GrooveGenerator.__init__ gp)) = Some b
    /\ zmin b = - GrooveParameters.depth gp
    /\ zmax b = 0.
Proof.
  intros Hty Hd. unfold GrooveGenerator.create_shape. simpl.
  destruct (GrooveParameters.type gp); try contradiction;
    eexists; (split; [reflexivity|]); simpl;
    unfold cyl_lo, cyl_hi;
    replace (1 - 1 * 1) with 0 by ring; rewrite ?sqrt_0;
    split; minmax.
Qed.

(** The triangle: its base lies at minus the depth and its apex a triangle
    height above. *)
Lemma groove_extent_z_triangle (gp : GrooveParameters.t) :
  GrooveParameters.type gp = TRIANGLE ->
  0 <= GrooveParameters.width gp ->
  exists b : Bnd_Box,
    extent (GrooveGenerator.create_shape (GrooveGenerator.__init__ gp)) = Some b
    /\ zmin b = - GrooveParameters.depth gp
    /\ zmax b = - GrooveParameters.depth gp + GrooveParameters.width gp * sqrt 3 / 2.
Proof.
  intros Hty Hw. unfold GrooveGenerator.create_shape. simpl. rewrite Hty.
  eexists; (split; [reflexivity|]); simpl.
  assert (Hh : 0 <= GrooveParameters.width gp * sqrt 3 / 2).
  { assert (H := sqrt3_pos).
    assert (0 <= GrooveParameters.width gp * sqrt 3) by (apply Rmult_le_pos; lra).
    lra. }
  set (h := GrooveParameters.width gp * sqrt 3 / 2) in *. clearbody h.
  split; minmax.
Qed.

(** Along Y a RECTANGULAR box spans the [length] field. *)
Lemma rectangular_extent_y (gp : GrooveParameters.t) :
  GrooveParameters.type gp = RECTANGULAR ->
  0 <= GrooveParameters.length gp ->
  exists b : Bnd_Box,
    extent (GrooveGenerator.create_shape (GrooveGenerator.__init__ gp)) = Some b
    /\ ymax b - ymin b = GrooveParameters.length gp.
Proof.
  intros Hty Hl. unfold GrooveGenerator.create_shape. simpl. rewrite Hty.
  eexists; (split; [reflexivity|]); simpl. minmax.
Qed.

(** The shape of a fresh clip generator: the groove shape of the derived
    parameters, translated by minus the retention offset unless that is
    zero. *)
Definition clip_shape_of (p : ClipParameters.t) : TopoDS_Shape :=
  let base := GrooveGenerator.create_shape (GrooveGenerator.__init__ (derived_params p)) in
  if negb (Reqb (ClipParameters.retention_offset p) 0)
  then BRepBuilderAPI_Transform base
         (SetTranslation (XYZ 0 0 (- ClipParameters.retention_offset p)))
  else base.

Lemma clip_create_shape_fresh (p : ClipParameters.t) :
  (0 < GrooveParameters.fillet_radius (ClipParameters.groove_params p) ->
   source_width p <> 0) ->
  ClipGenerator.create_shape (ClipGenerator.__init__ p)
  = Ok (clip_shape_of p, ClipGenerator.Build p (Some (derived_params p))).
Proof.
  intros Hw. unfold ClipGenerator.create_shape.
  rewrite derive_from_groove_fresh by assumption. reflexivity.
Qed.

Lemma clip_create_shape_cached (p : ClipParameters.t) :
  ClipGenerator.create_shape (ClipGenerator.Build p (Some (derived_params p)))
  = Ok (clip_shape_of p, ClipGenerator.Build p (Some (derived_params p))).
Proof. reflexivity. Qed.

(** The clip shape is the derived groove shape moved down by the retention
    offset. *)
Lemma clip_extent_shift (p : ClipParameters.t) (b : Bnd_Box) :
  extent (GrooveGenerator.create_shape (GrooveGenerator.__init__ (derived_params p)))
  = Some b ->
  exists b' : Bnd_Box,
    extent (clip_shape_of p) = Some b'
    /\ zmin b' = zmin b - ClipParameters.retention_offset p
    /\ zmax b' = zmax b - ClipParameters.retention_offset p
    /\ ymin b' = ymin b /\ ymax b' = ymax b.
Proof.
  intros Hb. unfold clip_shape_of.
  destruct (Reqb (ClipParameters.retention_offset p) 0) eqn:Hr; cbn [negb].
  - apply Reqb_true in Hr. exists b. split; [exact Hb|]. rewrite Hr.
    repeat split; lra.
  - cbn [extent]. rewrite Hb. eexists; (split; [reflexivity|]); simpl.
    repeat split; lra.
Qed.

Lemma clip_extent_z (p : ClipParameters.t) :
  0 < derived_width p ->
  0 < derived_depth p ->
  exists b : Bnd_Box,
    extent (clip_shape_of p) = Some b
    /\ zmin b = - source_depth p
    /\ (GrooveParameters.type (ClipParameters.groove_params p) <> TRIANGLE ->
        zmax b = - ClipParameters.retention_offset p)
    /\ (GrooveParameters.type (ClipParameters.groove_params p) = TRIANGLE ->
        zmax b = - source_depth p + derived_width p * sqrt 3 / 2).
Proof.
  intros Hw Hd.
  destruct (GrooveParameters.type (ClipParameters.groove_params p)) eqn:Hty.
  1-3: destruct (groove_extent_z_flat (derived_params p)) as (b & Hb & Hlo & Hhi);
    [simpl; rewrite Hty; discriminate | simpl; lra |];
    destruct (clip_extent_shift p b Hb) as (b' & Hb' & Hlo' & Hhi' & _);
    exists b'; split; [exact Hb'|];
    simpl in Hlo; unfold derived_depth in *;
    repeat split; intros; try discriminate; try contradiction; lra.
  destruct (groove_extent_z_triangle (derived_params p)) as (b & Hb & Hlo & Hhi);
    [simpl; exact Hty | simpl; lra |].
  destruct (clip_extent_shift p b Hb) as (b' & Hb' & Hlo' & Hhi' & _).
  exists b'. split; [exact Hb'|].
  simpl in Hlo, Hhi. unfold derived_depth in *.
  repeat split; intros; try contradiction; lra.
Qed.

(** ** C1: where the clip sits along Z *)

(** A triangular groove of width 4 and depth 5 with a clip of clearance 2
    and retention offset 1. *)
Definition triangle_clip_params : ClipParameters.t :=
  ClipParameters.Build (GrooveParameters.Build 4 5 10 10 TRIANGLE 0) 10 2 1.

(** The end-to-end example: a 10 x 5 x 2.5 rectangular groove, a clip of
    height 20, clearance 0.2 and retention offset 0.1. *)
Definition default_clip_params : ClipParameters.t :=
  ClipParameters.Build (GrooveParameters.Build 5 (5 / 2) 10 10 RECTANGULAR 0) 20
    (2 / 10) (1 / 10).

(** The same dimensions with the triangular kind. *)
Definition triangular_default_params : ClipParameters.t :=
  ClipParameters.Build (GrooveParameters.Build 5 (5 / 2) 10 10 TRIANGLE 0) 20
    (2 / 10) (1 / 10).

Lemma sqrt3_gt_3_2 : 3 / 2 < sqrt 3.
Proof.
  destruct (Rlt_dec (3 / 2) (sqrt 3)) as [H|H]; [exact H | exfalso].
  assert (H0 := sqrt3_pos).
  assert (H2 : sqrt 3 * sqrt 3 <= 3 / 2 * (3 / 2)) by (apply Rmult_le_compat; lra).
  rewrite sqrt3_sqr in H2. lra.
Qed.

(** C1 fails on the code for the triangular kind.  [create_shape] of the
    clip assumes that the derived shape spans Z in [-clip depth, 0] and
    shifts it by minus the retention offset, to reach [-d, -r]; the
    triangular profile instead has its base at minus its depth and its apex a
    triangle height above.  So a validated triangular clip has its far face
    at Z = -d, and its near extent at -d + (w - c) * sqrt 3 / 2, whatever the
    retention offset r: the near extent is at -r only when the triangle
    height of the clip happens to equal the clip depth d - r, and it lies
    above the surface Z = 0 as soon as that height exceeds d. *)
Theorem triangular_clip_not_recessed (float_str : R -> string) (p : ClipParameters.t) :
  GrooveParameters.type (ClipParameters.groove_params p) = TRIANGLE ->
  fst (ClipParameters.validate float_str p) = true ->
  0 <= ClipParameters.assembly_clearance p ->
  0 <= ClipParameters.retention_offset p ->
  exists (shape : TopoDS_Shape) (generator : ClipGenerator.t) (clip_box : Bnd_Box),
    ClipGenerator.create_shape (ClipGenerator.__init__ p) = Ok (shape, generator)
    /\ extent shape = Some clip_box
    /\ zmin clip_box = - source_depth p
    /\ zmax clip_box = - source_depth p + derived_width p * sqrt 3 / 2
    /\ (zmax clip_box = - ClipParameters.retention_offset p
        <-> derived_width p * sqrt 3 / 2 = derived_depth p)
    /\ (source_depth p < derived_width p * sqrt 3 / 2 -> 0 < zmax clip_box).
Proof.
  intros Hty Hv Hc Hr.
  destruct (validate_true_inv float_str p Hv) as (Hh & Hcw & Hrd).
  assert (Hw : 0 < derived_width p) by (unfold derived_width; lra).
  assert (Hd : 0 < derived_depth p) by (unfold derived_depth; lra).
  destruct (clip_extent_z p Hw Hd) as (cb & Hcb & Hlo & _ & Htri).
  exists (clip_shape_of p), (ClipGenerator.Build p (Some (derived_params p))), cb.
  split. { apply clip_create_shape_fresh. intros _. lra. }
  split; [exact Hcb|]. split; [exact Hlo|].
  rewrite (Htri Hty). split; [reflexivity|].
  unfold derived_depth.
  set (h := derived_width p * sqrt 3 / 2). clearbody h.
  split; [split; intros H; lra | intros H; lra].
Qed.

Lemma triangular_clip_not_recessed_witness :
  fst (ClipParameters.validate plain_str triangular_default_params) = true
  /\ exists (shape : TopoDS_Shape) (generator : ClipGenerator.t) (clip_box : Bnd_Box),
       ClipGenerator.create_shape (ClipGenerator.__init__ triangular_default_params)
       = Ok (shape, generator)
       /\ extent shape = Some clip_box
       /\ zmin clip_box = - (5 / 2)
       /\ zmax clip_box = - (5 / 2) + (5 - 2 / 10) * sqrt 3 / 2
       /\ zmax clip_box <> - (1 / 10)
       /\ 0 < zmax clip_box.
Proof.
  assert (Hv : fst (ClipParameters.validate plain_str triangular_default_params) = true).
  { rewrite validate_true_intro; [reflexivity | | |];
      unfold source_width, source_depth; simpl; lra. }
  split; [exact Hv|].
  destruct (triangular_clip_not_recessed plain_str triangular_default_params eq_refl Hv)
    as (shape & generator & cb & Hs & Hcb & Hlo & Hhi & _ & _);
    [simpl; lra | simpl; lra |].
  exists shape, generator, cb.
  unfold source_depth, derived_width, source_width in Hlo, Hhi. simpl in Hlo, Hhi.
  assert (H3 := sqrt3_gt_3_2).
  repeat split; try assumption; rewrite Hhi; lra.
Defined.

(** X25: for the rectangular, square and circular kinds the recess holds:
    a clip that passes validation, with a clearance and a retention offset
    that are not negative, occupies Z in [-d, -r], the source profile
    occupying [-d, 0]: its far face is flush with that of the source and its
    near face is set back by the retention offset.  The equalities are exact,
    hence within any tolerance. *)
Theorem flat_clip_recess (float_str : R -> string) (p : ClipParameters.t) :
  GrooveParameters.type (ClipParameters.groove_params p) <> TRIANGLE ->
  fst (ClipParameters.validate float_str p) = true ->
  0 <= ClipParameters.assembly_clearance p ->
  0 <= ClipParameters.retention_offset p ->
  exists (shape : TopoDS_Shape) (generator : ClipGenerator.t)
         (clip_box source_box : Bnd_Box),
    ClipGenerator.create_shape (ClipGenerator.__init__ p) = Ok (shape, generator)
    /\ extent shape = Some clip_box
    /\ extent (GrooveGenerator.create_shape
                 (GrooveGenerator.__init__ (ClipParameters.groove_params p)))
       = Some source_box
    /\ zmin clip_box = - source_depth p
    /\ zmax clip_box = - ClipParameters.retention_offset p
    /\ zmin source_box = - source_depth p
    /\ zmax source_box = 0.
Proof.
  intros Hty Hv Hc Hr.
  destruct (validate_true_inv float_str p Hv) as (Hh & Hcw & Hrd).
  assert (Hw : 0 < derived_width p) by (unfold derived_width; lra).
  assert (Hd : 0 < derived_depth p) by (unfold derived_depth; lra).
  destruct (clip_extent_z p Hw Hd) as (cb & Hcb & Hlo & Hflat & _).
  destruct (groove_extent_z_flat (ClipParameters.groove_params p))
    as (sb & Hsb & Hslo & Hshi); [exact Hty | fold (source_depth p); lra |].
  exists (clip_shape_of p), (ClipGenerator.Build p (Some (derived_params p))), cb, sb.
  split. { apply clip_create_shape_fresh. intros _. lra. }
  fold (source_depth p) in Hslo.
  repeat split; try assumption. now apply Hflat.
Qed.

Lemma flat_clip_recess_witness :
  fst (ClipParameters.validate plain_str default_clip_params) = true
  /\ exists (shape : TopoDS_Shape) (generator : ClipGenerator.t)
            (clip_box source_box : Bnd_Box),
       ClipGenerator.create_shape (ClipGenerator.__init__ default_clip_params)
       = Ok (shape, generator)
       /\ extent shape = Some clip_box
       /\ zmin clip_box = - (5 / 2)
       /\ zmax clip_box = - (1 / 10)
       /\ zmin source_box = - (5 / 2)
       /\ zmax source_box = 0.
Proof.
  assert (Hv : fst (ClipParameters.validate plain_str default_clip_params) = true).
  { rewrite validate_true_intro; [reflexivity | | |];
      unfold source_width, source_depth; simpl; lra. }
  split; [exact Hv|].
  destruct (flat_clip_recess plain_str default_clip_params)
    as (shape & generator & cb & sb & Hs & Hcb & Hsb & Hlo & Hhi & Hslo & Hshi);
    [simpl; discriminate | exact Hv | simpl; lra | simpl; lra |].
  exists shape, generator, cb, sb.
  repeat split; assumption.
Defined.

(** ** C4: what validation lets through *)

(** A 5 x 5 rectangular groove and a clip of height 10 whose clearance and
    retention offset are both -1. *)
Definition negative_clearance_params : ClipParameters.t :=
  ClipParameters.Build (GrooveParameters.Build 5 5 10 10 RECTANGULAR 0) 10 (- 1) (- 1).

(** C4 fails on the code: [validate] puts no lower bound on the clearance
    nor on the retention offset.  It accepts every record with a positive
    clip height, a clearance below the source width and an offset below the
    source depth, whatever the sign of the clearance and of the offset: zero
    passes, and so does a negative value.  With a negative clearance the
    clip is wider than its groove; with a negative offset it is deeper, and
    for the kinds other than the triangle its near face lies above the
    surface Z = 0, at minus the offset. *)
Theorem validate_has_no_lower_bound (float_str : R -> string) (p : ClipParameters.t) :
  0 < ClipParameters.height p ->
  ClipParameters.assembly_clearance p < source_width p ->
  ClipParameters.retention_offset p < source_depth p ->
  ClipParameters.validate float_str p = (true, "Valid")
  /\ (ClipParameters.assembly_clearance p < 0 -> source_width p < derived_width p)
  /\ (ClipParameters.retention_offset p < 0 -> source_depth p < derived_depth p)
  /\ (ClipParameters.retention_offset p < 0 ->
      GrooveParameters.type (ClipParameters.groove_params p) <> TRIANGLE ->
      0 < source_width p ->
      exists (shape : TopoDS_Shape) (generator : ClipGenerator.t) (clip_box : Bnd_Box),
        ClipGenerator.create_shape (ClipGenerator.__init__ p) = Ok (shape, generator)
        /\ extent shape = Some clip_box
        /\ zmin clip_box = - source_depth p
        /\ zmax clip_box = - ClipParameters.retention_offset p
        /\ 0 < zmax clip_box).
Proof.
  intros Hh Hc Hr.
  split; [now apply validate_true_intro|].
  unfold derived_width, derived_depth.
  split; [intros H; lra|]. split; [intros H; lra|].
  intros Hneg Hty Hw.
  destruct (clip_extent_z p) as (cb & Hcb & Hlo & Hflat & _);
    [unfold derived_width; lra | unfold derived_depth; lra |].
  exists (clip_shape_of p), (ClipGenerator.Build p (Some (derived_params p))), cb.
  split. { apply clip_create_shape_fresh. intros _. lra. }
  split; [exact Hcb|]. split; [exact Hlo|].
  rewrite (Hflat Hty). split; [reflexivity | lra].
Qed.

Lemma validate_has_no_lower_bound_witness :
  ClipParameters.validate plain_str negative_clearance_params = (true, "Valid")
  /\ source_width negative_clearance_params = 5
  /\ derived_width negative_clearance_params = 6
  /\ source_depth negative_clearance_params = 5
  /\ derived_depth negative_clearance_params = 6
  /\ exists (shape : TopoDS_Shape) (generator : ClipGenerator.t) (clip_box : Bnd_Box),
       ClipGenerator.create_shape (ClipGenerator.__init__ negative_clearance_params)
       = Ok (shape, generator)
       /\ extent shape = Some clip_box
       /\ zmin clip_box = - 5
       /\ zmax clip_box = 1.
Proof.
  destruct (validate_has_no_lower_bound plain_str negative_clearance_params)
    as (Hv & _ & _ & Hshape);
    [simpl; lra | unfold source_width; simpl; lra | unfold source_depth; simpl; lra |].
  split; [exact Hv|].
  unfold source_width, derived_width, source_depth, derived_depth, source_width,
    source_depth. simpl.
  split; [reflexivity|]. split; [lra|]. split; [reflexivity|]. split; [lra|].
  destruct Hshape as (shape & generator & cb & Hs & Hcb & Hlo & Hhi & _);
    [simpl; lra | simpl; discriminate | unfold source_width; simpl; lra |].
  exists shape, generator, cb.
  unfold source_depth in Hlo. simpl in Hlo, Hhi.
  repeat split; try assumption; lra.
Defined.

(** ** C5: the extent of a rectangular profile along Y *)

(** C5 at the groove of [verify_clip_height.py] (height 20, [length] left at
    its default 10): the box spans 10 along Y, not the height 20; the
    difference is far above the tolerance. *)
Theorem rectangular_extent_ignores_height :
  GrooveParameters.type verify_groove_params = RECTANGULAR
  /\ GrooveParameters.height verify_groove_params = 20
  /\ exists b : Bnd_Box,
       extent (GrooveGenerator.create_shape (GrooveGenerator.__init__ verify_groove_params))
       = Some b
       /\ ymax b - ymin b = 10
       /\ 1 / 1000000
          < Rabs (ymax b - ymin b - GrooveParameters.height verify_groove_params).
Proof.
  split; [reflexivity|]. split; [reflexivity|].
  destruct (rectangular_extent_y verify_groove_params) as (b & Hb & Hy);
    [reflexivity | simpl; unfold GrooveParameters.default_length; lra |].
  exists b. split; [exact Hb|].
  simpl in Hy. unfold GrooveParameters.default_length in Hy.
  split; [exact Hy|].
  rewrite Hy. simpl. unfold Rabs. destruct (Rcase_abs _); lra.
Qed.

(** When a caller sets [length] to the height, as the pipeline and
    [derive_from_groove] do, the extent along Y is the height. *)
Lemma rectangular_extent_y_height (gp : GrooveParameters.t) :
  GrooveParameters.type gp = RECTANGULAR ->
  GrooveParameters.length gp = GrooveParameters.height gp ->
  0 < GrooveParameters.height gp ->
  exists b : Bnd_Box,
    extent (GrooveGenerator.create_shape (GrooveGenerator.__init__ gp)) = Some b
    /\ ymax b - ymin b = GrooveParameters.height gp.
Proof.
  intros Hty Hl Hh.
  destruct (rectangular_extent_y gp Hty) as (b & Hb & Hy); [lra|].
  exists b. split; [exact Hb | lra].
Qed.

(** ** C6: the triangular profile *)








(** ** C7: thickening *)

(** [nominal_kernel] with other answers for the thickening and the volume. *)
Definition thickening_kernel (done : TopoDS_Shape -> R -> bool) (mass : TopoDS_Shape -> R)
    : Kernel := {|
  ReadFile := ReadFile nominal_kernel;
  IsValid := IsValid nominal_kernel;
  More_FACE := More_FACE nominal_kernel;
  MakeThickSolid_IsDone := done;
  VolumeProperties_Mass := mass;
  GProp_GProps_Mass := GProp_GProps_Mass nominal_kernel;
  DistShapeShape_Value := DistShapeShape_Value nominal_kernel;
  DistShapeShape := DistShapeShape nominal_kernel;
  Fuse_status := Fuse_status nominal_kernel;
  Cut_status := Cut_status nominal_kernel;
  Write := Write nominal_kernel;
  Stl_raises := Stl_raises nominal_kernel
|}.

(** The inward offset fails, the outward one is done and comes out with a
    negative volume. *)
Definition outward_only_kernel : Kernel :=
  thickening_kernel (fun _ t => Rltb 0 t) (fun _ => - 1).

(** No offset is ever done. *)
Definition no_offset_kernel : Kernel :=
  thickening_kernel (fun _ _ => false) (fun _ => 1).

(** The end-to-end run: thickness 2.65, five locations, a rectangular
    10 x 5 x 2.5 groove, a clip of height 20, clearance 0.2, offset 0.1. *)
Definition sample_run : RuntimeParams := {|
  thickness := 265 / 100;
  groove_count := 5;
  groove_shape := RECTANGULAR;
  groove_height := 10;
  groove_width := 5;
  groove_depth := 5 / 2;
  clip_height := 20;
  assembly_clearance := 2 / 10;
  retention_offset := 1 / 10
|}.

Section Thickening.

Variable k : Kernel.
Variable float_str : R -> string.
Variable float_4f : R -> string.

Lemma thicken_both_ways_inward (input_shape : TopoDS_Shape) (t : R) :
  MakeThickSolid_IsDone k input_shape (- Rabs t) = true ->
  thicken_both_ways k input_shape t
  = ([], Ok (Some (MakeThickSolidByJoin input_shape (- Rabs t)))).
Proof.
  intros H. unfold thicken_both_ways, thicken. rewrite H. reflexivity.
Qed.

Lemma thicken_both_ways_outward (input_shape : TopoDS_Shape) (t : R) :
  MakeThickSolid_IsDone k input_shape (- Rabs t) = false ->
  MakeThickSolid_IsDone k input_shape (Rabs t) = true ->
  thicken_both_ways k input_shape t
  = ([stdout "[Phase 2] Thickening failed with negative offset. Trying positive..."],
     Ok (Some (MakeThickSolidByJoin input_shape (Rabs t)))).
Proof.
  intros H1 H2. unfold thicken_both_ways, thicken. rewrite H1, H2.
  rewrite bind_log. reflexivity.
Qed.

Lemma thicken_both_ways_failed (input_shape : TopoDS_Shape) (t : R) :
  MakeThickSolid_IsDone k input_shape (- Rabs t) = false ->
  MakeThickSolid_IsDone k input_shape (Rabs t) = false ->
  thicken_both_ways k input_shape t
  = ([stdout "[Phase 2] Thickening failed with negative offset. Trying positive..."],
     Ok None).
Proof.
  intros H1 H2. unfold thicken_both_ways, thicken. rewrite H1, H2.
  rewrite bind_log. reflexivity.
Qed.

Lemma thicken_and_continue_failed (input_shape : TopoDS_Shape) (output_path : string)
    (runtime_params : RuntimeParams) :
  MakeThickSolid_IsDone k input_shape (- Rabs (thickness runtime_params)) = false ->
  MakeThickSolid_IsDone k input_shape (Rabs (thickness runtime_params)) = false ->
  thicken_and_continue k float_str float_4f input_shape output_path runtime_params
  = ([stdout ("[Phase 2] Applying thickness " ++ float_str (thickness runtime_params)
              ++ "mm INWARD...");
      stdout "[Phase 2] Thickening failed with negative offset. Trying positive...";
      stdout "[Phase 2] Critical Error: Thickening failed in both directions."],
     Ok (false, "Thickening failed.")).
Proof.
  intros H1 H2. unfold thicken_and_continue.
  rewrite bind_log, thicken_both_ways_failed, bind_Ok by assumption.
  rewrite bind_log. reflexivity.
Qed.

Lemma thicken_and_continue_done (input_shape body : TopoDS_Shape) (tr : list event)
    (output_path : string) (runtime_params : RuntimeParams) :
  thicken_both_ways k input_shape (thickness runtime_params) = (tr, Ok (Some body)) ->
  let oriented :=
    if Rltb (VolumeProperties_Mass k body) 0 then Reversed body else body in
  let notice :=
    if Rltb (VolumeProperties_Mass k body) 0
    then [stdout "[Phase 2] Notice: Negative Volume detected. Reversing orientation..."]
    else [] in
  let rest :=
    check_geometry_and_continue k float_str float_4f input_shape oriented output_path
      runtime_params in
  thicken_and_continue k float_str float_4f input_shape output_path runtime_params
  = ((stdout ("[Phase 2] Applying thickness " ++ float_str (thickness runtime_params)
              ++ "mm INWARD...") :: tr ++ notice ++ fst rest)%list,
     snd rest).
Proof.
  intros H oriented notice rest. unfold thicken_and_continue.
  rewrite bind_log, H, bind_Ok. simpl. unfold fix_orientation.
  subst oriented notice rest.
  destruct (Rltb (VolumeProperties_Mass k body) 0).
  - rewrite bind_assoc, bind_log, bind_ret. reflexivity.
  - rewrite bind_ret. reflexivity.
Qed.

End Thickening.

Lemma run_pipeline_thickening_failed (k : Kernel) (float_str float_4f : R -> string)
    (input_path output_path : string) (runtime_params : RuntimeParams) :
  ReadFile k input_path = 1%Z ->
  IsValid k (OneShape input_path) = true ->
  MakeThickSolid_IsDone k (OneShape input_path) (- Rabs (thickness runtime_params)) = false ->
  MakeThickSolid_IsDone k (OneShape input_path) (Rabs (thickness runtime_params)) = false ->
  run_pipeline k float_str float_4f input_path output_path runtime_params
  = ((stdout ("[Phase 1] Loading " ++ input_path ++ "...")
      :: stdout "[Validation] Input is VALID."
      :: (if More_FACE k (OneShape input_path) then []
          else [stdout "[Phase 1] Warning: Input does not seem to contain faces."])
      ++ [stdout ("[Phase 2] Applying thickness " ++ float_str (thickness runtime_params)
                  ++ "mm INWARD...");
          stdout "[Phase 2] Thickening failed with negative offset. Trying positive...";
          stdout "[Phase 2] Critical Error: Thickening failed in both directions."])%list,
     Ok (false, "Thickening failed.")).
Proof.
  intros Hr Hv H1 H2. unfold run_pipeline.
  rewrite bind_log, Hr. cbn [Z.eqb Pos.eqb negb].
  rewrite check_validity_eq, Hv, bind_Ok. cbn [negb fst snd].
  rewrite (thicken_and_continue_failed k float_str float_4f _ output_path runtime_params H1 H2).
  destruct (More_FACE k (OneShape input_path)); cbn [negb].
  - rewrite bind_ret. reflexivity.
  - rewrite bind_log. reflexivity.
Qed.

(** C7: the thickening stage first tries the offset minus the absolute
    thickness and takes its result when it is done; only when it is not does
    it try plus the absolute thickness; when neither is done, a run that
    passed phase 1 prints the phase-2 error and returns the failure
    "Thickening failed." with nothing after it; when a thickening is done and
    the volume of its result is negative, the run prints a notice and goes on
    with the reversed body (with the body itself otherwise). *)
Theorem thickening_spec (k : Kernel) (float_str float_4f : R -> string)
    (input_path output_path : string) (runtime_params : RuntimeParams) :
  let t := thickness runtime_params in
  let input_shape := OneShape input_path in
  (MakeThickSolid_IsDone k input_shape (- Rabs t) = true ->
   thicken_both_ways k input_shape t
   = ([], Ok (Some (MakeThickSolidByJoin input_shape (- Rabs t)))))
  /\ (MakeThickSolid_IsDone k input_shape (- Rabs t) = false ->
      MakeThickSolid_IsDone k input_shape (Rabs t) = true ->
      thicken_both_ways k input_shape t
      = ([stdout "[Phase 2] Thickening failed with negative offset. Trying positive..."],
         Ok (Some (MakeThickSolidByJoin input_shape (Rabs t)))))
  /\ (ReadFile k input_path = 1%Z ->
      IsValid k input_shape = true ->
      MakeThickSolid_IsDone k input_shape (- Rabs t) = false ->
      MakeThickSolid_IsDone k input_shape (Rabs t) = false ->
      run_pipeline k float_str float_4f input_path output_path runtime_params
      = ((stdout ("[Phase 1] Loading " ++ input_path ++ "...")
          :: stdout "[Validation] Input is VALID."
          :: (if More_FACE k input_shape then []
              else [stdout "[Phase 1] Warning: Input does not seem to contain faces."])
          ++ [stdout ("[Phase 2] Applying thickness " ++ float_str t ++ "mm INWARD...");
              stdout "[Phase 2] Thickening failed with negative offset. Trying positive...";
              stdout "[Phase 2] Critical Error: Thickening failed in both directions."])%list,
         Ok (false, "Thickening failed.")))
  /\ (forall (body : TopoDS_Shape) (tr : list event),
      thicken_both_ways k input_shape t = (tr, Ok (Some body)) ->
      VolumeProperties_Mass k body < 0 ->
      let rest :=
        check_geometry_and_continue k float_str float_4f input_shape (Reversed body)
          output_path runtime_params in
      thicken_and_continue k float_str float_4f input_shape output_path runtime_params
      = ((stdout ("[Phase 2] Applying thickness " ++ float_str t ++ "mm INWARD...")
          :: tr
          ++ [stdout "[Phase 2] Notice: Negative Volume detected. Reversing orientation..."]
          ++ fst rest)%list,
         snd rest))
  /\ (forall (body : TopoDS_Shape) (tr : list event),
      thicken_both_ways k input_shape t = (tr, Ok (Some body)) ->
      0 <= VolumeProperties_Mass k body ->
      let rest :=
        check_geometry_and_continue k float_str float_4f input_shape body
          output_path runtime_params in
      thicken_and_continue k float_str float_4f input_shape output_path runtime_params
      = ((stdout ("[Phase 2] Applying thickness " ++ float_str t ++ "mm INWARD...")
          :: tr ++ fst rest)%list,
         snd rest)).
Proof.
  intros t input_shape. repeat apply conj.
  - apply thicken_both_ways_inward.
  - apply thicken_both_ways_outward.
  - apply run_pipeline_thickening_failed.
  - intros body tr Hb Hneg rest.
    rewrite (thicken_and_continue_done k float_str float_4f input_shape body tr
               output_path runtime_params Hb).
    apply Rltb_true in Hneg. rewrite Hneg. reflexivity.
  - intros body tr Hb Hpos rest.
    rewrite (thicken_and_continue_done k float_str float_4f input_shape body tr
               output_path runtime_params Hb).
    apply Rltb_false in Hpos. rewrite Hpos. reflexivity.
Qed.

Lemma sample_thickness_abs : Rabs (thickness sample_run) = 265 / 100.
Proof. simpl. apply Rabs_right. lra. Qed.

Lemma outward_only_inward_fails (s : TopoDS_Shape) :
  MakeThickSolid_IsDone outward_only_kernel s (- Rabs (thickness sample_run)) = false.
Proof. simpl. apply Rltb_false. assert (H := Rabs_pos (265 / 100)). lra. Qed.

Lemma outward_only_outward_done (s : TopoDS_Shape) :
  MakeThickSolid_IsDone outward_only_kernel s (Rabs (thickness sample_run)) = true.
Proof. simpl. apply Rltb_true. rewrite Rabs_right; lra. Qed.

Lemma thickening_spec_witness :
  thicken_both_ways nominal_kernel (OneShape "in.stp") (thickness sample_run)
  = ([], Ok (Some (MakeThickSolidByJoin (OneShape "in.stp")
                     (- Rabs (thickness sample_run)))))
  /\ thicken_both_ways outward_only_kernel (OneShape "in.stp") (thickness sample_run)
     = ([stdout "[Phase 2] Thickening failed with negative offset. Trying positive..."],
        Ok (Some (MakeThickSolidByJoin (OneShape "in.stp")
                    (Rabs (thickness sample_run)))))
  /\ run_pipeline no_offset_kernel plain_str plain_str "in.stp" "out.stp" sample_run
     = ([stdout "[Phase 1] Loading in.stp...";
         stdout "[Validation] Input is VALID.";
         stdout "[Phase 2] Applying thickness #mm INWARD...";
         stdout "[Phase 2] Thickening failed with negative offset. Trying positive...";
         stdout "[Phase 2] Critical Error: Thickening failed in both directions."],
        Ok (false, "Thickening failed."))
  /\ snd (thicken_and_continue outward_only_kernel plain_str plain_str (OneShape "in.stp")
            "out.stp" sample_run)
     = snd (check_geometry_and_continue outward_only_kernel plain_str plain_str
              (OneShape "in.stp")
              (Reversed (MakeThickSolidByJoin (OneShape "in.stp")
                           (Rabs (thickness sample_run))))
              "out.stp" sample_run)
  /\ snd (thicken_and_continue nominal_kernel plain_str plain_str (OneShape "in.stp")
            "out.stp" sample_run)
     = snd (check_geometry_and_continue nominal_kernel plain_str plain_str
              (OneShape "in.stp")
              (MakeThickSolidByJoin (OneShape "in.stp") (- Rabs (thickness sample_run)))
              "out.stp" sample_run).
Proof.
  destruct (thickening_spec nominal_kernel plain_str plain_str "in.stp" "out.stp" sample_run)
    as (Hin & _ & _ & _ & Hpos).
  destruct (thickening_spec outward_only_kernel plain_str plain_str "in.stp" "out.stp"
              sample_run)
    as (_ & Hout & _ & Hneg & _).
  destruct (thickening_spec no_offset_kernel plain_str plain_str "in.stp" "out.stp"
              sample_run)
    as (_ & _ & Hfail & _ & _).
  assert (H1 := Hin eq_refl).
  assert (H2 := Hout (outward_only_inward_fails _) (outward_only_outward_done _)).
  split; [exact H1|].
  split; [exact H2|].
  split; [exact (Hfail eq_refl eq_refl eq_refl eq_refl)|].
  split.
  - rewrite (Hneg _ _ H2); [reflexivity | simpl; lra].
  - rewrite (Hpos _ _ H1); [reflexivity | simpl; lra].
Defined.

(** ** The feature loop *)

Lemma slice_to_nonneg {A : Type} (l : list A) (n : Z) :
  (0 <= n)%Z -> slice_to l n = firstn (Z.to_nat n) l.
Proof.
  intros H. unfold slice_to.
  destruct (n <? 0)%Z eqn:Hn; [apply Z.ltb_lt in Hn; lia | reflexivity].
Qed.

Lemma slice_to_length (n : Z) :
  (0 <= n)%Z ->
  List.length (slice_to REFERENCE_CENTROIDS n) = Z.to_nat (Z.min n 7).
Proof.
  intros H. rewrite slice_to_nonneg by assumption.
  rewrite length_firstn. simpl List.length. lia.
Qed.

(** Every target point projects onto a face of the body where the normal
    is defined. *)
Definition resolves (k : Kernel) : Prop :=
  forall (pt : gp_Pnt) (body : TopoDS_Shape),
    Extrema_IsDone (DistShapeShape k pt body) = true
    /\ (0 <? NbSolution (DistShapeShape k pt body))%nat = true
    /\ SupportOnShape2_is_FACE (DistShapeShape k pt body) = true
    /\ exists normal, Normal (DistShapeShape k pt body) = Some normal.

(** A clip generator of a run: fresh, or holding the derived record. *)
Definition generator_of (p : ClipParameters.t) (g : ClipGenerator.t) : Prop :=
  g = ClipGenerator.__init__ p \/ g = ClipGenerator.Build p (Some (derived_params p)).

Lemma clip_create_shape_of (p : ClipParameters.t) (g : ClipGenerator.t) :
  (0 < GrooveParameters.fillet_radius (ClipParameters.groove_params p) ->
   source_width p <> 0) ->
  generator_of p g ->
  ClipGenerator.create_shape g
  = Ok (clip_shape_of p, ClipGenerator.Build p (Some (derived_params p))).
Proof.
  intros Hw [-> | ->].
  - now apply clip_create_shape_fresh.
  - apply clip_create_shape_cached.
Qed.

Lemma place_features_all (k : Kernel) (gp : GrooveParameters.t) (p : ClipParameters.t)
    (body : TopoDS_Shape) (locations : list (R * R * R)) :
  resolves k ->
  (0 < GrooveParameters.fillet_radius (ClipParameters.groove_params p) ->
   source_width p <> 0) ->
  forall (g : ClipGenerator.t) (grooves clips : list TopoDS_Shape),
    generator_of p g ->
    exists (tr : list event) (grooves' clips' : list TopoDS_Shape),
      place_features k (GrooveGenerator.__init__ gp) g body locations grooves clips
      = (tr, Ok (grooves', clips'))
      /\ List.length grooves' = (List.length grooves + List.length locations)%nat
      /\ List.length clips' = (List.length clips + List.length locations)%nat
      /\ List.length tr = (2 * List.length locations)%nat.
Proof.
  intros Hk Hw. induction locations as [|[[rx ry] rz] rest IH]; intros g grooves clips Hg.
  - exists [], grooves, clips. simpl. repeat split; lia.
  - cbn [place_features].
    destruct (Hk (XYZ rx ry rz) body) as (H1 & H2 & H3 & normal & H4).
    rewrite H1, H2, H3, H4. cbn [andb].
    rewrite (clip_create_shape_of p g Hw Hg).
    unfold emit, lift. rewrite !bind_Ok. cbn [fst snd].
    change (ClipGenerator.place_shape _ _ _ _ _)
      with (Ok (GrooveGenerator.place_shape
                  (GrooveGenerator.__init__ (derived_params p))
                  (clip_shape_of p) (PointOnShape2 (DistShapeShape k (XYZ rx ry rz) body))
                  normal None,
                ClipGenerator.Build p (Some (derived_params p)))).
    rewrite bind_Ok. cbn [fst snd].
    destruct (IH (ClipGenerator.Build p (Some (derived_params p)))
                (grooves ++ [GrooveGenerator.place_shape (GrooveGenerator.__init__ gp)
                               (GrooveGenerator.create_shape (GrooveGenerator.__init__ gp))
                               (PointOnShape2 (DistShapeShape k (XYZ rx ry rz) body))
                               normal None])%list
                (clips ++ [GrooveGenerator.place_shape
                             (GrooveGenerator.__init__ (derived_params p))
                             (clip_shape_of p)
                             (PointOnShape2 (DistShapeShape k (XYZ rx ry rz) body))
                             normal None])%list)
      as (tr & gs' & cs' & Heq & Hlg & Hlc & Hlt); [now right|].
    rewrite Heq. cbn [fst snd].
    eexists _, gs', cs'. split; [reflexivity|].
    rewrite length_app in Hlg, Hlc. simpl in *. repeat split; lia.
Qed.

Lemma nominal_resolves : resolves nominal_kernel.
Proof.
  intros pt body. simpl. repeat split. now exists (XYZ 0 0 1).
Qed.

(** ** C10: how many locations a run processes *)

(** The command-line default: ten grooves. *)
Definition ten_grooves_run : RuntimeParams := {|
  thickness := thickness sample_run;
  groove_count := 10;
  groove_shape := groove_shape sample_run;
  groove_height := groove_height sample_run;
  groove_width := groove_width sample_run;
  groove_depth := groove_depth sample_run;
  clip_height := clip_height sample_run;
  assembly_clearance := assembly_clearance sample_run;
  retention_offset := retention_offset sample_run
|}.

(** C10 at a count of 10, which is within 1..100: the locations to process
    are the seven reference centroids, and on a kernel where every location
    resolves the loop places seven grooves and seven clips, not ten. *)
Theorem ten_requested_seven_placed :
  (1 <= groove_count ten_grooves_run <= 100)%Z
  /\ groove_count ten_grooves_run = 10%Z
  /\ slice_to REFERENCE_CENTROIDS (groove_count ten_grooves_run) = REFERENCE_CENTROIDS
  /\ List.length (slice_to REFERENCE_CENTROIDS (groove_count ten_grooves_run)) = 7%nat
  /\ forall body : TopoDS_Shape,
     exists (tr : list event) (grooves clips : list TopoDS_Shape),
       place_features nominal_kernel
         (GrooveGenerator.__init__ (groove_params_of ten_grooves_run))
         (ClipGenerator.__init__ (clip_params_of ten_grooves_run))
         body (slice_to REFERENCE_CENTROIDS (groove_count ten_grooves_run)) [] []
       = (tr, Ok (grooves, clips))
       /\ List.length grooves = 7%nat
       /\ List.length clips = 7%nat.
Proof.
  split; [simpl; lia|]. split; [reflexivity|]. split; [reflexivity|].
  split; [reflexivity|].
  intros body.
  destruct (place_features_all nominal_kernel (groove_params_of ten_grooves_run)
              (clip_params_of ten_grooves_run) body
              (slice_to REFERENCE_CENTROIDS (groove_count ten_grooves_run))
              nominal_resolves)
    with (g := ClipGenerator.__init__ (clip_params_of ten_grooves_run))
         (grooves := @nil TopoDS_Shape) (clips := @nil TopoDS_Shape)
    as (tr & gs & cs & Heq & Hg & Hc & _).
  - simpl. unfold GrooveParameters.default_fillet_radius. lra.
  - now left.
  - exists tr, gs, cs. split; [exact Heq|]. split; [exact Hg | exact Hc].
Qed.


(** Beyond it, seven locations are processed. *)
Lemma locations_count_capped (n : Z) :
  (7 <= n)%Z ->
  slice_to REFERENCE_CENTROIDS n = REFERENCE_CENTROIDS.
Proof.
  intros H. rewrite slice_to_nonneg by lia.
  apply firstn_all2. simpl List.length. lia.
Qed.

(** ** The boolean stages *)

Section BooleanStages.

Variable k : Kernel.

(** In the sequential pass a step that is not done leaves the running
    result as it is; a step that is done replaces it. *)
Lemma cut_each_not_done (temp tool : TopoDS_Shape) (rest : list TopoDS_Shape) :
  Cut_status k temp tool = NotDone ->
  cut_each k temp (tool :: rest) = cut_each k temp rest.
Proof. intros H. simpl. now rewrite H. Qed.

Lemma cut_each_done (temp tool : TopoDS_Shape) (rest : list TopoDS_Shape) :
  Cut_status k temp tool = IsDone ->
  cut_each k temp (tool :: rest) = cut_each k (BRepAlgoAPI_Cut temp tool) rest.
Proof. intros H. simpl. now rewrite H. Qed.

Lemma fuse_each_not_done (temp clip : TopoDS_Shape) (rest : list TopoDS_Shape) :
  Fuse_status k temp clip = NotDone ->
  fuse_each k temp (clip :: rest) = fuse_each k temp rest.
Proof. intros H. simpl. now rewrite H. Qed.

Lemma fuse_each_done (temp clip : TopoDS_Shape) (rest : list TopoDS_Shape) :
  Fuse_status k temp clip = IsDone ->
  fuse_each k temp (clip :: rest) = fuse_each k (BRepAlgoAPI_Fuse temp clip) rest.
Proof. intros H. simpl. now rewrite H. Qed.

(** The clip stage: a completed bulk fuse is the stage result, and the
    sequential pass runs only when the bulk attempt did not complete. *)
Lemma fuse_clips_bulk (final_solid first clip_body : TopoDS_Shape)
    (rest : list TopoDS_Shape) :
  fuse_tools k first rest = Ok clip_body ->
  Fuse_status k final_solid clip_body = IsDone ->
  fuse_clips k final_solid (first :: rest)
  = Ok (BRepAlgoAPI_Fuse final_solid clip_body).
Proof.
  intros Ht Hs. unfold fuse_clips, bulk_fuse. now rewrite Ht, Hs.
Qed.

Lemma fuse_clips_fallback (final_solid first clip_body : TopoDS_Shape)
    (rest : list TopoDS_Shape) :
  fuse_tools k first rest = Ok clip_body ->
  Fuse_status k final_solid clip_body <> IsDone ->
  fuse_clips k final_solid (first :: rest) = fuse_each k final_solid (first :: rest).
Proof.
  intros Ht Hs. unfold fuse_clips, bulk_fuse. rewrite Ht.
  destruct (Fuse_status k final_solid clip_body); [contradiction | reflexivity..].
Qed.

(** The groove stage: with an empty property set of mass zero the bulk cut
    is never accepted, whatever the cutter reports, and the stage result is
    that of the sequential pass. *)
Lemma bulk_cut_empty_mass (thickened_body : TopoDS_Shape) (tools : list TopoDS_Shape) :
  GProp_GProps_Mass k = 0 ->
  bulk_cut k thickened_body tools = None.
Proof.
  intros Hm. unfold bulk_cut. destruct tools as [|first rest]; [reflexivity|].
  destruct (fuse_tools k first rest); [|reflexivity].
  destruct (Cut_status k thickened_body a); try reflexivity.
  rewrite Hm. replace (Reqb 0 0) with true; [reflexivity|].
  symmetry. now apply Reqb_true.
Qed.

Lemma cut_grooves_sequential (thickened_body : TopoDS_Shape) (tools : list TopoDS_Shape) :
  GProp_GProps_Mass k = 0 ->
  cut_grooves k thickened_body tools = cut_each k thickened_body tools.
Proof.
  intros Hm. unfold cut_grooves. destruct tools as [|first rest]; [reflexivity|].
  now rewrite bulk_cut_empty_mass.
Qed.

(** With a non-zero mass of the empty property set the groove stage would
    behave as the clip stage does. *)
Lemma cut_grooves_bulk (thickened_body first tool_body : TopoDS_Shape)
    (rest : list TopoDS_Shape) :
  GProp_GProps_Mass k <> 0 ->
  fuse_tools k first rest = Ok tool_body ->
  Cut_status k thickened_body tool_body = IsDone ->
  cut_grooves k thickened_body (first :: rest)
  = Ok (BRepAlgoAPI_Cut thickened_body tool_body).
Proof.
  intros Hm Ht Hs. unfold cut_grooves, bulk_cut. rewrite Ht, Hs.
  apply Reqb_false in Hm. now rewrite Hm.
Qed.

(** When no boolean raises, the stages return. *)
Lemma fuse_tools_all_done (tool_body : TopoDS_Shape) (tools : list TopoDS_Shape) :
  (forall a b, Fuse_status k a b = IsDone) ->
  exists compound, fuse_tools k tool_body tools = Ok compound.
Proof.
  intros H. revert tool_body. induction tools as [|tool rest IH]; intros tool_body.
  - now exists tool_body.
  - simpl. rewrite H. apply IH.
Qed.

Lemma cut_each_all_done (temp : TopoDS_Shape) (tools : list TopoDS_Shape) :
  (forall a b, Cut_status k a b = IsDone) ->
  exists cut, cut_each k temp tools = Ok cut.
Proof.
  intros H. revert temp. induction tools as [|tool rest IH]; intros temp.
  - now exists temp.
  - simpl. rewrite H. apply IH.
Qed.

End BooleanStages.

Lemma shape_not_own_fuse (g0 g1 : TopoDS_Shape) : g0 <> BRepAlgoAPI_Fuse g0 g1.
Proof.
  revert g1. induction g0; intros g1 Heq; try discriminate.
  injection Heq as Heq1 Heq2. now apply (IHg0_1 g0_2).
Qed.

(** ** C3: the two-tier protocol of the groove stage *)

(** A kernel with an empty property set of mass zero, on which every fuse is
    done, a cut from the thickened body is done, and a cut from an already
    cut solid is not. *)
Definition second_cut_fails_kernel : Kernel := {|
  ReadFile := ReadFile nominal_kernel;
  IsValid := IsValid nominal_kernel;
  More_FACE := More_FACE nominal_kernel;
  MakeThickSolid_IsDone := MakeThickSolid_IsDone nominal_kernel;
  VolumeProperties_Mass := VolumeProperties_Mass nominal_kernel;
  GProp_GProps_Mass := 0;
  DistShapeShape_Value := DistShapeShape_Value nominal_kernel;
  DistShapeShape := DistShapeShape nominal_kernel;
  Fuse_status := fun _ _ => IsDone;
  Cut_status := fun solid _ =>
    match solid with
    | BRepAlgoAPI_Cut _ _ => NotDone
    | _ => IsDone
    end;
  Write := Write nominal_kernel;
  Stl_raises := Stl_raises nominal_kernel
|}.

(** C3 on [second_cut_fails_kernel] with two groove tools: the bulk
    body-vs-compound cut reports completion, yet the stage result is not its
    result: the [try] block is left without [valid_cut], the sequential pass
    runs, and the second groove is lost. *)
Theorem completed_bulk_cut_is_discarded (input_shape : TopoDS_Shape) (t : R)
    (g0 g1 : TopoDS_Shape) :
  let body := MakeThickSolidByJoin input_shape t in
  fuse_tools second_cut_fails_kernel g0 [g1] = Ok (BRepAlgoAPI_Fuse g0 g1)
  /\ Cut_status second_cut_fails_kernel body (BRepAlgoAPI_Fuse g0 g1) = IsDone
  /\ bulk_cut second_cut_fails_kernel body [g0; g1] = None
  /\ cut_grooves second_cut_fails_kernel body [g0; g1] = Ok (BRepAlgoAPI_Cut body g0)
  /\ BRepAlgoAPI_Cut body g0 <> BRepAlgoAPI_Cut body (BRepAlgoAPI_Fuse g0 g1).
Proof.
  intros body. split; [reflexivity|]. split; [reflexivity|].
  split; [now apply bulk_cut_empty_mass|].
  split.
  - rewrite cut_grooves_sequential by reflexivity. reflexivity.
  - intros H. injection H as Hg. now apply shape_not_own_fuse in Hg.
Qed.

(** ** Reaching the export *)

(** Phases 5 and 6 unfolded: the validity of the final solid is printed and
    has no other effect; the result depends on the writer's status alone. *)
Lemma validate_and_export_eq (k : Kernel) (final_solid : TopoDS_Shape)
    (output_path : string) :
  let stl_path := replace ".step" ".stl" (replace ".stp" ".stl" output_path) in
  validate_and_export k final_solid output_path
  = ([stdout "[Phase 5] Validating Final Solid...";
      stdout ("[Validation] Final Output"
              ++ (if IsValid k final_solid then " is VALID." else " is INVALID."));
      stdout ("[Phase 6] Exporting to " ++ output_path ++ "...");
      STEPControl_Write final_solid output_path;
      stdout ("[Phase 6] Generating preview STL: " ++ stl_path);
      match Stl_raises k final_solid stl_path with
      | None => StlAPI_Write final_solid stl_path
      | Some e => stdout ("[Phase 6] Warning: Could not generate STL preview: " ++ e)
      end],
     Ok (if (Write k final_solid output_path =? 1)%Z
         then (true, "Success") else (false, "Export Failed"))).
Proof.
  intros stl_path. unfold validate_and_export.
  rewrite bind_log, check_validity_eq, bind_Ok. cbn [fst snd].
  rewrite bind_log. unfold emit at 1. rewrite bind_Ok. cbn [fst snd].
  rewrite bind_log. fold stl_path.
  destruct (Stl_raises k final_solid stl_path) as [e|].
  - rewrite bind_log.
    destruct (Write k final_solid output_path =? 1)%Z; reflexivity.
  - unfold emit. rewrite bind_Ok.
    destruct (Write k final_solid output_path =? 1)%Z; reflexivity.
Qed.

(** [run] goes through to [rest]: it ends as [rest] does, after a prefix of
    events of its own. *)
Definition leads_to {A : Type} (run rest : M A) : Prop :=
  exists tr : list event, run = ((tr ++ fst rest)%list, snd rest).

Lemma leads_to_refl {A : Type} (run : M A) : leads_to run run.
Proof. exists []. now destruct run. Qed.

Lemma leads_to_bind {A B : Type} (c : M A) (tr : list event) (a : A) (f : A -> M B)
    (rest : M B) :
  c = (tr, Ok a) -> leads_to (f a) rest -> leads_to (bind c f) rest.
Proof.
  intros -> [tr' H]. exists (tr ++ tr')%list.
  rewrite bind_Ok, H. cbn [fst snd]. now rewrite app_assoc.
Qed.

Lemma leads_to_log {B : Type} (phase message : string) (f : unit -> M B) (rest : M B) :
  leads_to (f tt) rest -> leads_to (bind (log phase message) f) rest.
Proof. intros H. eapply leads_to_bind; [reflexivity | exact H]. Qed.

Lemma leads_to_step {A B : Type} (c : M A) (a : A) (f : A -> M B) (rest : M B) :
  (exists tr : list event, c = (tr, Ok a)) ->
  leads_to (f a) rest -> leads_to (bind c f) rest.
Proof. intros [tr H]. now apply leads_to_bind with (tr := tr). Qed.

Lemma cut_grooves_all_done (k : Kernel) (body : TopoDS_Shape) (tools : list TopoDS_Shape) :
  (forall a b, Cut_status k a b = IsDone) ->
  exists cut, cut_grooves k body tools = Ok cut.
Proof.
  intros H. unfold cut_grooves. destruct tools as [|first rest].
  - now exists body.
  - destruct (bulk_cut k body (first :: rest)) as [solid|].
    + now exists solid.
    + now apply cut_each_all_done.
Qed.

Section ReachingExport.

Variable k : Kernel.
Variable float_str : R -> string.
Variable float_4f : R -> string.

Hypothesis Hresolves : resolves k.
Hypothesis Hfuse : forall a b, Fuse_status k a b = IsDone.
Hypothesis Hcut : forall a b, Cut_status k a b = IsDone.

Lemma features_reach_export (thickened_body : TopoDS_Shape) (output_path : string)
    (runtime_params : RuntimeParams) :
  fst (ClipParameters.validate float_str (clip_params_of runtime_params)) = true ->
  (1 <= groove_count runtime_params)%Z ->
  exists solid compound : TopoDS_Shape,
    leads_to (features_and_export k float_str thickened_body output_path runtime_params)
      (validate_and_export k (BRepAlgoAPI_Fuse solid compound) output_path).
Proof.
  intros Hv Hn.
  destruct (validate_true_inv _ _ Hv) as (Hh & Hc & Hr).
  destruct (place_features_all k (groove_params_of runtime_params)
              (clip_params_of runtime_params) thickened_body
              (slice_to REFERENCE_CENTROIDS (groove_count runtime_params)) Hresolves)
    with (g := ClipGenerator.__init__ (clip_params_of runtime_params))
         (grooves := @nil TopoDS_Shape) (clips := @nil TopoDS_Shape)
    as (tr & gs & cs & Heq & _ & Hlc & _).
  { simpl. unfold GrooveParameters.default_fillet_radius. lra. }
  { now left. }
  destruct (cut_grooves_all_done k thickened_body gs Hcut) as [solid Hsolid].
  rewrite slice_to_length in Hlc by lia.
  destruct cs as [|first rest]; [simpl in Hlc; lia|].
  destruct (fuse_tools_all_done k first rest Hfuse) as [compound Hcompound].
  exists solid, compound.
  unfold features_and_export. apply leads_to_log.
  rewrite (validate_true_intro _ _ Hh Hc Hr). cbn [negb].
  eapply leads_to_bind; [exact Heq|]. cbn beta iota.
  eapply leads_to_bind; [unfold lift; now rewrite Hsolid|].
  eapply leads_to_bind;
    [unfold lift; now rewrite (fuse_clips_bulk k solid first compound rest Hcompound)|].
  apply leads_to_refl.
Qed.

Lemma run_reaches_export (input_path output_path : string)
    (runtime_params : RuntimeParams) :
  ReadFile k input_path = 1%Z ->
  IsValid k (OneShape input_path) = true ->
  MakeThickSolid_IsDone k (OneShape input_path) (- Rabs (thickness runtime_params)) = true ->
  fst (ClipParameters.validate float_str (clip_params_of runtime_params)) = true ->
  (1 <= groove_count runtime_params)%Z ->
  exists solid compound : TopoDS_Shape,
    leads_to (run_pipeline k float_str float_4f input_path output_path runtime_params)
      (validate_and_export k (BRepAlgoAPI_Fuse solid compound) output_path).
Proof.
  intros Hread Hvalid Hthick Hv Hn.
  set (body := MakeThickSolidByJoin (OneShape input_path)
                 (- Rabs (thickness runtime_params))).
  set (oriented := if Rltb (VolumeProperties_Mass k body) 0 then Reversed body else body).
  destruct (features_reach_export oriented output_path runtime_params Hv Hn)
    as (solid & compound & Hrest).
  exists solid, compound.
  unfold run_pipeline. apply leads_to_log.
  rewrite Hread. cbn [Z.eqb Pos.eqb negb].
  eapply leads_to_bind; [apply check_validity_eq|]. rewrite Hvalid. cbn [negb].
  apply leads_to_step with (a := tt).
  { destruct (More_FACE k (OneShape input_path)); cbn [negb]; eexists; reflexivity. }
  unfold thicken_and_continue. apply leads_to_log.
  eapply leads_to_bind; [now apply thicken_both_ways_inward|]. cbn beta iota.
  apply leads_to_step with (a := oriented).
  { unfold fix_orientation. fold body. subst oriented.
    destruct (Rltb (VolumeProperties_Mass k body) 0).
    - rewrite bind_log. eexists. reflexivity.
    - eexists. reflexivity. }
  unfold check_geometry_and_continue. apply leads_to_log.
  apply leads_to_step with (a := tt).
  { destruct (Rgtb _ _); eexists; reflexivity. }
  exact Hrest.
Qed.

End ReachingExport.

(** ** C2: the final validity check *)

(** [nominal_kernel], except that the result of a fuse is never valid. *)
Definition invalid_fuse_kernel : Kernel := {|
  ReadFile := ReadFile nominal_kernel;
  IsValid := fun shape =>
    match shape with
    | BRepAlgoAPI_Fuse _ _ => false
    | _ => true
    end;
  More_FACE := More_FACE nominal_kernel;
  MakeThickSolid_IsDone := MakeThickSolid_IsDone nominal_kernel;
  VolumeProperties_Mass := VolumeProperties_Mass nominal_kernel;
  GProp_GProps_Mass := GProp_GProps_Mass nominal_kernel;
  DistShapeShape_Value := DistShapeShape_Value nominal_kernel;
  DistShapeShape := DistShapeShape nominal_kernel;
  Fuse_status := Fuse_status nominal_kernel;
  Cut_status := Cut_status nominal_kernel;
  Write := Write nominal_kernel;
  Stl_raises := Stl_raises nominal_kernel
|}.

Lemma sample_run_valid (float_str : R -> string) :
  fst (ClipParameters.validate float_str (clip_params_of sample_run)) = true.
Proof.
  rewrite validate_true_intro; [reflexivity | | |];
    unfold source_width, source_depth; simpl; lra.
Qed.

(** C2 on the end-to-end run over [invalid_fuse_kernel]: the final solid is
    reported invalid by the phase-5 check, and the run still writes it to the
    output path and returns success. *)
Theorem invalid_final_solid_is_exported :
  exists (tr : list event) (final_solid : TopoDS_Shape),
    run_pipeline invalid_fuse_kernel plain_str plain_str "in.stp" "out.stp" sample_run
    = (tr, Ok (true, "Success"))
    /\ IsValid invalid_fuse_kernel final_solid = false
    /\ In (stdout "[Validation] Final Output is INVALID.") tr
    /\ In (STEPControl_Write final_solid "out.stp") tr.
Proof.
  destruct (run_reaches_export invalid_fuse_kernel plain_str plain_str)
    with (input_path := "in.stp") (output_path := "out.stp") (runtime_params := sample_run)
    as (solid & compound & tr & Hrun).
  - exact nominal_resolves.
  - reflexivity.
  - reflexivity.
  - reflexivity.
  - reflexivity.
  - reflexivity.
  - apply sample_run_valid.
  - simpl. lia.
  - rewrite validate_and_export_eq in Hrun. cbn [fst snd] in Hrun.
    eexists _, (BRepAlgoAPI_Fuse solid compound).
    split; [exact Hrun|].
    split; [reflexivity|].
    split; apply in_or_app; right; simpl; auto.
Qed.

(** ** The preview path *)

Example stl_path_of_stp :
  replace ".step" ".stl" (replace ".stp" ".stl" "part.stp") = "part.stl".
Proof. reflexivity. Qed.

Example stl_path_of_step :
  replace ".step" ".stl" (replace ".stp" ".stl" "part.step") = "part.stl".
Proof. reflexivity. Qed.

Example stl_path_replaces_every_occurrence :
  replace ".stp" ".stl" "a.stp/b.stp" = "a.stl/b.stl".
Proof. reflexivity. Qed.

(** * Further properties of the generators *)

(** ** The extent of every profile in closed form *)

(** The box a groove profile spans: [width] along X; along Y the [length]
    field for the rectangular and triangular kinds and the [width] for the
    square and circular ones; along Z from minus the depth up to zero, or up
    to a triangle height above the base for the triangular kind. *)
Definition groove_box (gp : GrooveParameters.t) : Bnd_Box :=
  let w := GrooveParameters.width gp in
  let d := GrooveParameters.depth gp in
  let across :=
    match GrooveParameters.type gp with
    | RECTANGULAR | TRIANGLE => GrooveParameters.length gp
    | CIRCULAR | SQUARE => w
    end in
  let top :=
    match GrooveParameters.type gp with
    | TRIANGLE => - d + w * sqrt 3 / 2
    | _ => 0
    end in
  Box (- w / 2) (- across / 2) (- d) (w / 2) (across / 2) top.

Lemma Box_eq (a b c d e f a' b' c' d' e' f' : R) :
  a = a' -> b = b' -> c = c' -> d = d' -> e = e' -> f = f' ->
  Box a b c d e f = Box a' b' c' d' e' f'.
Proof. intros; subst; reflexivity. Qed.

Lemma groove_extent (gp : GrooveParameters.t) :
  0 <= GrooveParameters.width gp ->
  0 <= GrooveParameters.depth gp ->
  0 <= GrooveParameters.length gp ->
  extent (GrooveGenerator.create_shape (GrooveGenerator.__init__ gp))
  = Some (groove_box gp).
Proof.
  intros Hw Hd Hl. unfold GrooveGenerator.create_shape, groove_box. simpl.
  assert (Hh : 0 <= GrooveParameters.width gp * sqrt 3 / 2).
  { assert (H := sqrt3_pos).
    assert (0 <= GrooveParameters.width gp * sqrt 3) by (apply Rmult_le_pos; lra).
    lra. }
  destruct (GrooveParameters.type gp); simpl; f_equal;
    unfold join, shift, point_box, edge_extent; simpl.
  - apply Box_eq; minmax.
  - unfold cyl_lo, cyl_hi.
    replace (1 - 0 * 0) with 1 by ring. replace (1 - 1 * 1) with 0 by ring.
    rewrite sqrt_0, sqrt_1. apply Box_eq; minmax.
  - apply Box_eq; minmax.
  - set (h := GrooveParameters.width gp * sqrt 3 / 2) in *. clearbody h.
    apply Box_eq; minmax.
Qed.

(** The box of a clip: that of the derived profile, moved along Z by minus
    the retention offset. *)
Definition clip_box (p : ClipParameters.t) : Bnd_Box :=
  shift (XYZ 0 0 (- ClipParameters.retention_offset p)) (groove_box (derived_params p)).

Lemma clip_extent (p : ClipParameters.t) :
  0 <= derived_width p ->
  0 <= derived_depth p ->
  0 <= ClipParameters.height p ->
  extent (clip_shape_of p) = Some (clip_box p).
Proof.
  intros Hw Hd Hh.
  assert (Hb := groove_extent (derived_params p) Hw Hd Hh).
  unfold clip_shape_of, clip_box.
  destruct (Reqb (ClipParameters.retention_offset p) 0) eqn:Hr; cbn [negb].
  - apply Reqb_true in Hr. rewrite Hb, Hr. f_equal.
    destruct (groove_box (derived_params p)). unfold shift. simpl.
    apply Box_eq; lra.
  - cbn [extent]. now rewrite Hb.
Qed.

(** The condition under which [derive_from_groove] does not divide by
    zero. *)
Definition derivable (p : ClipParameters.t) : Prop :=
  0 < GrooveParameters.fillet_radius (ClipParameters.groove_params p) ->
  source_width p <> 0.

Lemma validated_clip_extent (float_str : R -> string) (p : ClipParameters.t) :
  fst (ClipParameters.validate float_str p) = true ->
  extent (clip_shape_of p) = Some (clip_box p).
Proof.
  intros Hv. destruct (validate_true_inv _ _ Hv) as (Hh & Hc & Hr).
  apply clip_extent; unfold derived_width, derived_depth; lra.
Qed.

(** ** X1: a rectangular clip spans the clip height *)

(** X1: for a rectangular clip that passes validation, [create_shape]
    returns a box centred on Y whose extent along Y is the clip's own
    [height], whatever the height and the [length] of the groove it is
    derived from (what [verify_clip_height.py] measures). *)
Theorem rectangular_clip_spans_clip_height (float_str : R -> string)
    (p : ClipParameters.t) :
  fst (ClipParameters.validate float_str p) = true ->
  derivable p ->
  GrooveParameters.type (ClipParameters.groove_params p) = RECTANGULAR ->
  exists (shape : TopoDS_Shape) (generator : ClipGenerator.t) (b : Bnd_Box),
    ClipGenerator.create_shape (ClipGenerator.__init__ p) = Ok (shape, generator)
    /\ extent shape = Some b
    /\ ymin b = - ClipParameters.height p / 2
    /\ ymax b = ClipParameters.height p / 2
    /\ ymax b - ymin b = ClipParameters.height p.
Proof.
  intros Hv Hd Hty.
  exists (clip_shape_of p), (ClipGenerator.Build p (Some (derived_params p))), (clip_box p).
  split; [now apply clip_create_shape_fresh|].
  split; [now apply (validated_clip_extent float_str)|].
  unfold clip_box, groove_box, derived_params. simpl. rewrite Hty. simpl.
  repeat split; lra.
Qed.

Lemma rectangular_clip_spans_clip_height_witness :
  fst (ClipParameters.validate plain_str verify_clip_params) = true
  /\ exists (shape : TopoDS_Shape) (generator : ClipGenerator.t) (b : Bnd_Box),
       ClipGenerator.create_shape (ClipGenerator.__init__ verify_clip_params)
       = Ok (shape, generator)
       /\ extent shape = Some b
       /\ ymax b - ymin b = 10.
Proof.
  assert (Hv : fst (ClipParameters.validate plain_str verify_clip_params) = true).
  { rewrite validate_true_intro; [reflexivity | | |];
      unfold source_width, source_depth; simpl; lra. }
  split; [exact Hv|].
  destruct (rectangular_clip_spans_clip_height plain_str verify_clip_params Hv)
    as (shape & generator & b & Hs & Hb & _ & _ & Hy).
  - intros _. unfold source_width. simpl. lra.
  - reflexivity.
  - exists shape, generator, b. repeat split; assumption.
Defined.

(** ** X2: square and circular clips ignore the clip height *)

(** A square clip of height 20 on a 5 x 5 x 2.5 groove. *)
Definition square_clip_params : ClipParameters.t :=
  ClipParameters.Build (GrooveParameters.Build 5 (5 / 2) 10 10 SQUARE 0) 20
    (2 / 10) (1 / 10).

(** X2: for the square and circular kinds the clip height has no effect on
    the shape: clips that differ in height only get the same shape, and for
    a clip that passes validation the extent along Y is the derived width
    (source width minus clearance), not the height. *)
Theorem square_and_circular_clips_ignore_height (float_str : R -> string)
    (gp : GrooveParameters.t) (height clearance offset : R) :
  let p := ClipParameters.Build gp height clearance offset in
  GrooveParameters.type gp = SQUARE \/ GrooveParameters.type gp = CIRCULAR ->
  derivable p ->
  exists (shape : TopoDS_Shape) (generator : ClipGenerator.t),
    ClipGenerator.create_shape (ClipGenerator.__init__ p) = Ok (shape, generator)
    /\ (forall height' : R,
          exists generator' : ClipGenerator.t,
            ClipGenerator.create_shape
              (ClipGenerator.__init__ (ClipParameters.Build gp height' clearance offset))
            = Ok (shape, generator'))
    /\ (fst (ClipParameters.validate float_str p) = true ->
        exists b : Bnd_Box,
          extent shape = Some b
          /\ ymax b - ymin b = GrooveParameters.width gp - clearance).
Proof.
  intros p Hty Hd.
  exists (clip_shape_of p), (ClipGenerator.Build p (Some (derived_params p))).
  split; [now apply clip_create_shape_fresh|].
  split.
  - intros height'. eexists.
    rewrite clip_create_shape_fresh by exact Hd.
    f_equal. f_equal.
    unfold clip_shape_of, GrooveGenerator.create_shape, derived_params. simpl.
    destruct Hty as [-> | ->]; reflexivity.
  - intros Hv. exists (clip_box p).
    split; [now apply (validated_clip_extent float_str)|].
    unfold clip_box, groove_box, derived_params, derived_width, source_width. simpl.
    destruct Hty as [-> | ->]; simpl; lra.
Qed.

Lemma square_and_circular_clips_ignore_height_witness :
  exists (shape : TopoDS_Shape) (generator generator' : ClipGenerator.t) (b : Bnd_Box),
    ClipGenerator.create_shape (ClipGenerator.__init__ square_clip_params)
    = Ok (shape, generator)
    /\ ClipGenerator.create_shape
         (ClipGenerator.__init__
            (ClipParameters.Build (ClipParameters.groove_params square_clip_params) 7
               (2 / 10) (1 / 10)))
       = Ok (shape, generator')
    /\ extent shape = Some b
    /\ ymax b - ymin b = 5 - 2 / 10.
Proof.
  destruct (square_and_circular_clips_ignore_height plain_str
              (ClipParameters.groove_params square_clip_params) 20 (2 / 10) (1 / 10))
    as (shape & generator & Hs & Hsame & Hext).
  - now left.
  - intros _. unfold source_width. simpl. lra.
  - destruct (Hsame 7) as [generator' Hs'].
    destruct Hext as (b & Hb & Hy).
    { rewrite validate_true_intro; [reflexivity | | |];
        unfold source_width, source_depth; simpl; lra. }
    exists shape, generator, generator', b. repeat split; assumption.
Defined.

(** ** X3: the clip lies inside the groove section *)

(** X3: for a clip that passes validation with a clearance and a retention
    offset that are not negative, of any kind, the clip is centred in the
    groove along X with half the clearance free on either side, starts at
    the groove floor and does not rise above the top of the groove
    profile. *)
Theorem clip_within_groove_section (float_str : R -> string) (p : ClipParameters.t) :
  fst (ClipParameters.validate float_str p) = true ->
  0 <= ClipParameters.assembly_clearance p ->
  0 <= ClipParameters.retention_offset p ->
  0 <= GrooveParameters.length (ClipParameters.groove_params p) ->
  exists (shape : TopoDS_Shape) (generator : ClipGenerator.t)
         (clip source : Bnd_Box),
    ClipGenerator.create_shape (ClipGenerator.__init__ p) = Ok (shape, generator)
    /\ extent shape = Some clip
    /\ extent (GrooveGenerator.create_shape
                 (GrooveGenerator.__init__ (ClipParameters.groove_params p)))
       = Some source
    /\ xmin clip - xmin source = ClipParameters.assembly_clearance p / 2
    /\ xmax source - xmax clip = ClipParameters.assembly_clearance p / 2
    /\ zmin clip = zmin source
    /\ zmax clip <= zmax source.
Proof.
  intros Hv Hc Hr Hl.
  destruct (validate_true_inv _ _ Hv) as (Hh & Hcw & Hrd).
  unfold source_width, source_depth in *.
  exists (clip_shape_of p), (ClipGenerator.Build p (Some (derived_params p))),
         (clip_box p), (groove_box (ClipParameters.groove_params p)).
  split. { apply clip_create_shape_fresh. intros _. unfold source_width. lra. }
  split; [now apply (validated_clip_extent float_str)|].
  split. { apply groove_extent; lra. }
  unfold clip_box, groove_box, derived_params, derived_width, derived_depth,
    source_width, source_depth. simpl.
  assert (Hs := sqrt3_pos).
  assert (Hm : (GrooveParameters.width (ClipParameters.groove_params p)
                - ClipParameters.assembly_clearance p) * sqrt 3
               <= GrooveParameters.width (ClipParameters.groove_params p) * sqrt 3).
  { apply Rmult_le_compat_r; lra. }
  destruct (GrooveParameters.type (ClipParameters.groove_params p)); simpl;
    repeat split; lra.
Qed.

Lemma clip_within_groove_section_witness :
  exists (shape : TopoDS_Shape) (generator : ClipGenerator.t) (clip source : Bnd_Box),
    ClipGenerator.create_shape (ClipGenerator.__init__ triangle_clip_params)
    = Ok (shape, generator)
    /\ extent shape = Some clip
    /\ extent (GrooveGenerator.create_shape
                 (GrooveGenerator.__init__
                    (ClipParameters.groove_params triangle_clip_params)))
       = Some source
    /\ xmin clip - xmin source = 1
    /\ xmax source - xmax clip = 1
    /\ zmin clip = zmin source
    /\ zmax clip <= zmax source.
Proof.
  destruct (clip_within_groove_section plain_str triangle_clip_params)
    as (shape & generator & clip & source & Hs & Hc & Hg & Hx1 & Hx2 & Hz1 & Hz2).
  - rewrite validate_true_intro; [reflexivity | | |];
      unfold source_width, source_depth; simpl; lra.
  - simpl. lra.
  - simpl. lra.
  - simpl. lra.
  - exists shape, generator, clip, source.
    simpl in Hx1, Hx2.
    repeat split; try assumption; lra.
Defined.

(** ** X4: when the derivation raises *)

(** A groove of width 0 with a fillet, and a negative clearance. *)
Definition zero_width_filleted_params : ClipParameters.t :=
  ClipParameters.Build (GrooveParameters.Build 0 1 10 10 RECTANGULAR (1 / 2)) 10
    (- 1) (1 / 10).

(** X4: on a fresh generator [derive_from_groove] raises ZeroDivisionError
    exactly when the source fillet radius is positive and the source width
    is zero, and returns otherwise; [create_shape] raises with it.
    Validation does not exclude the case: [zero_width_filleted_params]
    passes [validate]. *)
Theorem derive_raises_on_zero_width_fillet (p : ClipParameters.t) :
  (ClipGenerator.derive_from_groove (ClipGenerator.__init__ p) = Raise ZeroDivisionError
   <-> 0 < GrooveParameters.fillet_radius (ClipParameters.groove_params p)
       /\ source_width p = 0)
  /\ (ClipGenerator.derive_from_groove (ClipGenerator.__init__ p) = Raise ZeroDivisionError
      -> ClipGenerator.create_shape (ClipGenerator.__init__ p) = Raise ZeroDivisionError)
  /\ (~ (0 < GrooveParameters.fillet_radius (ClipParameters.groove_params p)
         /\ source_width p = 0)
      -> exists (derived : GrooveParameters.t) (generator : ClipGenerator.t),
           ClipGenerator.derive_from_groove (ClipGenerator.__init__ p)
           = Ok (derived, generator))
  /\ fst (ClipParameters.validate plain_str zero_width_filleted_params) = true.
Proof.
  assert (Hcase :
    (0 < GrooveParameters.fillet_radius (ClipParameters.groove_params p)
     /\ source_width p = 0
     /\ ClipGenerator.derive_from_groove (ClipGenerator.__init__ p)
        = Raise ZeroDivisionError)
    \/ (~ (0 < GrooveParameters.fillet_radius (ClipParameters.groove_params p)
           /\ source_width p = 0)
        /\ ClipGenerator.derive_from_groove (ClipGenerator.__init__ p)
           = Ok (derived_params p, ClipGenerator.Build p (Some (derived_params p))))).
  { destruct (Rlt_dec 0 (GrooveParameters.fillet_radius (ClipParameters.groove_params p)))
      as [Hf|Hf].
    - destruct (Req_dec_T (source_width p) 0) as [Hw|Hw].
      + left. split; [exact Hf|]. split; [exact Hw|].
        unfold ClipGenerator.derive_from_groove. simpl.
        replace (Rgtb _ 0) with true by (symmetry; apply Rgtb_true; lra).
        unfold py_div. fold (source_width p).
        destruct (Req_dec_T (source_width p) 0); [reflexivity | contradiction].
      + right. split; [tauto|]. apply derive_from_groove_fresh. now intros _.
    - right. split; [tauto|]. apply derive_from_groove_fresh. intros H. contradiction. }
  repeat apply conj.
  - intros H. destruct Hcase as [(Hf & Hw & _) | (_ & Hok)]; [now split|].
    rewrite Hok in H. discriminate.
  - intros [Hf Hw]. destruct Hcase as [(_ & _ & Hr) | (Hn & _)]; [exact Hr|].
    exfalso. apply Hn. now split.
  - intros H. unfold ClipGenerator.create_shape. now rewrite H.
  - intros Hn. destruct Hcase as [(Hf & Hw & _) | (_ & Hok)].
    + exfalso. apply Hn. now split.
    + eexists _, _. exact Hok.
  - rewrite validate_true_intro; [reflexivity | | |];
      unfold source_width, source_depth; simpl; lra.
Qed.

Lemma derive_raises_on_zero_width_fillet_witness :
  ClipGenerator.create_shape (ClipGenerator.__init__ zero_width_filleted_params)
  = Raise ZeroDivisionError
  /\ exists (derived : GrooveParameters.t) (generator : ClipGenerator.t),
       ClipGenerator.derive_from_groove (ClipGenerator.__init__ default_clip_params)
       = Ok (derived, generator).
Proof.
  destruct (derive_raises_on_zero_width_fillet zero_width_filleted_params)
    as (Hiff & Hcreate & _ & _).
  destruct (derive_raises_on_zero_width_fillet default_clip_params)
    as (_ & _ & Hok & _).
  split.
  - apply Hcreate, Hiff. split; [simpl; lra | reflexivity].
  - apply Hok. intros [Hf _]. simpl in Hf. lra.
Defined.

(** ** X5: the derivation is computed once *)

(** X5: once a generator has produced a shape, it no longer changes: a
    second [create_shape] returns the same shape and the same generator,
    [derive_from_groove] returns the derived record without recomputing it,
    and [place_shape] places with the same record. *)
Theorem create_shape_is_memoized (p : ClipParameters.t) :
  derivable p ->
  exists (shape : TopoDS_Shape) (derived : GrooveParameters.t)
         (generator : ClipGenerator.t),
    ClipGenerator.create_shape (ClipGenerator.__init__ p) = Ok (shape, generator)
    /\ ClipGenerator.derive_from_groove (ClipGenerator.__init__ p)
       = Ok (derived, generator)
    /\ ClipGenerator.create_shape generator = Ok (shape, generator)
    /\ ClipGenerator.derive_from_groove generator = Ok (derived, generator)
    /\ forall (s : TopoDS_Shape) (location : gp_Pnt) (normal : gp_Dir)
              (tangent : option gp_Dir),
         ClipGenerator.place_shape generator s location normal tangent
         = Ok (GrooveGenerator.place_shape (GrooveGenerator.__init__ derived)
                 s location normal tangent,
               generator).
Proof.
  intros Hd.
  exists (clip_shape_of p), (derived_params p),
         (ClipGenerator.Build p (Some (derived_params p))).
  split; [now apply clip_create_shape_fresh|].
  split; [now apply derive_from_groove_fresh|].
  repeat split.
Qed.

Lemma create_shape_is_memoized_witness :
  exists (shape : TopoDS_Shape) (generator : ClipGenerator.t),
    ClipGenerator.create_shape (ClipGenerator.__init__ filleted_clip_params)
    = Ok (shape, generator)
    /\ ClipGenerator.create_shape generator = Ok (shape, generator).
Proof.
  destruct (create_shape_is_memoized filleted_clip_params)
    as (shape & derived & generator & H1 & _ & H2 & _).
  - intros _. unfold source_width. simpl. lra.
  - exists shape, generator. split; assumption.
Defined.

(** * Further properties of the pipeline *)

(** ** X6: grooves and clips are placed in pairs *)

(** The placement frame of a target location: the nearest point and the
    normal there, when the query is done, has a solution, is supported by a
    face and the normal is defined. *)
Definition resolved_frame (k : Kernel) (body : TopoDS_Shape) (location : R * R * R)
    : option (gp_Pnt * gp_Dir) :=
  let '(rx, ry, rz) := location in
  let dist_calc := DistShapeShape k (XYZ rx ry rz) body in
  if Extrema_IsDone dist_calc && (0 <? NbSolution dist_calc)%nat
     && SupportOnShape2_is_FACE dist_calc
  then
    match Normal dist_calc with
    | Some normal => Some (PointOnShape2 dist_calc, normal)
    | None => None
    end
  else None.

Fixpoint resolved_frames (k : Kernel) (body : TopoDS_Shape) (locations : list (R * R * R))
    : list (gp_Pnt * gp_Dir) :=
  match locations with
  | [] => []
  | location :: rest =>
      match resolved_frame k body location with
      | Some frame => frame :: resolved_frames k body rest
      | None => resolved_frames k body rest
      end
  end.

Definition place_at (generator : GrooveGenerator.t) (shape : TopoDS_Shape)
    (frame : gp_Pnt * gp_Dir) : TopoDS_Shape :=
  GrooveGenerator.place_shape generator shape (fst frame) (snd frame) None.

Lemma resolved_frames_length (k : Kernel) (body : TopoDS_Shape)
    (locations : list (R * R * R)) :
  (List.length (resolved_frames k body locations) <= List.length locations)%nat.
Proof.
  induction locations as [|location rest IH]; simpl; [lia|].
  destruct (resolved_frame k body location); simpl; lia.
Qed.

Lemma place_features_frames (k : Kernel) (gp : GrooveParameters.t) (p : ClipParameters.t)
    (body : TopoDS_Shape) (locations : list (R * R * R)) :
  derivable p ->
  forall (g : ClipGenerator.t) (grooves clips : list TopoDS_Shape),
    generator_of p g ->
    let groove_generator := GrooveGenerator.__init__ gp in
    let groove_shape := GrooveGenerator.create_shape groove_generator in
    let frames := resolved_frames k body locations in
    place_features k groove_generator g body locations grooves clips
    = (flat_map (fun _ => [created groove_shape; created (clip_shape_of p)]) frames,
       Ok ((grooves ++ map (place_at groove_generator groove_shape) frames)%list,
           (clips ++ map (place_at (GrooveGenerator.__init__ (derived_params p))
                            (clip_shape_of p)) frames)%list)).
Proof.
  intros Hd. induction locations as [|[[rx ry] rz] rest IH]; intros g grooves clips Hg.
  - simpl. now rewrite !app_nil_r.
  - cbn [place_features resolved_frames resolved_frame].
    destruct (Extrema_IsDone _ && (0 <? NbSolution _)%nat && SupportOnShape2_is_FACE _);
      [|now apply IH].
    destruct (Normal (DistShapeShape k (XYZ rx ry rz) body)) as [normal|];
      [|now apply IH].
    rewrite (clip_create_shape_of p g Hd Hg).
    unfold emit, lift. rewrite !bind_Ok. cbn [fst snd].
    change (ClipGenerator.place_shape _ _ _ _ _)
      with (Ok (GrooveGenerator.place_shape
                  (GrooveGenerator.__init__ (derived_params p))
                  (clip_shape_of p) (PointOnShape2 (DistShapeShape k (XYZ rx ry rz) body))
                  normal None,
                ClipGenerator.Build p (Some (derived_params p)))).
    rewrite bind_Ok. cbn [fst snd].
    rewrite IH by (now right). cbn [fst snd flat_map map].
    rewrite <- !app_assoc. reflexivity.
Qed.

(** With a fillet on a groove of zero width the first resolved location
    makes [create_shape] of the clip raise, after the groove shape was
    built. *)
Lemma place_features_underivable (k : Kernel) (gp : GrooveParameters.t)
    (p : ClipParameters.t) (body : TopoDS_Shape) (locations : list (R * R * R))
    (grooves clips : list TopoDS_Shape) :
  0 < GrooveParameters.fillet_radius (ClipParameters.groove_params p) ->
  source_width p = 0 ->
  place_features k (GrooveGenerator.__init__ gp) (ClipGenerator.__init__ p) body
    locations grooves clips
  = match resolved_frames k body locations with
    | [] => ([], Ok (grooves, clips))
    | _ :: _ =>
        ([created (GrooveGenerator.create_shape (GrooveGenerator.__init__ gp))],
         Raise ZeroDivisionError)
    end.
Proof.
  intros Hf Hw.
  assert (Hc : ClipGenerator.create_shape (ClipGenerator.__init__ p)
               = Raise ZeroDivisionError).
  { unfold ClipGenerator.create_shape, ClipGenerator.derive_from_groove. simpl.
    replace (Rgtb (GrooveParameters.fillet_radius (ClipParameters.groove_params p)) 0)
      with true by (symmetry; apply Rgtb_true; lra).
    unfold py_div. fold (source_width p).
    destruct (Req_dec_T (source_width p) 0); [reflexivity | contradiction]. }
  induction locations as [|[[rx ry] rz] rest IH]; [reflexivity|].
  cbn [place_features resolved_frames resolved_frame].
  destruct (Extrema_IsDone _ && (0 <? NbSolution _)%nat && SupportOnShape2_is_FACE _);
    [|exact IH].
  destruct (Normal (DistShapeShape k (XYZ rx ry rz) body)) as [normal|]; [|exact IH].
  rewrite Hc. reflexivity.
Qed.

(** X6: whenever the feature loop completes without an exception, it has
    placed one groove and one clip at every location whose frame resolves,
    both at that same frame and in the order of the locations, and nothing at
    the other locations, which leave no trace; all grooves share one local
    shape and all clips another, the one [create_shape] of the clip generator
    returns.  (The loop is not guarded: an exception raised while a shape is
    built leaves it.) *)
Theorem features_placed_in_pairs (k : Kernel) (gp : GrooveParameters.t)
    (p : ClipParameters.t) (body : TopoDS_Shape) (locations : list (R * R * R))
    (tr : list event) (grooves clips : list TopoDS_Shape) :
  place_features k (GrooveGenerator.__init__ gp) (ClipGenerator.__init__ p) body
    locations [] []
  = (tr, Ok (grooves, clips)) ->
  let groove_generator := GrooveGenerator.__init__ gp in
  let groove_shape := GrooveGenerator.create_shape groove_generator in
  let clip_shape := clip_shape_of p in
  let frames := resolved_frames k body locations in
  grooves = map (place_at groove_generator groove_shape) frames
  /\ clips = map (place_at (GrooveGenerator.__init__ (derived_params p)) clip_shape) frames
  /\ tr = flat_map (fun _ => [created groove_shape; created clip_shape]) frames
  /\ List.length grooves = List.length clips
  /\ (List.length grooves <= List.length locations)%nat
  /\ (frames <> [] ->
      ClipGenerator.create_shape (ClipGenerator.__init__ p)
      = Ok (clip_shape, ClipGenerator.Build p (Some (derived_params p)))).
Proof.
  intros Hrun. cbv zeta.
  assert (Hlen := resolved_frames_length k body locations).
  assert (Hderivable :
    derivable p ->
    grooves = map (place_at (GrooveGenerator.__init__ gp)
                     (GrooveGenerator.create_shape (GrooveGenerator.__init__ gp)))
                (resolved_frames k body locations)
    /\ clips = map (place_at (GrooveGenerator.__init__ (derived_params p))
                      (clip_shape_of p)) (resolved_frames k body locations)
    /\ tr = flat_map (fun _ => [created (GrooveGenerator.create_shape
                                           (GrooveGenerator.__init__ gp));
                                created (clip_shape_of p)])
              (resolved_frames k body locations)
    /\ List.length grooves = List.length clips
    /\ (List.length grooves <= List.length locations)%nat
    /\ (resolved_frames k body locations <> [] ->
        ClipGenerator.create_shape (ClipGenerator.__init__ p)
        = Ok (clip_shape_of p, ClipGenerator.Build p (Some (derived_params p))))).
  { intros Hd.
    rewrite (place_features_frames k gp p body locations Hd) in Hrun by (now left).
    cbn [app] in Hrun. injection Hrun as <- <- <-.
    rewrite !length_map.
    repeat split; try reflexivity; [exact Hlen|].
    intros _. now apply clip_create_shape_fresh. }
  destruct (Rlt_dec 0 (GrooveParameters.fillet_radius (ClipParameters.groove_params p)))
    as [Hf|Hf]; [|apply Hderivable; intros H; contradiction].
  destruct (Req_dec_T (source_width p) 0) as [Hw|Hw];
    [|apply Hderivable; intros _; exact Hw].
  rewrite (place_features_underivable k gp p body locations [] [] Hf Hw) in Hrun.
  destruct (resolved_frames k body locations) as [|frame frames]; [|discriminate].
  injection Hrun as <- <- <-. simpl.
  repeat split; try reflexivity; [lia | intros H; contradiction].
Qed.

(** A kernel on which only the points with X below 620 project onto a
    face. *)
Definition partial_kernel : Kernel := {|
  ReadFile := ReadFile nominal_kernel;
  IsValid := IsValid nominal_kernel;
  More_FACE := More_FACE nominal_kernel;
  MakeThickSolid_IsDone := MakeThickSolid_IsDone nominal_kernel;
  VolumeProperties_Mass := VolumeProperties_Mass nominal_kernel;
  GProp_GProps_Mass := GProp_GProps_Mass nominal_kernel;
  DistShapeShape_Value := DistShapeShape_Value nominal_kernel;
  DistShapeShape := fun pt _ =>
    {| Extrema_IsDone := true;
       NbSolution := 1;
       PointOnShape2 := pt;
       SupportOnShape2_is_FACE := Rltb (cx pt) 620;
       Normal := Some (XYZ 0 0 1) |};
  Fuse_status := Fuse_status nominal_kernel;
  Cut_status := Cut_status nominal_kernel;
  Write := Write nominal_kernel;
  Stl_raises := Stl_raises nominal_kernel
|}.

Lemma features_placed_in_pairs_witness :
  exists (tr : list event) (grooves clips : list TopoDS_Shape),
    place_features partial_kernel
      (GrooveGenerator.__init__ (groove_params_of sample_run))
      (ClipGenerator.__init__ (clip_params_of sample_run))
      (OneShape "body") (slice_to REFERENCE_CENTROIDS 2) [] []
    = (tr, Ok (grooves, clips))
    /\ List.length grooves = 1%nat
    /\ List.length clips = 1%nat
    /\ List.length tr = 2%nat.
Proof.
  assert (Hframes : resolved_frames partial_kernel (OneShape "body")
                      (slice_to REFERENCE_CENTROIDS 2)
                    = [(XYZ (59611 / 100) (73690 / 100) (56751 / 100), XYZ 0 0 1)]).
  { assert (Hs : slice_to REFERENCE_CENTROIDS 2
                 = [(59611 / 100, 73690 / 100, 56751 / 100);
                    (63655 / 100, 72073 / 100, 62151 / 100)]) by reflexivity.
    rewrite Hs. unfold resolved_frames, resolved_frame. simpl.
    replace (Rltb (59611 / 100) 620) with true by (symmetry; apply Rltb_true; lra).
    replace (Rltb (63655 / 100) 620) with false by (symmetry; apply Rltb_false; lra).
    reflexivity. }
  assert (Hd : derivable (clip_params_of sample_run)).
  { intros Hf. simpl in Hf. unfold GrooveParameters.default_fillet_radius in Hf. lra. }
  destruct (place_features partial_kernel
              (GrooveGenerator.__init__ (groove_params_of sample_run))
              (ClipGenerator.__init__ (clip_params_of sample_run))
              (OneShape "body") (slice_to REFERENCE_CENTROIDS 2) [] [])
    as [tr [[grooves clips]|e]] eqn:Hrun.
  - assert (H := features_placed_in_pairs partial_kernel (groove_params_of sample_run)
                   (clip_params_of sample_run) (OneShape "body")
                   (slice_to REFERENCE_CENTROIDS 2) tr grooves clips Hrun).
    cbv zeta in H. rewrite Hframes in H. destruct H as (Hg & Hc & Htr & _).
    exists tr, grooves, clips. split; [reflexivity|].
    rewrite Hg, Hc, Htr. split; [reflexivity|]. split; reflexivity.
  - exfalso.
    rewrite (place_features_frames partial_kernel (groove_params_of sample_run)
               (clip_params_of sample_run) (OneShape "body")
               (slice_to REFERENCE_CENTROIDS 2) Hd) in Hrun by (now left).
    discriminate Hrun.
Defined.

(** ** X7: failures of the import *)

(** A kernel that cannot read the file, and one that reads a corrupted
    shape. *)
Definition unreadable_kernel : Kernel := {|
  ReadFile := fun _ => 0%Z;
  IsValid := IsValid nominal_kernel;
  More_FACE := More_FACE nominal_kernel;
  MakeThickSolid_IsDone := MakeThickSolid_IsDone nominal_kernel;
  VolumeProperties_Mass := VolumeProperties_Mass nominal_kernel;
  GProp_GProps_Mass := GProp_GProps_Mass nominal_kernel;
  DistShapeShape_Value := DistShapeShape_Value nominal_kernel;
  DistShapeShape := DistShapeShape nominal_kernel;
  Fuse_status := Fuse_status nominal_kernel;
  Cut_status := Cut_status nominal_kernel;
  Write := Write nominal_kernel;
  Stl_raises := Stl_raises nominal_kernel
|}.

Definition corrupted_input_kernel : Kernel := {|
  ReadFile := ReadFile nominal_kernel;
  IsValid := fun _ => false;
  More_FACE := More_FACE nominal_kernel;
  MakeThickSolid_IsDone := MakeThickSolid_IsDone nominal_kernel;
  VolumeProperties_Mass := VolumeProperties_Mass nominal_kernel;
  GProp_GProps_Mass := GProp_GProps_Mass nominal_kernel;
  DistShapeShape_Value := DistShapeShape_Value nominal_kernel;
  DistShapeShape := DistShapeShape nominal_kernel;
  Fuse_status := Fuse_status nominal_kernel;
  Cut_status := Cut_status nominal_kernel;
  Write := Write nominal_kernel;
  Stl_raises := Stl_raises nominal_kernel
|}.

(** X7: when the reader's status is not 1 the run prints the read error and
    returns the failure "Could not read STEP file."; when the file is read
    and the imported shape is invalid it prints the validation result and the
    critical error and returns "Input geometry corrupted.".  In both cases
    nothing else happens: the trace ends there. *)
Theorem import_failures (k : Kernel) (float_str float_4f : R -> string)
    (input_path output_path : string) (runtime_params : RuntimeParams) :
  (ReadFile k input_path <> 1%Z ->
   run_pipeline k float_str float_4f input_path output_path runtime_params
   = ([stdout ("[Phase 1] Loading " ++ input_path ++ "...");
       stdout "[Phase 1] Error: Could not read file."],
      Ok (false, "Could not read STEP file.")))
  /\ (ReadFile k input_path = 1%Z ->
      IsValid k (OneShape input_path) = false ->
      run_pipeline k float_str float_4f input_path output_path runtime_params
      = ([stdout ("[Phase 1] Loading " ++ input_path ++ "...");
          stdout "[Validation] Input is INVALID.";
          stdout "[Phase 1] Critical Error: Input geometry corrupted."],
         Ok (false, "Input geometry corrupted."))).
Proof.
  split.
  - intros H. unfold run_pipeline. rewrite bind_log.
    apply Z.eqb_neq in H. rewrite H. cbn [negb]. rewrite bind_log. reflexivity.
  - intros Hr Hv. unfold run_pipeline. rewrite bind_log, Hr.
    cbn [Z.eqb Pos.eqb negb].
    rewrite check_validity_eq, Hv, bind_Ok. cbn [negb fst snd].
    rewrite bind_log. reflexivity.
Qed.

Lemma import_failures_witness :
  run_pipeline unreadable_kernel plain_str plain_str "in.stp" "out.stp" sample_run
  = ([stdout "[Phase 1] Loading in.stp...";
      stdout "[Phase 1] Error: Could not read file."],
     Ok (false, "Could not read STEP file."))
  /\ run_pipeline corrupted_input_kernel plain_str plain_str "in.stp" "out.stp" sample_run
     = ([stdout "[Phase 1] Loading in.stp...";
         stdout "[Validation] Input is INVALID.";
         stdout "[Phase 1] Critical Error: Input geometry corrupted."],
        Ok (false, "Input geometry corrupted.")).
Proof.
  split.
  - apply (import_failures unreadable_kernel plain_str plain_str "in.stp" "out.stp"
             sample_run).
    simpl. discriminate.
  - apply (import_failures corrupted_input_kernel plain_str plain_str "in.stp" "out.stp"
             sample_run); reflexivity.
Defined.

(** ** X8: the outcomes of a run *)

(** What a returned result can be: success with the message "Success" after
    a STEP write whose status was 1, or a failure with one of five
    messages. *)
Definition classified (k : Kernel) (float_str : R -> string) (output_path : string)
    (runtime_params : RuntimeParams) (run : M (bool * string)) : Prop :=
  forall (ok : bool) (msg : string),
    snd run = Ok (ok, msg) ->
    (ok = true /\ msg = "Success"
     /\ exists final_solid : TopoDS_Shape,
          In (STEPControl_Write final_solid output_path) (fst run)
          /\ Write k final_solid output_path = 1%Z)
    \/ (ok = false
        /\ (msg = "Could not read STEP file."
            \/ msg = "Input geometry corrupted."
            \/ msg = "Thickening failed."
            \/ (msg = "Invalid clip parameters: "
                      ++ snd (ClipParameters.validate float_str
                                (clip_params_of runtime_params))
                /\ fst (ClipParameters.validate float_str
                          (clip_params_of runtime_params)) = false)
            \/ (msg = "Export Failed"
                /\ exists final_solid : TopoDS_Shape,
                     In (STEPControl_Write final_solid output_path) (fst run)
                     /\ Write k final_solid output_path <> 1%Z))).

Section Outcomes.

Variable k : Kernel.
Variable float_str : R -> string.
Variable float_4f : R -> string.
Variable output_path : string.
Variable runtime_params : RuntimeParams.

Let good := classified k float_str output_path runtime_params.

Lemma classified_bind {A : Type} (c : M A) (f : A -> M (bool * string)) :
  (forall a, good (f a)) -> good (bind c f).
Proof.
  intros H ok msg. destruct c as [tr [a|e]]; [|discriminate].
  rewrite bind_Ok. cbn [fst snd]. intros Hres.
  destruct (H a ok msg Hres) as [(H1 & H2 & s & Hin & Hw) | (H1 & H2)].
  - left. repeat split; try assumption. exists s. split; [|exact Hw].
    apply in_or_app. now right.
  - right. split; [exact H1|].
    destruct H2 as [H2 | [H2 | [H2 | [H2 | (H2 & s & Hin & Hw)]]]]; auto.
    right; right; right; right. split; [exact H2|]. exists s. split; [|exact Hw].
    apply in_or_app. now right.
Qed.

Lemma classified_failure (msg : string) :
  msg = "Could not read STEP file." \/ msg = "Input geometry corrupted."
  \/ msg = "Thickening failed." ->
  good (ret (false, msg)).
Proof.
  intros H ok msg' Hres. injection Hres as <- <-. right. split; [reflexivity|].
  destruct H as [H | [H | H]]; auto.
Qed.

Lemma classified_export (final_solid : TopoDS_Shape) :
  good (validate_and_export k final_solid output_path).
Proof.
  intros ok msg. rewrite validate_and_export_eq. cbn [fst snd].
  destruct (Write k final_solid output_path =? 1)%Z eqn:Hw; intros Hres;
    injection Hres as <- <-.
  - left. repeat split. exists final_solid. split; [simpl; auto|].
    now apply Z.eqb_eq.
  - right. split; [reflexivity|]. right; right; right; right. split; [reflexivity|].
    exists final_solid. split; [simpl; auto|]. now apply Z.eqb_neq.
Qed.

Lemma classified_features (thickened_body : TopoDS_Shape) :
  good (features_and_export k float_str thickened_body output_path runtime_params).
Proof.
  unfold features_and_export. apply classified_bind. intros _.
  destruct (ClipParameters.validate float_str (clip_params_of runtime_params))
    as [is_valid vmsg] eqn:Hv.
  destruct is_valid; cbn [negb].
  - apply classified_bind. intros [gs cs].
    apply classified_bind. intros solid.
    apply classified_bind. intros final. apply classified_export.
  - apply classified_bind. intros _ ok msg Hres. injection Hres as <- <-.
    right. split; [reflexivity|]. right; right; right; left.
    unfold good, classified. rewrite Hv. now split.
Qed.

Lemma classified_run (input_path : string) :
  good (run_pipeline k float_str float_4f input_path output_path runtime_params).
Proof.
  unfold run_pipeline. apply classified_bind. intros _.
  destruct (negb (ReadFile k input_path =? 1)%Z).
  { apply classified_bind. intros _. apply classified_failure. auto. }
  apply classified_bind. intros input_ok.
  destruct (negb input_ok).
  { apply classified_bind. intros _. apply classified_failure. auto. }
  apply classified_bind. intros _.
  unfold thicken_and_continue. apply classified_bind. intros _.
  apply classified_bind. intros [body|].
  - apply classified_bind. intros oriented.
    unfold check_geometry_and_continue.
    apply classified_bind. intros _. apply classified_bind. intros _.
    apply classified_features.
  - apply classified_bind. intros _. apply classified_failure. auto.
Qed.

End Outcomes.

(** X8: whenever [run_pipeline] returns a result, it is either
    [(True, "Success")], and then a solid was written to the output path with
    writer status 1, or [False] with one of the messages "Could not read STEP
    file.", "Input geometry corrupted.", "Thickening failed.", "Invalid clip
    parameters: " followed by the validation message (the parameters then
    fail validation), or "Export Failed" (a solid was written with a status
    other than 1). *)
Theorem run_outcomes (k : Kernel) (float_str float_4f : R -> string)
    (input_path output_path : string) (runtime_params : RuntimeParams)
    (ok : bool) (msg : string) :
  snd (run_pipeline k float_str float_4f input_path output_path runtime_params)
  = Ok (ok, msg) ->
  (ok = true /\ msg = "Success"
   /\ exists final_solid : TopoDS_Shape,
        In (STEPControl_Write final_solid output_path)
           (fst (run_pipeline k float_str float_4f input_path output_path runtime_params))
        /\ Write k final_solid output_path = 1%Z)
  \/ (ok = false
      /\ (msg = "Could not read STEP file."
          \/ msg = "Input geometry corrupted."
          \/ msg = "Thickening failed."
          \/ (msg = "Invalid clip parameters: "
                    ++ snd (ClipParameters.validate float_str
                              (clip_params_of runtime_params))
              /\ fst (ClipParameters.validate float_str
                        (clip_params_of runtime_params)) = false)
          \/ (msg = "Export Failed"
              /\ exists final_solid : TopoDS_Shape,
                   In (STEPControl_Write final_solid output_path)
                      (fst (run_pipeline k float_str float_4f input_path output_path
                              runtime_params))
                   /\ Write k final_solid output_path <> 1%Z))).
Proof.
  apply (classified_run k float_str float_4f output_path runtime_params input_path).
Qed.

Lemma nominal_run_succeeds :
  snd (run_pipeline nominal_kernel plain_str plain_str "in.stp" "out.stp" sample_run)
  = Ok (true, "Success").
Proof.
  destruct (run_reaches_export nominal_kernel plain_str plain_str)
    with (input_path := "in.stp") (output_path := "out.stp") (runtime_params := sample_run)
    as (solid & compound & tr & Hrun);
    try reflexivity.
  - exact nominal_resolves.
  - apply sample_run_valid.
  - simpl. lia.
  - rewrite Hrun, validate_and_export_eq. reflexivity.
Qed.

Lemma run_outcomes_witness :
  exists final_solid : TopoDS_Shape,
    In (STEPControl_Write final_solid "out.stp")
       (fst (run_pipeline nominal_kernel plain_str plain_str "in.stp" "out.stp"
               sample_run))
    /\ Write nominal_kernel final_solid "out.stp" = 1%Z.
Proof.
  destruct (run_outcomes nominal_kernel plain_str plain_str "in.stp" "out.stp" sample_run
              true "Success" nominal_run_succeeds)
    as [(_ & _ & H) | (H & _)].
  - exact H.
  - discriminate.
Defined.

(** ** X9: the clip derivation of a run *)

(** X9: the groove record that [run_pipeline] builds carries the default
    fillet radius 0, so the clip derivation of a run never divides: for all
    runtime parameters, a zero groove width included, [derive_from_groove] on
    the clip generator of the run returns, and caches, the record of width
    groove_width - assembly_clearance, depth groove_depth - retention_offset,
    height and length clip_height, the shape kind of the run and fillet
    radius 0. *)
Theorem run_clip_derivation_never_divides (runtime_params : RuntimeParams) :
  let derived :=
    GrooveParameters.Build
      (groove_width runtime_params - assembly_clearance runtime_params)
      (groove_depth runtime_params - retention_offset runtime_params)
      (clip_height runtime_params)
      (clip_height runtime_params)
      (groove_shape runtime_params)
      0 in
  ClipGenerator.derive_from_groove (ClipGenerator.__init__ (clip_params_of runtime_params))
  = Ok (derived, ClipGenerator.Build (clip_params_of runtime_params) (Some derived)).
Proof.
  unfold ClipGenerator.derive_from_groove. simpl.
  replace (Rgtb GrooveParameters.default_fillet_radius 0) with false
    by (symmetry; apply Rgtb_false; unfold GrooveParameters.default_fillet_radius; lra).
  reflexivity.
Qed.

(** ** Reaching the boolean stages *)

(** A trace without file writes. *)
Definition quiet (tr : list event) : Prop :=
  forall e, In e tr -> (exists line, e = stdout line) \/ (exists shape, e = created shape).

Lemma quiet_nil : quiet [].
Proof. intros e []. Qed.

Lemma quiet_app (tr tr' : list event) : quiet tr -> quiet tr' -> quiet (tr ++ tr').
Proof.
  intros H H' e Hin. apply in_app_or in Hin. destruct Hin; auto.
Qed.

Lemma quiet_stdout (line : string) : quiet [stdout line].
Proof. intros e [<- | []]. left. now exists line. Qed.

Lemma quiet_created (frames : list (gp_Pnt * gp_Dir)) (a b : TopoDS_Shape) :
  quiet (flat_map (fun _ => [created a; created b]) frames).
Proof.
  induction frames as [|f rest IH]; [apply quiet_nil|].
  simpl. intros e [<- | [<- | Hin]].
  - right. now exists a.
  - right. now exists b.
  - now apply IH.
Qed.

Definition leads_quietly {A : Type} (run rest : M A) : Prop :=
  exists tr : list event, quiet tr /\ run = ((tr ++ fst rest)%list, snd rest).

Lemma leads_quietly_refl {A : Type} (run : M A) : leads_quietly run run.
Proof. exists []. split; [apply quiet_nil | now destruct run]. Qed.

Lemma leads_quietly_bind {A B : Type} (c : M A) (a : A) (f : A -> M B) (rest : M B) :
  (exists tr : list event, quiet tr /\ c = (tr, Ok a)) ->
  leads_quietly (f a) rest -> leads_quietly (bind c f) rest.
Proof.
  intros (tr & Hq & ->) (tr' & Hq' & H). exists (tr ++ tr')%list.
  split; [now apply quiet_app|].
  rewrite bind_Ok, H. cbn [fst snd]. now rewrite app_assoc.
Qed.

Lemma leads_quietly_log {B : Type} (phase message : string) (f : unit -> M B)
    (rest : M B) :
  leads_quietly (f tt) rest -> leads_quietly (bind (log phase message) f) rest.
Proof.
  intros H. apply leads_quietly_bind with (a := tt); [|exact H].
  eexists. split; [apply quiet_stdout | reflexivity].
Qed.

(** The boolean stages and the export, from the placed tools on. *)
Definition booleans_and_export (k : Kernel) (thickened_body : TopoDS_Shape)
    (grooves_to_cut clips_to_fuse : list TopoDS_Shape) (output_path : string)
    : M (bool * string) :=
  bind (lift (cut_grooves k thickened_body grooves_to_cut)) (fun final_solid =>
  bind (lift (fuse_clips k final_solid clips_to_fuse)) (fun final_solid =>
  validate_and_export k final_solid output_path)).

(** The body the features are placed on when the inward offset is done. *)
Definition inward_body (k : Kernel) (input_path : string) (runtime_params : RuntimeParams)
    : TopoDS_Shape :=
  let body :=
    MakeThickSolidByJoin (OneShape input_path) (- Rabs (thickness runtime_params)) in
  if Rltb (VolumeProperties_Mass k body) 0 then Reversed body else body.

(** The grooves and clips a run places on a body. *)
Definition placed_grooves (k : Kernel) (body : TopoDS_Shape) (runtime_params : RuntimeParams)
    : list TopoDS_Shape :=
  let generator := GrooveGenerator.__init__ (groove_params_of runtime_params) in
  map (place_at generator (GrooveGenerator.create_shape generator))
    (resolved_frames k body
       (slice_to REFERENCE_CENTROIDS (groove_count runtime_params))).

Definition placed_clips (k : Kernel) (body : TopoDS_Shape) (runtime_params : RuntimeParams)
    : list TopoDS_Shape :=
  let p := clip_params_of runtime_params in
  map (place_at (GrooveGenerator.__init__ (derived_params p)) (clip_shape_of p))
    (resolved_frames k body
       (slice_to REFERENCE_CENTROIDS (groove_count runtime_params))).

Lemma run_reaches_booleans (k : Kernel) (float_str float_4f : R -> string)
    (input_path output_path : string) (runtime_params : RuntimeParams) :
  ReadFile k input_path = 1%Z ->
  IsValid k (OneShape input_path) = true ->
  MakeThickSolid_IsDone k (OneShape input_path) (- Rabs (thickness runtime_params)) = true ->
  fst (ClipParameters.validate float_str (clip_params_of runtime_params)) = true ->
  let body := inward_body k input_path runtime_params in
  leads_quietly
    (run_pipeline k float_str float_4f input_path output_path runtime_params)
    (booleans_and_export k body (placed_grooves k body runtime_params)
       (placed_clips k body runtime_params) output_path).
Proof.
  intros Hread Hvalid Hthick Hv body.
  destruct (validate_true_inv _ _ Hv) as (Hh & Hc & Hr).
  unfold run_pipeline. apply leads_quietly_log.
  rewrite Hread. cbn [Z.eqb Pos.eqb negb].
  apply leads_quietly_bind with (a := true).
  { rewrite check_validity_eq, Hvalid. eexists. split; [apply quiet_stdout|reflexivity]. }
  cbn [negb].
  apply leads_quietly_bind with (a := tt).
  { destruct (More_FACE k (OneShape input_path)); cbn [negb]; eexists;
      (split; [|reflexivity]); [apply quiet_nil | apply quiet_stdout]. }
  unfold thicken_and_continue. apply leads_quietly_log.
  apply leads_quietly_bind
    with (a := Some (MakeThickSolidByJoin (OneShape input_path)
                       (- Rabs (thickness runtime_params)))).
  { rewrite thicken_both_ways_inward by assumption. eexists.
    split; [apply quiet_nil | reflexivity]. }
  cbn beta iota.
  apply leads_quietly_bind with (a := body).
  { unfold fix_orientation. subst body. unfold inward_body.
    destruct (Rltb _ 0).
    - rewrite bind_log. eexists. split; [apply quiet_stdout | reflexivity].
    - eexists. split; [apply quiet_nil | reflexivity]. }
  unfold check_geometry_and_continue. apply leads_quietly_log.
  apply leads_quietly_bind with (a := tt).
  { destruct (Rgtb _ _); eexists; (split; [|reflexivity]);
      [apply quiet_stdout | apply quiet_nil]. }
  unfold features_and_export. apply leads_quietly_log.
  rewrite (validate_true_intro _ _ Hh Hc Hr). cbn [negb].
  apply leads_quietly_bind
    with (a := (placed_grooves k body runtime_params, placed_clips k body runtime_params)).
  { rewrite (place_features_frames k (groove_params_of runtime_params)
               (clip_params_of runtime_params)) by
      (try (now left); intros Hf; simpl in Hf;
       unfold GrooveParameters.default_fillet_radius in Hf; lra).
    eexists. split; [apply quiet_created | reflexivity]. }
  cbn beta iota. apply leads_quietly_refl.
Qed.

Lemma resolved_frames_all (k : Kernel) (body : TopoDS_Shape)
    (locations : list (R * R * R)) :
  resolves k ->
  List.length (resolved_frames k body locations) = List.length locations.
Proof.
  intros Hk. induction locations as [|[[rx ry] rz] rest IH]; [reflexivity|].
  cbn [resolved_frames resolved_frame].
  destruct (Hk (XYZ rx ry rz) body) as (H1 & H2 & H3 & normal & H4).
  rewrite H1, H2, H3, H4. simpl. now rewrite IH.
Qed.

(** ** X10: a kernel exception in the sequential pass leaves the run *)

(** [nominal_kernel], except that every cut raises. *)
Definition throwing_cut_kernel : Kernel := {|
  ReadFile := ReadFile nominal_kernel;
  IsValid := IsValid nominal_kernel;
  More_FACE := More_FACE nominal_kernel;
  MakeThickSolid_IsDone := MakeThickSolid_IsDone nominal_kernel;
  VolumeProperties_Mass := VolumeProperties_Mass nominal_kernel;
  GProp_GProps_Mass := GProp_GProps_Mass nominal_kernel;
  DistShapeShape_Value := DistShapeShape_Value nominal_kernel;
  DistShapeShape := DistShapeShape nominal_kernel;
  Fuse_status := Fuse_status nominal_kernel;
  Cut_status := fun _ _ => Throws "Standard_Failure";
  Write := Write nominal_kernel;
  Stl_raises := Stl_raises nominal_kernel
|}.

Lemma placed_grooves_nonempty (k : Kernel) (body : TopoDS_Shape)
    (runtime_params : RuntimeParams) :
  resolves k ->
  (1 <= groove_count runtime_params)%Z ->
  exists first rest, placed_grooves k body runtime_params = first :: rest.
Proof.
  intros Hk Hn.
  assert (Hl : List.length (placed_grooves k body runtime_params)
               = Z.to_nat (Z.min (groove_count runtime_params) 7)).
  { unfold placed_grooves. rewrite length_map, resolved_frames_all by assumption.
    apply slice_to_length. lia. }
  destruct (placed_grooves k body runtime_params) as [|first rest].
  - simpl in Hl. lia.
  - now exists first, rest.
Qed.

(** X10: when the import, the thickening and the validation pass, at least
    one groove is placed and every cut of the kernel raises, the exception of
    the bulk attempt is swallowed but that of the sequential pass is not:
    [run_pipeline] ends with that exception instead of returning a result,
    having written no file. *)
Theorem sequential_exception_escapes (k : Kernel) (float_str float_4f : R -> string)
    (input_path output_path : string) (runtime_params : RuntimeParams) (what : string) :
  ReadFile k input_path = 1%Z ->
  IsValid k (OneShape input_path) = true ->
  MakeThickSolid_IsDone k (OneShape input_path) (- Rabs (thickness runtime_params)) = true ->
  fst (ClipParameters.validate float_str (clip_params_of runtime_params)) = true ->
  resolves k ->
  (1 <= groove_count runtime_params)%Z ->
  (forall a b, Cut_status k a b = Throws what) ->
  snd (run_pipeline k float_str float_4f input_path output_path runtime_params)
  = Raise (KernelError what)
  /\ quiet (fst (run_pipeline k float_str float_4f input_path output_path runtime_params)).
Proof.
  intros Hread Hvalid Hthick Hv Hk Hn Hcut.
  destruct (run_reaches_booleans k float_str float_4f input_path output_path
              runtime_params Hread Hvalid Hthick Hv) as (tr & Hq & Hrun).
  destruct (placed_grooves_nonempty k (inward_body k input_path runtime_params)
              runtime_params Hk Hn) as (first & rest & Hg).
  assert (Hstage : cut_grooves k (inward_body k input_path runtime_params)
                     (first :: rest) = Raise (KernelError what)).
  { unfold cut_grooves, bulk_cut.
    destruct (fuse_tools k first rest); [rewrite Hcut|]; simpl; now rewrite Hcut. }
  rewrite Hrun. unfold booleans_and_export. rewrite Hg, Hstage. cbn [lift bind fst snd].
  split; [reflexivity|]. now rewrite app_nil_r.
Qed.

Lemma sequential_exception_escapes_witness :
  snd (run_pipeline throwing_cut_kernel plain_str plain_str "in.stp" "out.stp" sample_run)
  = Raise (KernelError "Standard_Failure").
Proof.
  apply (sequential_exception_escapes throwing_cut_kernel plain_str plain_str
           "in.stp" "out.stp" sample_run "Standard_Failure");
    try reflexivity.
  - apply sample_run_valid.
  - exact nominal_resolves.
  - simpl. lia.
Defined.

(** ** X11: an exception of the bulk attempt is swallowed *)

(** A kernel on which fusing two tools raises, every cut is done and the
    empty property set has mass zero. *)
Definition throwing_fuse_kernel : Kernel := {|
  ReadFile := ReadFile nominal_kernel;
  IsValid := IsValid nominal_kernel;
  More_FACE := More_FACE nominal_kernel;
  MakeThickSolid_IsDone := MakeThickSolid_IsDone nominal_kernel;
  VolumeProperties_Mass := VolumeProperties_Mass nominal_kernel;
  GProp_GProps_Mass := GProp_GProps_Mass nominal_kernel;
  DistShapeShape_Value := DistShapeShape_Value nominal_kernel;
  DistShapeShape := DistShapeShape nominal_kernel;
  Fuse_status := fun _ _ => Throws "Standard_Failure";
  Cut_status := Cut_status nominal_kernel;
  Write := Write nominal_kernel;
  Stl_raises := Stl_raises nominal_kernel
|}.

(** X11: in both boolean stages, when pre-combining the tools raises, or the
    single body-vs-compound operation raises, the exception is swallowed and
    the stage result is that of the sequential pass over all the tools, from
    the unchanged body. *)
Theorem bulk_exception_falls_back (k : Kernel) (body first : TopoDS_Shape)
    (rest : list TopoDS_Shape) :
  ((exists e, fuse_tools k first rest = Raise e)
   \/ (exists compound what,
         fuse_tools k first rest = Ok compound
         /\ Cut_status k body compound = Throws what) ->
   cut_grooves k body (first :: rest) = cut_each k body (first :: rest))
  /\ ((exists e, fuse_tools k first rest = Raise e)
      \/ (exists compound what,
            fuse_tools k first rest = Ok compound
            /\ Fuse_status k body compound = Throws what) ->
      fuse_clips k body (first :: rest) = fuse_each k body (first :: rest)).
Proof.
  split; intros [[e He] | (compound & what & Hc & Hs)].
  - unfold cut_grooves, bulk_cut. now rewrite He.
  - unfold cut_grooves, bulk_cut. now rewrite Hc, Hs.
  - unfold fuse_clips, bulk_fuse. now rewrite He.
  - unfold fuse_clips, bulk_fuse. now rewrite Hc, Hs.
Qed.

Lemma bulk_exception_falls_back_witness :
  cut_grooves throwing_fuse_kernel (OneShape "body") [OneShape "g0"; OneShape "g1"]
  = Ok (BRepAlgoAPI_Cut (BRepAlgoAPI_Cut (OneShape "body") (OneShape "g0"))
          (OneShape "g1")).
Proof.
  destruct (bulk_exception_falls_back throwing_fuse_kernel (OneShape "body")
              (OneShape "g0") [OneShape "g1"]) as [Hcut _].
  rewrite Hcut; [reflexivity|].
  left. now exists (KernelError "Standard_Failure").
Defined.

(** ** X12: booleans that are never done leave the body as it is *)


Section NothingDone.

Variable k : Kernel.
Hypothesis Hcut : forall a b, Cut_status k a b = NotDone.
Hypothesis Hfuse : forall a b, Fuse_status k a b = NotDone.






End NothingDone.



(** ** X13: counts within the list are honoured *)



(** ** X14, X15: the path of the preview *)

(** [old in s], for a non-empty [old]. *)
Fixpoint occurs (old s : string) : bool :=
  match s with
  | EmptyString => false
  | String _ s' => startswith old s || occurs old s'
  end.

(** Whether [old] occurs in [base ++ tail] starting inside [base]. *)
Fixpoint occurs_from (old base tail : string) : bool :=
  match base with
  | EmptyString => false
  | String _ base' => startswith old (base ++ tail) || occurs_from old base' tail
  end.

Lemma replace_from_absent (old new s : string) :
  occurs old s = false -> replace_from O old new s = s.
Proof.
  induction s as [|c s' IH]; [reflexivity|].
  cbn [occurs replace_from]. intros H. apply orb_false_iff in H as [H1 H2].
  rewrite H1. now rewrite IH.
Qed.

Lemma replace_from_skip (old new s : string) :
  replace_from (String.length s) old new s = EmptyString.
Proof. induction s as [|c s' IH]; [reflexivity | exact IH]. Qed.

Lemma startswith_refl (s : string) : startswith s s = true.
Proof.
  induction s as [|c s' IH]; [reflexivity|]. simpl. now rewrite Ascii.eqb_refl.
Qed.

Lemma append_empty_r (s : string) : s ++ "" = s.
Proof. induction s as [|c s' IH]; [reflexivity|]. simpl. now rewrite IH. Qed.

Lemma replace_suffix (c : Ascii.ascii) (old' new base : string) :
  occurs_from (String c old') base (String c old') = false ->
  replace (String c old') new (base ++ String c old') = base ++ new.
Proof.
  unfold replace. induction base as [|b base' IH]; intros H.
  - cbn [append replace_from]. rewrite startswith_refl.
    cbn [String.length Nat.pred]. rewrite replace_from_skip. apply append_empty_r.
  - cbn [occurs_from] in H. apply orb_false_iff in H as [H1 H2].
    change ((String b base') ++ String c old') with (String b (base' ++ String c old'))
      in *.
    cbn [replace_from]. rewrite H1. now rewrite IH.
Qed.

(** X14: when neither ".stp" nor ".step" occurs in the output path (as for
    "part.STEP" or "part"), the preview path computed in phase 6 is the
    output path itself, so that, the mesh export not raising, the STL is
    written to the very path the STEP file was just written to. *)
Theorem preview_overwrites_unrecognised_output (k : Kernel) (final_solid : TopoDS_Shape)
    (output_path : string) :
  occurs ".stp" output_path = false ->
  occurs ".step" output_path = false ->
  Stl_raises k final_solid output_path = None ->
  replace ".step" ".stl" (replace ".stp" ".stl" output_path) = output_path
  /\ exists before between : list event,
       fst (validate_and_export k final_solid output_path)
       = (before ++ STEPControl_Write final_solid output_path
                 :: between ++ [StlAPI_Write final_solid output_path])%list.
Proof.
  intros H1 H2 Hstl.
  assert (Hpath : replace ".step" ".stl" (replace ".stp" ".stl" output_path) = output_path).
  { unfold replace. rewrite (replace_from_absent ".stp") by assumption.
    now apply replace_from_absent. }
  split; [exact Hpath|].
  rewrite validate_and_export_eq. cbn [fst]. rewrite Hpath, Hstl.
  exists [stdout "[Phase 5] Validating Final Solid...";
          stdout ("[Validation] Final Output"
                  ++ (if IsValid k final_solid then " is VALID." else " is INVALID."));
          stdout ("[Phase 6] Exporting to " ++ output_path ++ "...")],
         [stdout ("[Phase 6] Generating preview STL: " ++ output_path)].
  reflexivity.
Qed.

Lemma preview_overwrites_unrecognised_output_witness :
  replace ".step" ".stl" (replace ".stp" ".stl" "part.STEP") = "part.STEP"
  /\ exists before between : list event,
       fst (validate_and_export nominal_kernel (OneShape "solid") "part.STEP")
       = (before ++ STEPControl_Write (OneShape "solid") "part.STEP"
                 :: between ++ [StlAPI_Write (OneShape "solid") "part.STEP"])%list.
Proof.
  apply (preview_overwrites_unrecognised_output nominal_kernel (OneShape "solid")
           "part.STEP"); reflexivity.
Defined.

(** X15: for an output path that ends in ".stp" or in ".step" and holds
    neither extension anywhere before (nor ".step" once the ending is
    replaced), the preview path is the output path with that ending replaced
    by ".stl". *)
Theorem preview_path_replaces_the_extension (base : string) :
  occurs ".step" (base ++ ".stl") = false ->
  (occurs_from ".stp" base ".stp" = false ->
   replace ".step" ".stl" (replace ".stp" ".stl" (base ++ ".stp")) = base ++ ".stl")
  /\ (occurs ".stp" (base ++ ".step") = false ->
      occurs_from ".step" base ".step" = false ->
      replace ".step" ".stl" (replace ".stp" ".stl" (base ++ ".step")) = base ++ ".stl").
Proof.
  intros Hstl. split.
  - intros H. rewrite (replace_suffix (Ascii.ascii_of_nat 46) "stp") by exact H.
    unfold replace. now apply replace_from_absent.
  - intros H1 H2. unfold replace.
    rewrite (replace_from_absent ".stp" ".stl" (base ++ ".step") H1).
    exact (replace_suffix (Ascii.ascii_of_nat 46) "step" ".stl" base H2).
Qed.

Lemma preview_path_replaces_the_extension_witness :
  replace ".step" ".stl" (replace ".stp" ".stl" "Generated_Part.stp")
  = "Generated_Part.stl"
  /\ replace ".step" ".stl" (replace ".stp" ".stl" "Generated_Part.step")
     = "Generated_Part.stl".
Proof.
  destruct (preview_path_replaces_the_extension "Generated_Part" eq_refl) as [H1 H2].
  split; [exact (H1 eq_refl) | exact (H2 eq_refl eq_refl)].
Defined.

(** * groove_generator.py: compute_placement_frames *)

(** What the function asks of a face: the parameter bounds of its surface,
    the point at a parameter pair, and the normal there ([None] when
    [IsNormalDefined] is false). *)
Record BRepAdaptor_Surface : Type := {
  FirstUParameter : R;
  LastUParameter : R;
  FirstVParameter : R;
  LastVParameter : R;
  Value : R -> R -> gp_Pnt;
  SLProps_Normal : R -> R -> option gp_Dir
}.

(** [range(start, stop)] on Python ints. *)
Definition py_range (start stop : Z) : list Z :=
  map (fun i => (start + Z.of_nat i)%Z) (seq 0 (Z.to_nat (stop - start))).

(** The body of the [for] loop, over the values of [i] still to come. *)
Fixpoint sample_frames (adaptor : BRepAdaptor_Surface) (u_min step_u v_mid : R)
    (indices : list Z) (frames : list (gp_Pnt * gp_Dir)) : list (gp_Pnt * gp_Dir) :=
  match indices with
  | [] => frames
  | i :: rest =>
      let u := u_min + IZR i * step_u in
      let pnt := Value adaptor u v_mid in
      match SLProps_Normal adaptor u v_mid with
      | Some normal =>
          sample_frames adaptor u_min step_u v_mid rest (frames ++ [(pnt, normal)])%list
      | None => sample_frames adaptor u_min step_u v_mid rest frames
      end
  end.

(** The conversion a float operation applies to an int operand.  An int of
    magnitude 2^1024 - 2^970 or more rounds to 2^1024, which no float holds:
    the conversion raises OverflowError. *)
Definition float_of_int_limit : Z := (2 ^ 1024 - 2 ^ 970)%Z.

Definition float_of_int (n : Z) : result R :=
  if (Z.abs n <? float_of_int_limit)%Z then Ok (IZR n) else Raise OverflowError.

(** The divisor [num_points + 1] is converted before the division; the
    indices of the loop lie below it, so their conversion cannot overflow. *)
Definition compute_placement_frames (face : BRepAdaptor_Surface) (num_points : Z)
    (offset_from_edge : R) : result (list (gp_Pnt * gp_Dir)) :=
  let adaptor := face in
  let u_min := FirstUParameter adaptor in
  let u_max := LastUParameter adaptor in
  let v_min := FirstVParameter adaptor in
  let v_max := LastVParameter adaptor in
  let v_mid := (v_min + v_max) / 2 in
  rbind (float_of_int (num_points + 1)) (fun divisor =>
    rbind (py_div (u_max - u_min) divisor) (fun step_u =>
      Ok (sample_frames adaptor u_min step_u v_mid (py_range 1 (num_points + 1)) []))).

(** The defaults of the signature. *)
Definition default_num_points : Z := 5.
Definition default_offset_from_edge : R := 5.

(** ** Properties *)

Lemma py_range_length (start stop : Z) :
  List.length (py_range start stop) = Z.to_nat (stop - start).
Proof. unfold py_range. now rewrite length_map, length_seq. Qed.

Lemma py_range_In (start stop i : Z) :
  In i (py_range start stop) -> (start <= i < stop)%Z.
Proof.
  unfold py_range. intros H. apply in_map_iff in H as (n & <- & Hn).
  apply in_seq in Hn. lia.
Qed.

(** The frame sampled at index [i], if the normal is defined there. *)
Definition frame_at (adaptor : BRepAdaptor_Surface) (u_min step_u v_mid : R) (i : Z)
    : option (gp_Pnt * gp_Dir) :=
  let u := u_min + IZR i * step_u in
  match SLProps_Normal adaptor u v_mid with
  | Some normal => Some (Value adaptor u v_mid, normal)
  | None => None
  end.

Lemma sample_frames_In (adaptor : BRepAdaptor_Surface) (u_min step_u v_mid : R)
    (indices : list Z) :
  forall (frames : list (gp_Pnt * gp_Dir)) (f : gp_Pnt * gp_Dir),
    In f (sample_frames adaptor u_min step_u v_mid indices frames) ->
    In f frames
    \/ exists i, In i indices /\ frame_at adaptor u_min step_u v_mid i = Some f.
Proof.
  induction indices as [|i rest IH]; intros frames f Hin; [now left|].
  cbn [sample_frames] in Hin.
  destruct (SLProps_Normal adaptor (u_min + IZR i * step_u) v_mid) as [normal|] eqn:Hn.
  - apply IH in Hin. destruct Hin as [Hin | (j & Hj & Hf)].
    + apply in_app_or in Hin. destruct Hin as [Hin | [<- | []]]; [now left|].
      right. exists i. split; [now left|]. unfold frame_at. now rewrite Hn.
    + right. exists j. split; [now right | exact Hf].
  - apply IH in Hin. destruct Hin as [Hin | (j & Hj & Hf)]; [now left|].
    right. exists j. split; [now right | exact Hf].
Qed.

Lemma sample_frames_length (adaptor : BRepAdaptor_Surface) (u_min step_u v_mid : R)
    (indices : list Z) :
  forall frames : list (gp_Pnt * gp_Dir),
    (List.length (sample_frames adaptor u_min step_u v_mid indices frames)
     <= List.length frames + List.length indices)%nat
    /\ ((forall u v, SLProps_Normal adaptor u v <> None) ->
        List.length (sample_frames adaptor u_min step_u v_mid indices frames)
        = (List.length frames + List.length indices)%nat).
Proof.
  induction indices as [|i rest IH]; intros frames.
  - simpl. split; [lia | intros _; lia].
  - cbn [sample_frames].
    destruct (SLProps_Normal adaptor (u_min + IZR i * step_u) v_mid) as [normal|] eqn:Hn.
    + destruct (IH (frames ++ [(Value adaptor (u_min + IZR i * step_u) v_mid, normal)])%list)
        as [Hle Heq].
      rewrite length_app in Hle, Heq. simpl in *.
      split; [lia | intros Hall; rewrite (Heq Hall); lia].
    + destruct (IH frames) as [Hle Heq]. simpl.
      split; [lia | intros Hall; exfalso; exact (Hall _ _ Hn)].
Qed.

(** A flat patch, 6 by 2, with the normal +Z everywhere. *)
Definition flat_patch : BRepAdaptor_Surface := {|
  FirstUParameter := 0;
  LastUParameter := 6;
  FirstVParameter := 0;
  LastVParameter := 2;
  Value := fun u v => XYZ u v 0;
  SLProps_Normal := fun _ _ => Some (XYZ 0 0 1)
|}.

Lemma IZR_succ_neq_0 (n : Z) : n <> (-1)%Z -> IZR (n + 1) <> 0.
Proof. intros H Heq. apply eq_IZR_R0 in Heq. lia. Qed.

Lemma float_of_int_Ok (n : Z) :
  (Z.abs n < float_of_int_limit)%Z -> float_of_int n = Ok (IZR n).
Proof. intros H. unfold float_of_int. apply Z.ltb_lt in H. now rewrite H. Qed.

Lemma float_of_int_Raise (n : Z) :
  (float_of_int_limit <= Z.abs n)%Z -> float_of_int n = Raise OverflowError.
Proof. intros H. unfold float_of_int. apply Z.ltb_ge in H. now rewrite H. Qed.

Lemma float_of_int_limit_pos : (6 < float_of_int_limit)%Z.
Proof. apply Z.ltb_lt. vm_compute. reflexivity. Qed.

(** X16: [compute_placement_frames] raises OverflowError when
    [num_points + 1] is too large in magnitude to convert to a float
    (2^1024 - 2^970 or more), and ZeroDivisionError when [num_points] is -1;
    for any other count it returns at most [num_points] frames (none for a
    count below 1), and exactly [num_points] when the normal is defined
    everywhere on the face. *)
Theorem placement_frames_count (face : BRepAdaptor_Surface) (num_points : Z)
    (offset_from_edge : R) :
  ((float_of_int_limit <= Z.abs (num_points + 1))%Z ->
   compute_placement_frames face num_points offset_from_edge = Raise OverflowError)
  /\ (num_points = (-1)%Z ->
      compute_placement_frames face num_points offset_from_edge = Raise ZeroDivisionError)
  /\ ((Z.abs (num_points + 1) < float_of_int_limit)%Z ->
      num_points <> (-1)%Z ->
      exists frames : list (gp_Pnt * gp_Dir),
        compute_placement_frames face num_points offset_from_edge = Ok frames
        /\ (List.length frames <= Z.to_nat num_points)%nat
        /\ ((forall u v, SLProps_Normal face u v <> None) ->
            List.length frames = Z.to_nat num_points)).
Proof.
  repeat apply conj.
  - intros Hbig. unfold compute_placement_frames.
    now rewrite float_of_int_Raise.
  - intros ->. unfold compute_placement_frames.
    rewrite float_of_int_Ok by (assert (H := float_of_int_limit_pos); simpl; lia).
    unfold py_div. simpl.
    destruct (Req_dec_T 0 0); [reflexivity | contradiction].
  - intros Hsmall Hn. unfold compute_placement_frames.
    rewrite float_of_int_Ok by exact Hsmall. cbn [rbind].
    rewrite py_div_Ok by now apply IZR_succ_neq_0.
    cbn [rbind]. eexists. split; [reflexivity|].
    destruct (sample_frames_length face (FirstUParameter face)
                ((LastUParameter face - FirstUParameter face) / IZR (num_points + 1))
                ((FirstVParameter face + LastVParameter face) / 2)
                (py_range 1 (num_points + 1)) []) as [Hle Heq].
    rewrite py_range_length in Hle, Heq. simpl in Hle, Heq.
    replace (num_points + 1 - 1)%Z with num_points in * by lia.
    split; assumption.
Qed.

Lemma placement_frames_count_witness :
  compute_placement_frames flat_patch (10 ^ 309) default_offset_from_edge
  = Raise OverflowError
  /\ compute_placement_frames flat_patch (-1) default_offset_from_edge
     = Raise ZeroDivisionError
  /\ exists frames : list (gp_Pnt * gp_Dir),
       compute_placement_frames flat_patch default_num_points default_offset_from_edge
       = Ok frames
       /\ List.length frames = 5%nat.
Proof.
  destruct (placement_frames_count flat_patch (10 ^ 309) default_offset_from_edge)
    as (Hbig & _ & _).
  destruct (placement_frames_count flat_patch (-1) default_offset_from_edge)
    as (_ & Hraise & _).
  destruct (placement_frames_count flat_patch default_num_points default_offset_from_edge)
    as (_ & _ & Hok).
  split; [apply Hbig; apply Z.leb_le; vm_compute; reflexivity|].
  split; [exact (Hraise eq_refl)|].
  destruct Hok as (frames & Hf & _ & Hall);
    [apply Z.ltb_lt; vm_compute; reflexivity | discriminate |].
  exists frames. split; [exact Hf|]. apply Hall. intros u v. discriminate.
Defined.

(** X17: for a count of at least 1 on a face whose U range is not empty,
    every returned frame is the point and the normal of the surface at
    V = (v_min + v_max) / 2 and U = u_min + i (u_max - u_min) / (num_points + 1)
    for some i from 1 to [num_points]: the samples are evenly spaced and lie
    strictly inside the U range, never on its ends. *)
Theorem placement_frames_are_interior (face : BRepAdaptor_Surface) (num_points : Z)
    (offset_from_edge : R) (frames : list (gp_Pnt * gp_Dir)) :
  (1 <= num_points)%Z ->
  FirstUParameter face < LastUParameter face ->
  compute_placement_frames face num_points offset_from_edge = Ok frames ->
  forall f : gp_Pnt * gp_Dir,
    In f frames ->
    exists (i : Z) (u : R),
      (1 <= i <= num_points)%Z
      /\ u = FirstUParameter face
             + IZR i * ((LastUParameter face - FirstUParameter face)
                        / IZR (num_points + 1))
      /\ FirstUParameter face < u < LastUParameter face
      /\ fst f = Value face u ((FirstVParameter face + LastVParameter face) / 2)
      /\ SLProps_Normal face u ((FirstVParameter face + LastVParameter face) / 2)
         = Some (snd f).
Proof.
  intros Hn Hu Hc f Hin. unfold compute_placement_frames, float_of_int in Hc.
  destruct (Z.abs (num_points + 1) <? float_of_int_limit)%Z; [|discriminate].
  cbn [rbind] in Hc.
  rewrite py_div_Ok in Hc by (apply IZR_succ_neq_0; lia).
  cbn [rbind] in Hc. injection Hc as <-.
  apply sample_frames_In in Hin. destruct Hin as [[] | (i & Hi & Hf)].
  apply py_range_In in Hi.
  exists i, (FirstUParameter face
             + IZR i * ((LastUParameter face - FirstUParameter face)
                        / IZR (num_points + 1))).
  split; [lia|]. split; [reflexivity|].
  unfold frame_at in Hf.
  destruct (SLProps_Normal face _ _) as [normal|] eqn:Hnorm; [|discriminate].
  injection Hf as <-. cbn [fst snd].
  split; [|now split].
  assert (Hi1 : 0 < IZR i) by (apply IZR_lt; lia).
  assert (Hi2 : IZR i < IZR (num_points + 1)) by (apply IZR_lt; lia).
  set (N := IZR (num_points + 1)) in *.
  set (D := LastUParameter face - FirstUParameter face).
  assert (HD : 0 < D) by (unfold D; lra).
  assert (HN : 0 < N) by lra.
  assert (Hs : 0 < D / N) by (apply Rdiv_lt_0_compat; assumption).
  assert (HsN : N * (D / N) = D) by (field; lra).
  assert (Hlt : IZR i * (D / N) < N * (D / N)) by (apply Rmult_lt_compat_r; assumption).
  assert (Hpos : 0 < IZR i * (D / N)) by (apply Rmult_lt_0_compat; assumption).
  unfold D in *. split; lra.
Qed.

Lemma placement_frames_are_interior_witness :
  exists frames : list (gp_Pnt * gp_Dir),
    compute_placement_frames flat_patch 5 default_offset_from_edge = Ok frames
    /\ forall f : gp_Pnt * gp_Dir,
         In f frames ->
         exists (i : Z) (u : R),
           (1 <= i <= 5)%Z /\ 0 < u < 6 /\ fst f = XYZ u ((0 + 2) / 2) 0.
Proof.
  assert (Hc : compute_placement_frames flat_patch 5 default_offset_from_edge
               = Ok (sample_frames flat_patch 0 ((6 - 0) / IZR (5 + 1)) ((0 + 2) / 2)
                       (py_range 1 (5 + 1)) [])).
  { unfold compute_placement_frames.
    rewrite float_of_int_Ok by (apply Z.ltb_lt; vm_compute; reflexivity).
    cbn [rbind]. rewrite py_div_Ok; [reflexivity|].
    apply IZR_succ_neq_0. lia. }
  eexists. split; [exact Hc|].
  intros f Hin.
  assert (Hn : (1 <= 5)%Z) by lia.
  assert (Hu : FirstUParameter flat_patch < LastUParameter flat_patch) by (simpl; lra).
  destruct (placement_frames_are_interior flat_patch 5 default_offset_from_edge _
              Hn Hu Hc f Hin) as (i & u & Hi & _ & Hu' & Hf & _).
  exists i, u. split; [exact Hi|]. split; [exact Hu' | exact Hf].
Defined.

(** * runtime_input.py

    The interactive collection of the parameters.  Standard input is the list
    of the lines still to be read; what is printed and prompted is recorded
    in order.  Floats here keep the values a parse can produce that are no
    real number.  The string methods and the parsers of Python are taken as
    they come ([py_strip], [py_lower], [py_isdigit], [py_int], [py_float]). *)

Module runtime_input.

(** A Python float: a real number, an infinity or NaN. *)
Inductive pyfloat : Type :=
| Finite (x : R)
| Infinity (positive : bool)
| NaN.

(** [a < b] and [a > b]: false whenever NaN is involved. *)
Definition flt (a b : pyfloat) : bool :=
  match a, b with
  | Finite x, Finite y => Rltb x y
  | Finite _, Infinity positive => positive
  | Infinity positive, Finite _ => negb positive
  | Infinity p, Infinity q => negb p && q
  | NaN, _ => false
  | _, NaN => false
  end.

Definition fgt (a b : pyfloat) : bool := flt b a.

(** [a - b]. *)
Definition fsub (a b : pyfloat) : pyfloat :=
  match a, b with
  | Finite x, Finite y => Finite (x - y)
  | Finite _, Infinity positive => Infinity (negb positive)
  | Infinity positive, Finite _ => Infinity positive
  | Infinity p, Infinity q => if Bool.eqb p q then NaN else Infinity p
  | NaN, _ => NaN
  | _, NaN => NaN
  end.

Inductive exception : Type :=
| EOFError
| ValueError
| SystemExit (code : Z).

(** What reaches the terminal: a printed line, or the prompt of an
    [input]. *)
Inductive output : Type :=
| printed (line : string)
| prompted (prompt : string).

(** How a call ends: with a value and the lines left on standard input, or
    with an exception. *)
Inductive outcome (A : Type) : Type :=
| Returned (a : A) (stdin : list string)
| Raised (e : exception).
Arguments Returned {A} a stdin.
Arguments Raised {A} e.

Definition IO (A : Type) : Type := list string -> list output * outcome A.

Definition io_ret {A : Type} (a : A) : IO A := fun stdin => ([], Returned a stdin).

Definition io_bind {A B : Type} (c : IO A) (f : A -> IO B) : IO B :=
  fun stdin =>
    match c stdin with
    | (out, Returned a rest) => let '(out', r) := f a rest in ((out ++ out')%list, r)
    | (out, Raised e) => (out, Raised e)
    end.

Definition print (line : string) : IO unit :=
  fun stdin => ([printed line], Returned tt stdin).

Definition input (prompt : string) : IO string :=
  fun stdin =>
    match stdin with
    | [] => ([prompted prompt], Raised EOFError)
    | line :: rest => ([prompted prompt], Returned line rest)
    end.

Definition raise {A : Type} (e : exception) : IO A := fun _ => ([], Raised e).

Declare Scope io_scope.
Delimit Scope io_scope with io.
Notation "x <- c ;; k" := (io_bind c (fun x => k))
  (at level 61, c at next level, right associativity) : io_scope.
Notation "' p <- c ;; k" := (io_bind c (fun x => match x with p => k end))
  (at level 61, p pattern, c at next level, right associativity) : io_scope.
Notation "c ;; k" := (io_bind c (fun _ => k))
  (at level 61, right associativity) : io_scope.

(** What follows a rejected line: its output, then the next iteration. *)
Definition after {A : Type} (out : list output) (next : list output * outcome A)
    : list output * outcome A :=
  ((out ++ fst next)%list, snd next).

(** [s * n]. *)
Fixpoint py_repeat (s : string) (n : nat) : string :=
  match n with
  | O => ""
  | S n' => s ++ py_repeat s n'
  end.

Definition newline : string := String (Ascii.ascii_of_nat 10) "".

(** ["\n" + "="*60]. *)
Definition banner : string := newline ++ py_repeat "=" 60.
Definition rule : string := py_repeat "=" 60.

(** [str] of an int. *)
Definition int_str (n : Z) : string := NilZero.string_of_int (Z.to_int n).

Record Inputs : Type := {
  thickness : pyfloat;
  groove_count : Z;
  groove_shape : GrooveType;
  groove_height : pyfloat;
  groove_width : pyfloat;
  groove_depth : pyfloat;
  clip_height : pyfloat;
  assembly_clearance : pyfloat;
  retention_offset : pyfloat
}.

Section Functions.

Variable py_strip : string -> string.
Variable py_lower : string -> string.
Variable py_isdigit : string -> bool.
(** [int(s)] and [float(s)]: [None] when the call raises ValueError. *)
Variable py_int : string -> option Z.
Variable py_float : string -> option pyfloat.
(** [str] of a float. *)
Variable float_str : pyfloat -> string.

Local Open Scope io_scope.

Definition valid_shapes_list : list (string * GrooveType) :=
  [ ("rectangular", RECTANGULAR);
    ("circular", CIRCULAR);
    ("square", SQUARE);
    ("triangle", TRIANGLE) ].

(** [valid_shapes_map.get(name)]. *)
Fixpoint shapes_lookup (shapes : list (string * GrooveType)) (name : string)
    : option GrooveType :=
  match shapes with
  | [] => None
  | (n, t) :: rest => if String.eqb name n then Some t else shapes_lookup rest name
  end.

(** [', '.join(names)]. *)
Fixpoint join_names (names : list string) : string :=
  match names with
  | [] => ""
  | [n] => n
  | n :: rest => n ++ ", " ++ join_names rest
  end.

(** The [while True] loop of [get_groove_shape]: one line of input per
    iteration. *)
Fixpoint get_groove_shape_loop (stdin : list string)
    : list output * outcome GrooveType :=
  match stdin with
  | [] => ([prompted "Enter groove shape (name or number): "], Raised EOFError)
  | line :: rest =>
      let user_input := py_lower (py_strip line) in
      let by_name :=
        match shapes_lookup valid_shapes_list user_input with
        | Some selected =>
            ([prompted "Enter groove shape (name or number): ";
              printed ("✓ Selected: " ++ user_input)],
             Returned selected rest)
        | None =>
            let valid_names := map fst valid_shapes_list in
            after
              [prompted "Enter groove shape (name or number): ";
               printed ("✗ Invalid input '" ++ user_input
                        ++ "'. Please enter a number (1-"
                        ++ int_str (Z.of_nat (List.length valid_shapes_list))
                        ++ ") or shape name: " ++ join_names valid_names)]
              (get_groove_shape_loop rest)
        end in
      if py_isdigit user_input
      then
        match py_int user_input with
        | None => ([prompted "Enter groove shape (name or number): "], Raised ValueError)
        | Some n =>
            let idx := (n - 1)%Z in
            if ((0 <=? idx) && (idx <? Z.of_nat (List.length valid_shapes_list)))%Z
            then
              match nth_error valid_shapes_list (Z.to_nat idx) with
              | Some (name, selected) =>
                  ([prompted "Enter groove shape (name or number): ";
                    printed ("✓ Selected: " ++ name)],
                   Returned selected rest)
              | None => by_name
              end
            else by_name
        end
      else by_name
  end.

(** The [for] loop that lists the shapes, numbered from [i]. *)
Fixpoint print_shapes (i : Z) (shapes : list (string * GrooveType)) : IO unit :=
  match shapes with
  | [] => io_ret tt
  | (name, _) :: rest =>
      print ("  " ++ int_str i ++ ". " ++ name) ;;
      print_shapes (i + 1) rest
  end.

Definition get_groove_shape : IO GrooveType :=
  print banner ;;
  print "GROOVE SHAPE SELECTION" ;;
  print rule ;;
  print "Available groove shapes:" ;;
  print_shapes 1 valid_shapes_list ;;
  print "" ;;
  get_groove_shape_loop.

(** The [while True] loop of [get_positive_float]. *)
Fixpoint get_positive_float (prompt : string) (min_value max_value : pyfloat)
    (default_value : option pyfloat) (stdin : list string)
    : list output * outcome pyfloat :=
  match stdin with
  | [] => ([prompted prompt], Raised EOFError)
  | line :: rest =>
      let val_str := py_strip line in
      let parse :=
        match py_float val_str with
        | None =>
            after [prompted prompt; printed "✗ Please enter a valid number"]
              (get_positive_float prompt min_value max_value default_value rest)
        | Some value =>
            if flt value min_value
            then
              after [prompted prompt;
                     printed ("✗ Value must be at least " ++ float_str min_value ++ "mm")]
                (get_positive_float prompt min_value max_value default_value rest)
            else if fgt value max_value
            then
              after [prompted prompt;
                     printed ("✗ Value must be at most " ++ float_str max_value ++ "mm")]
                (get_positive_float prompt min_value max_value default_value rest)
            else ([prompted prompt], Returned value rest)
        end in
      if String.eqb val_str ""
      then
        match default_value with
        | Some d =>
            ([prompted prompt; printed ("✓ Using default: " ++ float_str d)],
             Returned d rest)
        | None => parse
        end
      else parse
  end.

Definition get_groove_dimensions : IO (pyfloat * pyfloat * pyfloat) :=
  print banner ;;
  print "GROOVE DIMENSIONS" ;;
  print rule ;;
  print "Enter dimensions in millimeters (mm)" ;;
  print "" ;;
  height <- get_positive_float "Groove height (mm): " (Finite 1) (Finite 50) None ;;
  width <- get_positive_float "Groove width (mm): " (Finite (5 / 10)) (Finite 20) None ;;
  depth <- get_positive_float "Groove depth (mm): " (Finite (5 / 10)) (Finite 10) None ;;
  print (newline ++ "✓ Groove dimensions: height=" ++ float_str height
         ++ "mm, width=" ++ float_str width ++ "mm, depth=" ++ float_str depth ++ "mm") ;;
  io_ret (height, width, depth).

Definition get_clip_height (groove_height : pyfloat) : IO pyfloat :=
  print banner ;;
  print "CLIP HEIGHT" ;;
  print rule ;;
  print ("Groove height: " ++ float_str groove_height ++ "mm") ;;
  let default_height := Finite 20 in
  print ("Default clip height: " ++ float_str default_height ++ "mm") ;;
  clip_height <-
    get_positive_float
      ("Clip height (mm) [default: " ++ float_str default_height ++ "]: ")
      (Finite (5 / 10)) (Finite 200) (Some default_height) ;;
  print ("✓ Clip height: " ++ float_str clip_height ++ "mm") ;;
  io_ret clip_height.

(** One optional value of [get_optional_clearances]: a blank line, an
    unparsable one or a value out of range give the default. *)
Definition optional_value (prompt : string) (default upper : R)
    (range_message input_message : string) : IO pyfloat :=
  line <- input prompt ;;
  let text := py_strip line in
  if negb (String.eqb text "")
  then
    match py_float text with
    | Some value =>
        if flt value (Finite 0) || fgt value (Finite upper)
        then print range_message ;; io_ret (Finite default)
        else io_ret value
    | None => print input_message ;; io_ret (Finite default)
    end
  else io_ret (Finite default).

Definition get_optional_clearances : IO (pyfloat * pyfloat) :=
  print banner ;;
  print "ASSEMBLY CLEARANCES (Optional)" ;;
  print rule ;;
  print "Press Enter to use defaults" ;;
  print "" ;;
  assembly_clearance <-
    optional_value "Assembly clearance (default: 0.2mm): " (2 / 10) 1
      "✗ Using default 0.2mm (invalid range)" "✗ Using default 0.2mm (invalid input)" ;;
  retention_offset <-
    optional_value "Retention offset (default: 0.1mm): " (1 / 10) (5 / 10)
      "✗ Using default 0.1mm (invalid range)" "✗ Using default 0.1mm (invalid input)" ;;
  print ("✓ Assembly clearance: " ++ float_str assembly_clearance
         ++ "mm, Retention offset: " ++ float_str retention_offset ++ "mm") ;;
  io_ret (assembly_clearance, retention_offset).

Definition get_body_thickness : IO pyfloat :=
  print banner ;;
  print "BODY THICKNESS" ;;
  print rule ;;
  print "Enter the desired uniform wall thickness for the body." ;;
  get_positive_float "Thickness (mm) [default: 2.65]: " (Finite (1 / 10)) (Finite 20)
    (Some (Finite (265 / 100))).

(** The [while True] loop of [get_groove_count]. *)
Fixpoint get_groove_count_loop (stdin : list string) : list output * outcome Z :=
  match stdin with
  | [] => ([prompted "Number of grooves (1-100) [default: 10]: "], Raised EOFError)
  | line :: rest =>
      let val_str := py_strip line in
      if String.eqb val_str ""
      then ([prompted "Number of grooves (1-100) [default: 10]: "], Returned 10%Z rest)
      else
        match py_int val_str with
        | Some val =>
            if ((1 <=? val) && (val <=? 100))%Z
            then
              ([prompted "Number of grooves (1-100) [default: 10]: ";
                printed ("✓ Count: " ++ int_str val)],
               Returned val rest)
            else
              after
                [prompted "Number of grooves (1-100) [default: 10]: ";
                 printed "✗ Please enter a number between 1 and 100."]
                (get_groove_count_loop rest)
        | None =>
            after
              [prompted "Number of grooves (1-100) [default: 10]: ";
               printed "✗ Invalid number."]
              (get_groove_count_loop rest)
        end
  end.

Definition get_groove_count : IO Z :=
  print banner ;;
  print "GROOVE/CLIP COUNT" ;;
  print rule ;;
  print "Enter the number of grooves (and matching clips) to generate." ;;
  get_groove_count_loop.

Definition collect_all_inputs : IO Inputs :=
  print banner ;;
  print "CAD AUTOMATION - GROOVE AND CLIP GENERATION" ;;
  print rule ;;
  print "This tool will generate grooves and matching clips on the inner surface" ;;
  print "Clips will have IDENTICAL shape to grooves, with adjusted dimensions" ;;
  print "" ;;
  thickness <- get_body_thickness ;;
  groove_count <- get_groove_count ;;
  groove_shape <- get_groove_shape ;;
  '(groove_height, groove_width, groove_depth) <- get_groove_dimensions ;;
  clip_height <- get_clip_height groove_height ;;
  '(assembly_clearance, retention_offset) <- get_optional_clearances ;;
  print banner ;;
  print "INPUT SUMMARY" ;;
  print rule ;;
  print ("Body Thickness:       " ++ float_str thickness ++ "mm") ;;
  print ("Groove/Clip Count:    " ++ int_str groove_count) ;;
  print ("Groove Shape:         " ++ GrooveType_value groove_shape) ;;
  print ("Groove Dimensions:    " ++ float_str groove_height ++ "mm × "
         ++ float_str groove_width ++ "mm × " ++ float_str groove_depth
         ++ "mm (H×W×D)") ;;
  print ("Clip Height:          " ++ float_str clip_height ++ "mm") ;;
  print ("Assembly Clearance:   " ++ float_str assembly_clearance ++ "mm") ;;
  print ("Retention Offset:     " ++ float_str retention_offset ++ "mm") ;;
  print "" ;;
  let calculated_clip_width := fsub groove_width assembly_clearance in
  let calculated_clip_depth := fsub groove_depth retention_offset in
  print ("Calculated Clip Dimensions: " ++ float_str clip_height ++ "mm × "
         ++ float_str calculated_clip_width ++ "mm × "
         ++ float_str calculated_clip_depth ++ "mm (H×W×D)") ;;
  print rule ;;
  answer <- input (newline ++ "Proceed with these parameters? (y/n): ") ;;
  let confirm := py_lower (py_strip answer) in
  if negb (String.eqb confirm "y")
  then print "Aborted by user." ;; raise (SystemExit 0)
  else
    io_ret {|
      thickness := thickness;
      groove_count := groove_count;
      groove_shape := groove_shape;
      groove_height := groove_height;
      groove_width := groove_width;
      groove_depth := groove_depth;
      clip_height := clip_height;
      assembly_clearance := assembly_clearance;
      retention_offset := retention_offset
    |}.

End Functions.

End runtime_input.

(** ** Properties of the input functions *)

Import runtime_input.

Lemma io_bind_snd_print {B : Type} (line : string) (f : unit -> IO B)
    (stdin : list string) :
  snd (io_bind (print line) f stdin) = snd (f tt stdin).
Proof. unfold io_bind, print. now destruct (f tt stdin). Qed.

Lemma io_bind_Returned {A B : Type} (c : IO A) (f : A -> IO B) (stdin rest : list string)
    (a : A) :
  snd (c stdin) = Returned a rest ->
  snd (io_bind c f stdin) = snd (f a rest).
Proof.
  unfold io_bind. destruct (c stdin) as [out r]. simpl. intros ->.
  now destruct (f a rest).
Qed.

Lemma io_bind_Raised {A B : Type} (c : IO A) (f : A -> IO B) (stdin : list string)
    (e : exception) :
  snd (c stdin) = Raised e ->
  snd (io_bind c f stdin) = Raised e.
Proof.
  unfold io_bind. destruct (c stdin) as [out r]. simpl. now intros ->.
Qed.

(** The outcome of a sequence is that of its second part, run on what the
    first part returned, or the exception of the first part. *)
Lemma io_bind_outcome {A B : Type} (c : IO A) (f : A -> IO B) (stdin : list string) :
  (exists a rest, snd (c stdin) = Returned a rest
                  /\ snd (io_bind c f stdin) = snd (f a rest))
  \/ (exists e, snd (c stdin) = Raised e /\ snd (io_bind c f stdin) = Raised e).
Proof.
  destruct (snd (c stdin)) as [a rest|e] eqn:H.
  - left. exists a, rest. split; [reflexivity | now apply io_bind_Returned].
  - right. exists e. split; [reflexivity | now apply io_bind_Raised].
Qed.

(** [rest] is what is left of [stdin] after some lines were read. *)
Definition consumed (stdin rest : list string) : Prop :=
  exists read : list string, stdin = (read ++ rest)%list.

Lemma consumed_refl (stdin : list string) : consumed stdin stdin.
Proof. now exists []. Qed.

Lemma consumed_cons (line : string) (stdin rest : list string) :
  consumed stdin rest -> consumed (line :: stdin) rest.
Proof. intros [read ->]. now exists (line :: read). Qed.

Lemma consumed_trans (a b c : list string) : consumed a b -> consumed b c -> consumed a c.
Proof. intros [r1 ->] [r2 ->]. exists (r1 ++ r2)%list. now rewrite app_assoc. Qed.

(** A float a range check with finite bounds lets through: NaN, or a real
    number within the bounds. *)
Definition within (lo hi : R) (v : pyfloat) : Prop :=
  v = NaN \/ exists x : R, v = Finite x /\ lo <= x <= hi.

Lemma range_check_within (lo hi : R) (v : pyfloat) :
  flt v (Finite lo) = false -> fgt v (Finite hi) = false -> within lo hi v.
Proof.
  unfold fgt. destruct v as [x|positive|]; simpl.
  - intros H1 H2. apply Rltb_false in H1, H2. right. exists x. split; [reflexivity | lra].
  - destruct positive; simpl; discriminate.
  - intros _ _. now left.
Qed.

Section InputFacts.

Variable py_strip : string -> string.
Variable py_lower : string -> string.
Variable py_isdigit : string -> bool.
Variable py_int : string -> option Z.
Variable py_float : string -> option pyfloat.
Variable float_str : pyfloat -> string.

Lemma get_positive_float_outcome (prompt : string) (lo hi : R)
    (default_value : option pyfloat) (stdin : list string) :
  (snd (get_positive_float py_strip py_float float_str prompt (Finite lo) (Finite hi)
          default_value stdin) = Raised EOFError)
  \/ exists (read : list string) (line : string) (rest : list string) (v : pyfloat),
       stdin = (read ++ line :: rest)%list
       /\ snd (get_positive_float py_strip py_float float_str prompt (Finite lo)
                 (Finite hi) default_value stdin) = Returned v rest
       /\ ((py_strip line = "" /\ default_value = Some v)
           \/ (py_float (py_strip line) = Some v /\ within lo hi v)).
Proof.
  induction stdin as [|line rest IH]; [now left|].
  assert (Hnext :
    snd (get_positive_float py_strip py_float float_str prompt (Finite lo) (Finite hi)
           default_value rest) = Raised EOFError
    \/ exists (read : list string) (l : string) (rest' : list string) (v : pyfloat),
         line :: rest = (read ++ l :: rest')%list
         /\ snd (get_positive_float py_strip py_float float_str prompt (Finite lo)
                   (Finite hi) default_value rest) = Returned v rest'
         /\ ((py_strip l = "" /\ default_value = Some v)
             \/ (py_float (py_strip l) = Some v /\ within lo hi v))).
  { destruct IH as [IH | (read & l & rest' & v & Heq & Hres & Hacc)]; [now left|].
    right. exists (line :: read), l, rest', v. split; [now rewrite Heq|]. now split. }
  cbn [get_positive_float].
  assert (Hp :
    let parse :=
      match py_float (py_strip line) with
      | None =>
          after [prompted prompt; printed "✗ Please enter a valid number"]
            (get_positive_float py_strip py_float float_str prompt (Finite lo)
               (Finite hi) default_value rest)
      | Some value =>
          if flt value (Finite lo)
          then
            after [prompted prompt;
                   printed ("✗ Value must be at least " ++ float_str (Finite lo) ++ "mm")]
              (get_positive_float py_strip py_float float_str prompt (Finite lo)
                 (Finite hi) default_value rest)
          else if fgt value (Finite hi)
          then
            after [prompted prompt;
                   printed ("✗ Value must be at most " ++ float_str (Finite hi) ++ "mm")]
              (get_positive_float py_strip py_float float_str prompt (Finite lo)
                 (Finite hi) default_value rest)
          else ([prompted prompt], Returned value rest)
      end in
    snd parse = Raised EOFError
    \/ exists (read : list string) (l : string) (rest' : list string) (v : pyfloat),
         line :: rest = (read ++ l :: rest')%list
         /\ snd parse = Returned v rest'
         /\ ((py_strip l = "" /\ default_value = Some v)
             \/ (py_float (py_strip l) = Some v /\ within lo hi v))).
  { cbv zeta. destruct (py_float (py_strip line)) as [value|] eqn:Hf; [|exact Hnext].
    destruct (flt value (Finite lo)) eqn:H1; [exact Hnext|].
    destruct (fgt value (Finite hi)) eqn:H2; [exact Hnext|].
    right. exists [], line, rest, value. split; [reflexivity|]. split; [reflexivity|].
    right. split; [exact Hf | now apply range_check_within]. }
  destruct (String.eqb (py_strip line) "") eqn:Hblank; [|exact Hp].
  destruct default_value as [d|]; [|exact Hp].
  right. exists [], line, rest, d. split; [reflexivity|]. split; [reflexivity|].
  left. split; [now apply String.eqb_eq | reflexivity].
Qed.

Lemma get_groove_count_outcome (stdin : list string) :
  snd (get_groove_count_loop py_strip py_int stdin) = Raised EOFError
  \/ exists (read : list string) (line : string) (rest : list string) (n : Z),
       stdin = (read ++ line :: rest)%list
       /\ snd (get_groove_count_loop py_strip py_int stdin) = Returned n rest
       /\ (1 <= n <= 100)%Z
       /\ ((py_strip line = "" /\ n = 10%Z) \/ py_int (py_strip line) = Some n).
Proof.
  induction stdin as [|line rest IH]; [now left|].
  assert (Hnext :
    snd (get_groove_count_loop py_strip py_int rest) = Raised EOFError
    \/ exists (read : list string) (l : string) (rest' : list string) (n : Z),
         line :: rest = (read ++ l :: rest')%list
         /\ snd (get_groove_count_loop py_strip py_int rest) = Returned n rest'
         /\ (1 <= n <= 100)%Z
         /\ ((py_strip l = "" /\ n = 10%Z) \/ py_int (py_strip l) = Some n)).
  { destruct IH as [IH | (read & l & rest' & n & Heq & Hres & Hacc)]; [now left|].
    right. exists (line :: read), l, rest', n. split; [now rewrite Heq|]. now split. }
  cbn [get_groove_count_loop].
  destruct (String.eqb (py_strip line) "") eqn:Hblank.
  { right. exists [], line, rest, 10%Z. split; [reflexivity|]. split; [reflexivity|].
    split; [lia|]. left. split; [now apply String.eqb_eq | reflexivity]. }
  destruct (py_int (py_strip line)) as [val|] eqn:Hint; [|exact Hnext].
  destruct ((1 <=? val) && (val <=? 100))%Z eqn:Hrange; [|exact Hnext].
  apply andb_true_iff in Hrange as [H1 H2].
  apply Z.leb_le in H1, H2.
  right. exists [], line, rest, val. split; [reflexivity|]. split; [reflexivity|].
  split; [lia | now right].
Qed.

(** The values [optional_value] can return: the default, or a parsed value
    the range check lets through. *)
Lemma optional_value_outcome (prompt : string) (default upper : R)
    (range_message input_message : string) (stdin : list string) :
  match stdin with
  | [] =>
      snd (optional_value py_strip py_float prompt default upper range_message
             input_message stdin) = Raised EOFError
  | line :: rest =>
      exists v : pyfloat,
        snd (optional_value py_strip py_float prompt default upper range_message
               input_message stdin) = Returned v rest
        /\ (v = Finite default
            \/ (py_float (py_strip line) = Some v /\ within 0 upper v))
  end.
Proof.
  destruct stdin as [|line rest]; [reflexivity|].
  unfold optional_value, io_bind, input. cbn [fst snd].
  destruct (String.eqb (py_strip line) ""); cbn [negb].
  - exists (Finite default). split; [reflexivity | now left].
  - destruct (py_float (py_strip line)) as [value|] eqn:Hf.
    + destruct (flt value (Finite 0)) eqn:H1; cbn [orb].
      * exists (Finite default). split; [reflexivity | now left].
      * destruct (fgt value (Finite upper)) eqn:H2.
        -- exists (Finite default). split; [reflexivity | now left].
        -- exists value. split; [reflexivity|]. right.
           split; [reflexivity | now apply range_check_within].
    + exists (Finite default). split; [reflexivity | now left].
Qed.

End InputFacts.

(** [c] either raises an exception among [allowed], or returns a value
    satisfying [P] and what is left of standard input. *)
Definition yields {A : Type} (P : A -> Prop) (allowed : exception -> Prop) (c : IO A)
    : Prop :=
  forall stdin : list string,
    (exists e, allowed e /\ snd (c stdin) = Raised e)
    \/ (exists a rest, snd (c stdin) = Returned a rest /\ consumed stdin rest /\ P a).

Lemma yields_bind {A B : Type} (P : A -> Prop) (Q : B -> Prop)
    (allowed : exception -> Prop) (c : IO A) (f : A -> IO B) :
  yields P allowed c ->
  (forall a, P a -> yields Q allowed (f a)) ->
  yields Q allowed (io_bind c f).
Proof.
  intros Hc Hf stdin.
  destruct (Hc stdin) as [(e & He & Hr) | (a & rest & Hr & Hcons & Ha)].
  - left. exists e. split; [exact He | now apply io_bind_Raised].
  - rewrite (io_bind_Returned c f stdin rest a Hr).
    destruct (Hf a Ha rest) as [(e & He & Hr') | (b & rest' & Hr' & Hcons' & Hb)].
    + left. now exists e.
    + right. exists b, rest'. split; [exact Hr'|]. split; [|exact Hb].
      now apply consumed_trans with rest.
Qed.

Lemma yields_print {B : Type} (Q : B -> Prop) (allowed : exception -> Prop)
    (line : string) (f : unit -> IO B) :
  yields Q allowed (f tt) -> yields Q allowed (io_bind (print line) f).
Proof. intros H stdin. rewrite io_bind_snd_print. apply H. Qed.

Lemma yields_ret {A : Type} (P : A -> Prop) (allowed : exception -> Prop) (a : A) :
  P a -> yields P allowed (io_ret a).
Proof.
  intros H stdin. right. exists a, stdin. split; [reflexivity|].
  split; [apply consumed_refl | exact H].
Qed.

Lemma yields_weaken {A : Type} (P Q : A -> Prop) (E F : exception -> Prop) (c : IO A) :
  (forall a, P a -> Q a) -> (forall e, E e -> F e) -> yields P E c -> yields Q F c.
Proof.
  intros HP HE H stdin.
  destruct (H stdin) as [(e & He & Hr) | (a & rest & Hr & Hcons & Ha)].
  - left. exists e. split; [now apply HE | exact Hr].
  - right. exists a, rest. split; [exact Hr|]. split; [exact Hcons | now apply HP].
Qed.

Definition only_eof (e : exception) : Prop := e = EOFError.

Section InputYields.

Variable py_strip : string -> string.
Variable py_lower : string -> string.
Variable py_isdigit : string -> bool.
Variable py_int : string -> option Z.
Variable py_float : string -> option pyfloat.
Variable float_str : pyfloat -> string.

Lemma get_positive_float_yields (prompt : string) (lo hi : R)
    (default_value : option pyfloat) :
  (forall d, default_value = Some d -> within lo hi d) ->
  yields (within lo hi) only_eof
    (get_positive_float py_strip py_float float_str prompt (Finite lo) (Finite hi)
       default_value).
Proof.
  intros Hd stdin.
  destruct (get_positive_float_outcome py_strip py_float float_str prompt lo hi
              default_value stdin)
    as [H | (read & line & rest & v & Heq & Hres & Hacc)].
  - left. exists EOFError. now split.
  - right. exists v, rest. split; [exact Hres|]. split.
    + exists (read ++ [line])%list. rewrite Heq, <- app_assoc. reflexivity.
    + destruct Hacc as [[_ Hdef] | [_ Hw]]; [now apply Hd | exact Hw].
Qed.

Lemma get_groove_count_yields :
  yields (fun n => (1 <= n <= 100)%Z) only_eof (get_groove_count py_strip py_int).
Proof.
  unfold get_groove_count. do 4 apply yields_print. intros stdin.
  destruct (get_groove_count_outcome py_strip py_int stdin)
    as [H | (read & line & rest & n & Heq & Hres & Hn & _)].
  - left. exists EOFError. now split.
  - right. exists n, rest. split; [exact Hres|]. split; [|exact Hn].
    exists (read ++ [line])%list. rewrite Heq, <- app_assoc. reflexivity.
Qed.

Lemma optional_value_yields (prompt : string) (default upper : R)
    (range_message input_message : string) :
  0 <= default <= upper ->
  yields (within 0 upper) only_eof
    (optional_value py_strip py_float prompt default upper range_message input_message).
Proof.
  intros Hd stdin.
  assert (H := optional_value_outcome py_strip py_float prompt default upper
                 range_message input_message stdin).
  destruct stdin as [|line rest].
  - left. exists EOFError. now split.
  - destruct H as (v & Hres & Hv). right. exists v, rest. split; [exact Hres|].
    split; [now exists [line]|].
    destruct Hv as [-> | [_ Hw]]; [|exact Hw].
    right. exists default. now split.
Qed.

Lemma within_default (lo hi x : R) : lo <= x <= hi -> within lo hi (Finite x).
Proof. intros H. right. now exists x. Qed.

End InputYields.

(** ** Sample parsers and standard inputs *)

Definition same (s : string) : string := s.

Definition sample_float (s : string) : option pyfloat :=
  if String.eqb s "10" then Some (Finite 10)
  else if String.eqb s "5" then Some (Finite 5)
  else if String.eqb s "2.5" then Some (Finite (25 / 10))
  else if String.eqb s "500" then Some (Finite 500)
  else if String.eqb s "nan" then Some NaN
  else None.

Definition sample_int (s : string) : option Z :=
  if String.eqb s "3" then Some 3%Z
  else if String.eqb s "7" then Some 7%Z
  else if String.eqb s "250" then Some 250%Z
  else None.

Definition sample_isdigit (s : string) : bool :=
  match sample_int s with
  | Some _ => true
  | None => false
  end.

Definition hash_str (v : pyfloat) : string := "#".

(** ** X18: get_positive_float *)

(** What one line does to [get_positive_float] with the bounds [lo] and
    [hi].  It is accepted with a value: the default, for a blank line when a
    default is given; otherwise the float it parses to, when that is not
    below [lo] and not above [hi], which makes it a real number within the
    bounds or NaN.  Or it is rejected: it does not parse, or it parses to an
    infinity or to a real number outside the bounds. *)
Definition accepted_float (py_strip : string -> string)
    (py_float : string -> option pyfloat) (lo hi : R) (default_value : option pyfloat)
    (line : string) (v : pyfloat) : Prop :=
  (py_strip line = "" /\ default_value = Some v)
  \/ ((py_strip line = "" -> default_value = None)
      /\ py_float (py_strip line) = Some v
      /\ (v = NaN \/ exists x : R, v = Finite x /\ lo <= x <= hi)).

Definition rejected_float (py_strip : string -> string)
    (py_float : string -> option pyfloat) (lo hi : R) (default_value : option pyfloat)
    (line : string) : Prop :=
  (py_strip line = "" -> default_value = None)
  /\ (py_float (py_strip line) = None
      \/ (exists positive : bool, py_float (py_strip line) = Some (Infinity positive))
      \/ (exists x : R, py_float (py_strip line) = Some (Finite x) /\ (x < lo \/ hi < x))).

Lemma within_range_check (lo hi : R) (v : pyfloat) :
  within lo hi v -> flt v (Finite lo) = false /\ fgt v (Finite hi) = false.
Proof.
  unfold fgt. intros [-> | (x & -> & Hx)]; simpl; [now split|].
  split; apply Rltb_false; lra.
Qed.

Section FloatLines.

Variable py_strip : string -> string.
Variable py_float : string -> option pyfloat.
Variable float_str : pyfloat -> string.
Variable prompt : string.
Variables lo hi : R.

Lemma get_positive_float_accepted (default_value : option pyfloat) (line : string)
    (rest : list string) (v : pyfloat) :
  accepted_float py_strip py_float lo hi default_value line v ->
  snd (get_positive_float py_strip py_float float_str prompt (Finite lo) (Finite hi)
         default_value (line :: rest)) = Returned v rest.
Proof.
  intros [[Hb Hd] | (Hnb & Hf & Hw)]; cbn [get_positive_float].
  - rewrite Hb, Hd. reflexivity.
  - destruct (within_range_check lo hi v Hw) as [H1 H2].
    rewrite Hf, H1, H2.
    destruct (String.eqb (py_strip line) "") eqn:Hb; [|reflexivity].
    apply String.eqb_eq in Hb. rewrite (Hnb Hb). reflexivity.
Qed.

Lemma get_positive_float_rejected (default_value : option pyfloat) (line : string)
    (rest : list string) :
  rejected_float py_strip py_float lo hi default_value line ->
  snd (get_positive_float py_strip py_float float_str prompt (Finite lo) (Finite hi)
         default_value (line :: rest))
  = snd (get_positive_float py_strip py_float float_str prompt (Finite lo) (Finite hi)
           default_value rest).
Proof.
  intros [Hnb Hrej]. cbn [get_positive_float].
  assert (Hd : String.eqb (py_strip line) "" = true -> default_value = None).
  { intros Hb. apply Hnb. now apply String.eqb_eq. }
  destruct Hrej as [Hf | [(positive & Hf) | (x & Hf & Hx)]]; rewrite Hf.
  - destruct (String.eqb (py_strip line) ""); [rewrite Hd|]; reflexivity.
  - destruct positive; simpl;
      (destruct (String.eqb (py_strip line) ""); [rewrite Hd|]; reflexivity).
  - unfold fgt. cbn [flt].
    destruct (Rltb x lo) eqn:H1.
    + destruct (String.eqb (py_strip line) ""); [rewrite Hd|]; reflexivity.
    + apply Rltb_false in H1.
      assert (H2 : Rltb hi x = true) by (apply Rltb_true; lra).
      rewrite H2.
      destruct (String.eqb (py_strip line) ""); [rewrite Hd|]; reflexivity.
Qed.

Lemma float_line_cases (default_value : option pyfloat) (line : string) :
  (exists v, accepted_float py_strip py_float lo hi default_value line v)
  \/ rejected_float py_strip py_float lo hi default_value line.
Proof.
  assert (Hparse :
    (py_strip line = "" -> default_value = None) ->
    (exists v, accepted_float py_strip py_float lo hi default_value line v)
    \/ rejected_float py_strip py_float lo hi default_value line).
  { intros Hnb.
    destruct (py_float (py_strip line)) as [[x|positive|]|] eqn:Hf.
    - destruct (Rlt_dec x lo) as [H1|H1].
      { right. split; [exact Hnb|]. right; right. exists x. split; [exact Hf | now left]. }
      destruct (Rlt_dec hi x) as [H2|H2].
      { right. split; [exact Hnb|]. right; right. exists x. split; [exact Hf | now right]. }
      left. exists (Finite x). right. split; [exact Hnb|]. split; [exact Hf|].
      right. exists x. split; [reflexivity | lra].
    - right. split; [exact Hnb|]. right; left. now exists positive.
    - left. exists NaN. right. split; [exact Hnb|]. split; [exact Hf | now left].
    - right. split; [exact Hnb|]. now left. }
  destruct (String.eqb (py_strip line) "") eqn:Hb.
  - apply String.eqb_eq in Hb. destruct default_value as [d|].
    + left. exists d. left. now split.
    + apply Hparse. reflexivity.
  - apply String.eqb_neq in Hb. apply Hparse. intros H. contradiction.
Qed.

Lemma rejected_not_accepted (default_value : option pyfloat) (line : string) (v : pyfloat) :
  rejected_float py_strip py_float lo hi default_value line ->
  ~ accepted_float py_strip py_float lo hi default_value line v.
Proof.
  intros [Hnb Hrej] [[Hb Hd] | (_ & Hf & Hw)].
  - rewrite (Hnb Hb) in Hd. discriminate.
  - destruct Hrej as [Hn | [(positive & Hp) | (x & Hx & Hout)]]; rewrite Hf in *.
    + discriminate.
    + injection Hp as ->. destruct Hw as [Hw | (y & Hw & _)]; discriminate.
    + injection Hx as ->. destruct Hw as [Hw | (y & Hw & Hy)]; [discriminate|].
      injection Hw as <-. lra.
Qed.

Lemma get_positive_float_skips (default_value : option pyfloat)
    (skipped stdin : list string) :
  Forall (rejected_float py_strip py_float lo hi default_value) skipped ->
  snd (get_positive_float py_strip py_float float_str prompt (Finite lo) (Finite hi)
         default_value (skipped ++ stdin)%list)
  = snd (get_positive_float py_strip py_float float_str prompt (Finite lo) (Finite hi)
           default_value stdin).
Proof.
  induction 1 as [|line skipped Hline _ IH]; [reflexivity|].
  rewrite <- app_comm_cons, get_positive_float_rejected by exact Hline. exact IH.
Qed.

Lemma get_positive_float_reads (default_value : option pyfloat) (stdin : list string) :
  (snd (get_positive_float py_strip py_float float_str prompt (Finite lo) (Finite hi)
          default_value stdin) = Raised EOFError
   /\ Forall (rejected_float py_strip py_float lo hi default_value) stdin)
  \/ exists (skipped : list string) (line : string) (rest : list string) (v : pyfloat),
       stdin = (skipped ++ line :: rest)%list
       /\ Forall (rejected_float py_strip py_float lo hi default_value) skipped
       /\ accepted_float py_strip py_float lo hi default_value line v
       /\ snd (get_positive_float py_strip py_float float_str prompt (Finite lo)
                 (Finite hi) default_value stdin) = Returned v rest.
Proof.
  induction stdin as [|line rest IH]; [left; now split|].
  destruct (float_line_cases default_value line) as [[v Hv] | Hrej].
  - right. exists [], line, rest, v. split; [reflexivity|]. split; [constructor|].
    split; [exact Hv | now apply get_positive_float_accepted].
  - rewrite (get_positive_float_rejected default_value line rest Hrej).
    destruct IH as [[IH Hall] | (skipped & l & rest' & v & -> & Hall & Hv & IH)].
    + left. split; [exact IH | now constructor].
    + right. exists (line :: skipped), l, rest', v. split; [reflexivity|].
      split; [now constructor|]. now split.
Qed.

End FloatLines.

(** X18: [get_positive_float] with finite bounds reads lines until one is
    accepted.  Every line is accepted with a value or rejected, never both;
    rejected lines are skipped, and the call returns the value of the first
    accepted line with the lines after it left on standard input.  It raises
    EOFError when every line is rejected, and raises nothing else: the
    ValueError of an unparsable line is caught.  A line that parses to NaN
    is accepted. *)
Theorem get_positive_float_spec (py_strip : string -> string)
    (py_float : string -> option pyfloat) (float_str : pyfloat -> string)
    (prompt : string) (lo hi : R) (default_value : option pyfloat) :
  let run := fun stdin : list string =>
    snd (get_positive_float py_strip py_float float_str prompt (Finite lo) (Finite hi)
           default_value stdin) in
  let accepted := accepted_float py_strip py_float lo hi default_value in
  let rejected := rejected_float py_strip py_float lo hi default_value in
  (forall line, (exists v, accepted line v) \/ rejected line)
  /\ (forall line v, rejected line -> ~ accepted line v)
  /\ (forall skipped line rest v,
        Forall rejected skipped -> accepted line v ->
        run (skipped ++ line :: rest)%list = Returned v rest)
  /\ (forall stdin, Forall rejected stdin -> run stdin = Raised EOFError)
  /\ (forall stdin e, run stdin = Raised e -> e = EOFError /\ Forall rejected stdin)
  /\ (forall stdin v rest,
        run stdin = Returned v rest ->
        exists (skipped : list string) (line : string),
          stdin = (skipped ++ line :: rest)%list
          /\ Forall rejected skipped /\ accepted line v)
  /\ (forall line rest,
        py_strip line <> "" -> py_float (py_strip line) = Some NaN ->
        run (line :: rest) = Returned NaN rest).
Proof.
  intros run accepted rejected. unfold run, accepted, rejected. repeat apply conj.
  - apply float_line_cases.
  - intros line v Hr. now apply rejected_not_accepted.
  - intros skipped line rest v Hs Ha.
    rewrite get_positive_float_skips by exact Hs.
    now apply get_positive_float_accepted.
  - intros stdin Hs.
    rewrite <- (app_nil_r stdin), get_positive_float_skips by exact Hs. reflexivity.
  - intros stdin e He.
    destruct (get_positive_float_reads py_strip py_float float_str prompt lo hi
                default_value stdin)
      as [[H Hall] | (skipped & line & rest & v & _ & _ & _ & H)];
      rewrite He in H; [|discriminate].
    injection H as ->. now split.
  - intros stdin v rest Hv.
    destruct (get_positive_float_reads py_strip py_float float_str prompt lo hi
                default_value stdin)
      as [[H _] | (skipped & line & rest' & v' & Heq & Hall & Ha & H)];
      rewrite Hv in H; [discriminate|].
    injection H as <- <-. now exists skipped, line.
  - intros line rest Hne Hnan. apply get_positive_float_accepted.
    right. split; [intros H; contradiction|]. split; [exact Hnan | now left].
Qed.

Lemma get_positive_float_spec_witness :
  snd (get_positive_float same sample_float hash_str "Groove height (mm): "
         (Finite 1) (Finite 50) None ["abc"; "500"; "10"; "next"])
  = Returned (Finite 10) ["next"]
  /\ snd (get_positive_float same sample_float hash_str "Groove height (mm): "
            (Finite 1) (Finite 50) None ["abc"; "500"; "nan"; "next"])
     = Returned NaN ["next"]
  /\ snd (get_positive_float same sample_float hash_str "Groove height (mm): "
            (Finite 1) (Finite 50) None ["abc"; "500"])
     = Raised EOFError.
Proof.
  destruct (get_positive_float_spec same sample_float hash_str "Groove height (mm): "
              1 50 None) as (_ & _ & Hacc & Heof & _).
  assert (Hskip : Forall (rejected_float same sample_float 1 50 None) ["abc"; "500"]).
  { constructor; [|constructor; [|constructor]].
    - split; [discriminate | now left].
    - split; [discriminate|]. right; right. exists 500.
      split; [reflexivity | right; lra]. }
  split; [|split].
  - apply (Hacc ["abc"; "500"] "10" ["next"] (Finite 10) Hskip).
    right. split; [discriminate|]. split; [reflexivity|].
    right. exists 10. split; [reflexivity | lra].
  - apply (Hacc ["abc"; "500"] "nan" ["next"] NaN Hskip).
    right. split; [discriminate|]. split; [reflexivity | now left].
  - exact (Heof ["abc"; "500"] Hskip).
Defined.

(** ** X19: get_groove_count *)



(** ** X20: get_optional_clearances *)

(** X20: [get_optional_clearances] reads exactly two lines and asks only
    once for each value: with fewer than two lines it raises EOFError;
    otherwise it returns a clearance that is the default 0.2 or the float
    parsed from the first line, then NaN or within [0, 1], and a retention
    offset that is the default 0.1 or the float parsed from the second line,
    then NaN or within [0, 0.5].  An unparsable or out-of-range line gives
    the default instead of an error. *)
Theorem get_optional_clearances_spec (py_strip : string -> string)
    (py_float : string -> option pyfloat) (float_str : pyfloat -> string)
    (stdin : list string) :
  match stdin with
  | first :: second :: rest =>
      exists clearance offset : pyfloat,
        snd (get_optional_clearances py_strip py_float float_str stdin)
        = Returned (clearance, offset) rest
        /\ (clearance = Finite (2 / 10)
            \/ (py_float (py_strip first) = Some clearance
                /\ (clearance = NaN
                    \/ exists x : R, clearance = Finite x /\ 0 <= x <= 1)))
        /\ (offset = Finite (1 / 10)
            \/ (py_float (py_strip second) = Some offset
                /\ (offset = NaN
                    \/ exists x : R, offset = Finite x /\ 0 <= x <= 5 / 10)))
  | _ => snd (get_optional_clearances py_strip py_float float_str stdin) = Raised EOFError
  end.
Proof.
  unfold get_optional_clearances.
  destruct stdin as [|first [|second rest]]; rewrite !io_bind_snd_print.
  - apply io_bind_Raised. reflexivity.
  - destruct (optional_value_outcome py_strip py_float
                "Assembly clearance (default: 0.2mm): " (2 / 10) 1
                "✗ Using default 0.2mm (invalid range)"
                "✗ Using default 0.2mm (invalid input)" [first]) as (c & Hc & _).
    rewrite (io_bind_Returned _ _ _ _ _ Hc).
    apply io_bind_Raised. reflexivity.
  - destruct (optional_value_outcome py_strip py_float
                "Assembly clearance (default: 0.2mm): " (2 / 10) 1
                "✗ Using default 0.2mm (invalid range)"
                "✗ Using default 0.2mm (invalid input)" (first :: second :: rest))
      as (c & Hc & Hcv).
    destruct (optional_value_outcome py_strip py_float
                "Retention offset (default: 0.1mm): " (1 / 10) (5 / 10)
                "✗ Using default 0.1mm (invalid range)"
                "✗ Using default 0.1mm (invalid input)" (second :: rest))
      as (r & Hr & Hrv).
    exists c, r.
    rewrite (io_bind_Returned _ _ _ _ _ Hc), (io_bind_Returned _ _ _ _ _ Hr).
    rewrite io_bind_snd_print.
    split; [reflexivity|]. split; assumption.
Qed.

(** ** X21: get_groove_shape *)

Lemma print_shapes_returns (i : Z) (shapes : list (string * GrooveType))
    (stdin : list string) :
  snd (print_shapes i shapes stdin) = Returned tt stdin.
Proof.
  revert i. induction shapes as [|[name t] rest IH]; intros i; [reflexivity|].
  cbn [print_shapes]. rewrite io_bind_snd_print. apply IH.
Qed.

(** What one line does to [get_groove_shape], once stripped and lowered.
    It picks a shape: by its number when it is a digit string whose integer
    is between 1 and 4, else by its name when no number was picked.  Or
    [int] raises on it although [isdigit] accepted it.  Or it is skipped: no
    number is picked and it is none of the four names. *)
Definition picked_shape (py_strip py_lower : string -> string)
    (py_isdigit : string -> bool) (py_int : string -> option Z)
    (line : string) (selected : GrooveType) : Prop :=
  let user_input := py_lower (py_strip line) in
  (py_isdigit user_input = true
   /\ exists n : Z,
        py_int user_input = Some n /\ (1 <= n <= 4)%Z
        /\ nth_error [RECTANGULAR; CIRCULAR; SQUARE; TRIANGLE] (Z.to_nat (n - 1))
           = Some selected)
  \/ ((py_isdigit user_input = false
       \/ exists n : Z, py_int user_input = Some n /\ (n < 1 \/ 4 < n)%Z)
      /\ shapes_lookup valid_shapes_list user_input = Some selected).

Definition unparsed_digits (py_strip py_lower : string -> string)
    (py_isdigit : string -> bool) (py_int : string -> option Z) (line : string) : Prop :=
  let user_input := py_lower (py_strip line) in
  py_isdigit user_input = true /\ py_int user_input = None.

Definition skipped_shape (py_strip py_lower : string -> string)
    (py_isdigit : string -> bool) (py_int : string -> option Z) (line : string) : Prop :=
  let user_input := py_lower (py_strip line) in
  (py_isdigit user_input = false
   \/ exists n : Z, py_int user_input = Some n /\ (n < 1 \/ 4 < n)%Z)
  /\ shapes_lookup valid_shapes_list user_input = None.

Section ShapeLines.

Variable py_strip : string -> string.
Variable py_lower : string -> string.
Variable py_isdigit : string -> bool.
Variable py_int : string -> option Z.

Lemma out_of_range_index (n : Z) :
  (n < 1 \/ 4 < n)%Z ->
  ((0 <=? n - 1) && (n - 1 <? Z.of_nat (List.length valid_shapes_list)))%Z = false.
Proof.
  intros Hn. apply andb_false_iff.
  destruct Hn; [left; apply Z.leb_gt; lia | right; apply Z.ltb_ge; simpl; lia].
Qed.

Lemma get_groove_shape_loop_picked (line : string) (rest : list string)
    (selected : GrooveType) :
  picked_shape py_strip py_lower py_isdigit py_int line selected ->
  snd (get_groove_shape_loop py_strip py_lower py_isdigit py_int (line :: rest))
  = Returned selected rest.
Proof.
  intros [(Hd & n & Hi & Hn & Hnth) | (Hnum & Hl)]; cbn [get_groove_shape_loop].
  - rewrite Hd, Hi.
    assert (Hc : n = 1%Z \/ n = 2%Z \/ n = 3%Z \/ n = 4%Z) by lia.
    destruct Hc as [-> | [-> | [-> | ->]]]; simpl in Hnth |- *;
      injection Hnth as <-; reflexivity.
  - destruct Hnum as [Hd | (n & Hi & Hn)].
    + rewrite Hd, Hl. reflexivity.
    + rewrite Hi, (out_of_range_index n Hn), Hl.
      now destruct (py_isdigit (py_lower (py_strip line))).
Qed.

Lemma get_groove_shape_loop_unparsed (line : string) (rest : list string) :
  unparsed_digits py_strip py_lower py_isdigit py_int line ->
  snd (get_groove_shape_loop py_strip py_lower py_isdigit py_int (line :: rest))
  = Raised ValueError.
Proof.
  intros [Hd Hi]. cbn [get_groove_shape_loop]. rewrite Hd, Hi. reflexivity.
Qed.

Lemma get_groove_shape_loop_skipped (line : string) (rest : list string) :
  skipped_shape py_strip py_lower py_isdigit py_int line ->
  snd (get_groove_shape_loop py_strip py_lower py_isdigit py_int (line :: rest))
  = snd (get_groove_shape_loop py_strip py_lower py_isdigit py_int rest).
Proof.
  intros [Hnum Hl]. cbn [get_groove_shape_loop].
  destruct Hnum as [Hd | (n & Hi & Hn)].
  - rewrite Hd, Hl. reflexivity.
  - rewrite Hi, (out_of_range_index n Hn), Hl.
    now destruct (py_isdigit (py_lower (py_strip line))).
Qed.

Lemma shape_line_cases (line : string) :
  (exists selected, picked_shape py_strip py_lower py_isdigit py_int line selected)
  \/ unparsed_digits py_strip py_lower py_isdigit py_int line
  \/ skipped_shape py_strip py_lower py_isdigit py_int line.
Proof.
  unfold picked_shape, unparsed_digits, skipped_shape. cbv zeta.
  set (user_input := py_lower (py_strip line)).
  assert (Hname :
    (py_isdigit user_input = false
     \/ exists n : Z, py_int user_input = Some n /\ (n < 1 \/ 4 < n)%Z) ->
    (exists selected,
       (py_isdigit user_input = true
        /\ exists n : Z,
             py_int user_input = Some n /\ (1 <= n <= 4)%Z
             /\ nth_error [RECTANGULAR; CIRCULAR; SQUARE; TRIANGLE] (Z.to_nat (n - 1))
                = Some selected)
       \/ ((py_isdigit user_input = false
            \/ exists n : Z, py_int user_input = Some n /\ (n < 1 \/ 4 < n)%Z)
           /\ shapes_lookup valid_shapes_list user_input = Some selected))
    \/ (py_isdigit user_input = true /\ py_int user_input = None)
    \/ ((py_isdigit user_input = false
         \/ exists n : Z, py_int user_input = Some n /\ (n < 1 \/ 4 < n)%Z)
        /\ shapes_lookup valid_shapes_list user_input = None)).
  { intros Hnum.
    destruct (shapes_lookup valid_shapes_list user_input) as [t|].
    - left. exists t. right. now split.
    - right; right. now split. }
  destruct (py_isdigit user_input) eqn:Hd; [|apply Hname; now left].
  destruct (py_int user_input) as [n|] eqn:Hi; [|right; left; now split].
  destruct (Z_lt_dec n 1) as [H1|H1];
    [apply Hname; right; exists n; split; [reflexivity | now left]|].
  destruct (Z_lt_dec 4 n) as [H4|H4];
    [apply Hname; right; exists n; split; [reflexivity | now right]|].
  left.
  assert (Hc : n = 1%Z \/ n = 2%Z \/ n = 3%Z \/ n = 4%Z) by lia.
  destruct Hc as [-> | [-> | [-> | ->]]];
    [exists RECTANGULAR | exists CIRCULAR | exists SQUARE | exists TRIANGLE];
    left; (split; [reflexivity|]); eexists; (split; [reflexivity|]);
    (split; [lia | reflexivity]).
Qed.

Lemma picked_shape_unique (line : string) (s t : GrooveType) :
  picked_shape py_strip py_lower py_isdigit py_int line s ->
  picked_shape py_strip py_lower py_isdigit py_int line t ->
  s = t.
Proof.
  intros Hs Ht.
  assert (H := get_groove_shape_loop_picked line [] s Hs).
  rewrite (get_groove_shape_loop_picked line [] t Ht) in H. now injection H.
Qed.

Lemma skipped_shape_exclusive (line : string) :
  skipped_shape py_strip py_lower py_isdigit py_int line ->
  (forall selected, ~ picked_shape py_strip py_lower py_isdigit py_int line selected)
  /\ ~ unparsed_digits py_strip py_lower py_isdigit py_int line.
Proof.
  intros Hs.
  assert (H0 := get_groove_shape_loop_skipped line [] Hs).
  split.
  - intros t Ht. rewrite (get_groove_shape_loop_picked line [] t Ht) in H0.
    cbn in H0. discriminate.
  - intros Hu. rewrite (get_groove_shape_loop_unparsed line [] Hu) in H0.
    cbn in H0. discriminate.
Qed.

Lemma picked_shape_parses (line : string) (selected : GrooveType) :
  picked_shape py_strip py_lower py_isdigit py_int line selected ->
  ~ unparsed_digits py_strip py_lower py_isdigit py_int line.
Proof.
  intros Hp Hu.
  assert (H := get_groove_shape_loop_picked line [] selected Hp).
  rewrite (get_groove_shape_loop_unparsed line [] Hu) in H. discriminate.
Qed.

Lemma get_groove_shape_loop_skips (skipped stdin : list string) :
  Forall (skipped_shape py_strip py_lower py_isdigit py_int) skipped ->
  snd (get_groove_shape_loop py_strip py_lower py_isdigit py_int (skipped ++ stdin)%list)
  = snd (get_groove_shape_loop py_strip py_lower py_isdigit py_int stdin).
Proof.
  induction 1 as [|line skipped Hline _ IH]; [reflexivity|].
  rewrite <- app_comm_cons, get_groove_shape_loop_skipped by exact Hline. exact IH.
Qed.

Lemma get_groove_shape_loop_reads (stdin : list string) :
  (snd (get_groove_shape_loop py_strip py_lower py_isdigit py_int stdin) = Raised EOFError
   /\ Forall (skipped_shape py_strip py_lower py_isdigit py_int) stdin)
  \/ exists (skipped : list string) (line : string) (rest : list string),
       stdin = (skipped ++ line :: rest)%list
       /\ Forall (skipped_shape py_strip py_lower py_isdigit py_int) skipped
       /\ ((unparsed_digits py_strip py_lower py_isdigit py_int line
            /\ snd (get_groove_shape_loop py_strip py_lower py_isdigit py_int stdin)
               = Raised ValueError)
           \/ exists selected,
                picked_shape py_strip py_lower py_isdigit py_int line selected
                /\ snd (get_groove_shape_loop py_strip py_lower py_isdigit py_int stdin)
                   = Returned selected rest).
Proof.
  induction stdin as [|line rest IH]; [left; now split|].
  destruct (shape_line_cases line) as [[t Ht] | [Hu | Hs]].
  - right. exists [], line, rest. split; [reflexivity|]. split; [constructor|].
    right. exists t. split; [exact Ht | now apply get_groove_shape_loop_picked].
  - right. exists [], line, rest. split; [reflexivity|]. split; [constructor|].
    left. split; [exact Hu | now apply get_groove_shape_loop_unparsed].
  - rewrite (get_groove_shape_loop_skipped line rest Hs).
    destruct IH as [[IH Hall] | (skipped & l & rest' & -> & Hall & IH)].
    + left. split; [exact IH | now constructor].
    + right. exists (line :: skipped), l, rest'. split; [reflexivity|].
      split; [now constructor | exact IH].
Qed.

Lemma get_groove_shape_outcome (stdin : list string) :
  snd (get_groove_shape py_strip py_lower py_isdigit py_int stdin)
  = snd (get_groove_shape_loop py_strip py_lower py_isdigit py_int stdin).
Proof.
  unfold get_groove_shape. rewrite !io_bind_snd_print.
  rewrite (io_bind_Returned _ _ _ _ _ (print_shapes_returns 1 valid_shapes_list stdin)).
  now rewrite io_bind_snd_print.
Qed.

End ShapeLines.

(** X21: [get_groove_shape] reads lines until one decides.  Every line,
    stripped and lowered, does exactly one of three things: it picks a shape
    (by a number from 1 to 4, in the order rectangular, circular, square,
    triangle, or by one of the four names), or [int] raises on it although
    [isdigit] accepted it, or it is skipped.  The call returns the shape
    picked by the first line that is not skipped, with the lines after it
    left on standard input; it raises ValueError, which it does not catch,
    when the first line that is not skipped is one [int] raises on; and it
    raises EOFError when every line is skipped.  It raises nothing else. *)
Theorem get_groove_shape_spec (py_strip py_lower : string -> string)
    (py_isdigit : string -> bool) (py_int : string -> option Z) :
  let run := fun stdin : list string =>
    snd (get_groove_shape py_strip py_lower py_isdigit py_int stdin) in
  let picked := picked_shape py_strip py_lower py_isdigit py_int in
  let unparsed := unparsed_digits py_strip py_lower py_isdigit py_int in
  let skipped := skipped_shape py_strip py_lower py_isdigit py_int in
  (forall line, (exists selected, picked line selected) \/ unparsed line \/ skipped line)
  /\ (forall line, skipped line -> (forall selected, ~ picked line selected) /\ ~ unparsed line)
  /\ (forall line selected, picked line selected ->
        ~ unparsed line /\ forall other, picked line other -> other = selected)
  /\ (forall before line rest selected,
        Forall skipped before -> picked line selected ->
        run (before ++ line :: rest)%list = Returned selected rest)
  /\ (forall before line rest,
        Forall skipped before -> unparsed line ->
        run (before ++ line :: rest)%list = Raised ValueError)
  /\ (forall stdin, Forall skipped stdin -> run stdin = Raised EOFError)
  /\ (forall stdin selected rest,
        run stdin = Returned selected rest ->
        exists (before : list string) (line : string),
          stdin = (before ++ line :: rest)%list
          /\ Forall skipped before /\ picked line selected)
  /\ (forall stdin e,
        run stdin = Raised e ->
        (e = EOFError /\ Forall skipped stdin)
        \/ (e = ValueError
            /\ exists (before : list string) (line : string) (rest : list string),
                 stdin = (before ++ line :: rest)%list
                 /\ Forall skipped before /\ unparsed line)).
Proof.
  intros run picked unparsed skipped. unfold run, picked, unparsed, skipped.
  repeat apply conj.
  - apply shape_line_cases.
  - apply skipped_shape_exclusive.
  - intros line selected Hp. split; [now apply picked_shape_parses with selected|].
    intros other Ho. now apply picked_shape_unique with py_strip py_lower py_isdigit py_int line.
  - intros before line rest selected Hs Hp.
    rewrite get_groove_shape_outcome, get_groove_shape_loop_skips by exact Hs.
    now apply get_groove_shape_loop_picked.
  - intros before line rest Hs Hu.
    rewrite get_groove_shape_outcome, get_groove_shape_loop_skips by exact Hs.
    now apply get_groove_shape_loop_unparsed.
  - intros stdin Hs.
    rewrite get_groove_shape_outcome.
    rewrite <- (app_nil_r stdin), get_groove_shape_loop_skips by exact Hs. reflexivity.
  - intros stdin selected rest Hr. rewrite get_groove_shape_outcome in Hr.
    destruct (get_groove_shape_loop_reads py_strip py_lower py_isdigit py_int stdin)
      as [[H _] | (before & line & rest' & Heq & Hall & [[_ H] | (t & Ht & H)])];
      rewrite Hr in H; try discriminate.
    injection H as <- <-. now exists before, line.
  - intros stdin e He. rewrite get_groove_shape_outcome in He.
    destruct (get_groove_shape_loop_reads py_strip py_lower py_isdigit py_int stdin)
      as [[H Hall] | (before & line & rest' & Heq & Hall & [[Hu H] | (t & Ht & H)])];
      rewrite He in H; try discriminate; injection H as ->.
    + left. now split.
    + right. split; [reflexivity|]. now exists before, line, rest'.
Qed.

Lemma get_groove_shape_spec_witness :
  snd (get_groove_shape same same sample_isdigit sample_int ["hexagon"; "7"; "3"; "next"])
  = Returned SQUARE ["next"]
  /\ snd (get_groove_shape same same sample_isdigit sample_int ["hexagon"; "triangle"])
     = Returned TRIANGLE []
  /\ snd (get_groove_shape same same sample_isdigit sample_int ["hexagon"; "7"])
     = Raised EOFError.
Proof.
  destruct (get_groove_shape_spec same same sample_isdigit sample_int)
    as (_ & _ & _ & Hpick & _ & Heof & _).
  assert (Hskip : Forall (skipped_shape same same sample_isdigit sample_int)
                    ["hexagon"; "7"]).
  { constructor; [|constructor; [|constructor]].
    - split; [now left | reflexivity].
    - split; [|reflexivity]. right. exists 7%Z. split; [reflexivity | right; lia]. }
  split; [|split].
  - apply (Hpick ["hexagon"; "7"] "3" ["next"] SQUARE Hskip).
    left. split; [reflexivity|]. exists 3%Z.
    split; [reflexivity|]. split; [lia | reflexivity].
  - apply (Hpick ["hexagon"] "triangle" [] TRIANGLE).
    + constructor; [|constructor]. split; [now left | reflexivity].
    + right. split; [now left | reflexivity].
  - exact (Heof ["hexagon"; "7"] Hskip).
Defined.

(** ** X22: collect_all_inputs *)

Definition cli_exception (e : exception) : Prop :=
  e = EOFError \/ e = ValueError \/ e = SystemExit 0.

(** The ranges the prompts enforce on what they return. *)
Definition cli_ranges (inputs : Inputs) : Prop :=
  within (1 / 10) 20 (thickness inputs)
  /\ (1 <= groove_count inputs <= 100)%Z
  /\ within 1 50 (groove_height inputs)
  /\ within (5 / 10) 20 (groove_width inputs)
  /\ within (5 / 10) 10 (groove_depth inputs)
  /\ within (5 / 10) 200 (clip_height inputs)
  /\ within 0 1 (assembly_clearance inputs)
  /\ within 0 (5 / 10) (retention_offset inputs).

Section CollectFacts.

Variable py_strip : string -> string.
Variable py_lower : string -> string.
Variable py_isdigit : string -> bool.
Variable py_int : string -> option Z.
Variable py_float : string -> option pyfloat.
Variable float_str : pyfloat -> string.

Lemma eof_is_cli (e : exception) : only_eof e -> cli_exception e.
Proof. intros ->. now left. Qed.

Lemma get_groove_shape_yields :
  yields (fun _ => True) cli_exception
    (get_groove_shape py_strip py_lower py_isdigit py_int).
Proof.
  intros stdin. rewrite get_groove_shape_outcome.
  destruct (get_groove_shape_loop_reads py_strip py_lower py_isdigit py_int stdin)
    as [[H _] | (before & line & rest & Heq & _ & [[_ H] | (t & _ & H)])].
  - left. exists EOFError. split; [now left | exact H].
  - left. exists ValueError. split; [right; now left | exact H].
  - right. exists t, rest. split; [exact H|]. split; [|exact I].
    exists (before ++ [line])%list. rewrite Heq, <- app_assoc. reflexivity.
Qed.

Lemma collect_all_inputs_yields :
  yields cli_ranges cli_exception
    (collect_all_inputs py_strip py_lower py_isdigit py_int py_float float_str).
Proof.
  unfold collect_all_inputs. do 6 apply yields_print.
  apply yields_bind with (P := within (1 / 10) 20).
  { unfold get_body_thickness. do 4 apply yields_print.
    apply yields_weaken with (P := within (1 / 10) 20) (E := only_eof);
      [auto | apply eof_is_cli |].
    apply get_positive_float_yields. intros d Hd. injection Hd as <-.
    apply within_default. lra. }
  intros thickness Ht.
  apply yields_bind with (P := fun n => (1 <= n <= 100)%Z).
  { apply yields_weaken with (P := fun n => (1 <= n <= 100)%Z) (E := only_eof);
      [auto | apply eof_is_cli | apply get_groove_count_yields]. }
  intros count Hcount.
  apply yields_bind with (P := fun _ => True); [apply get_groove_shape_yields|].
  intros shape _.
  apply yields_bind
    with (P := fun d : pyfloat * pyfloat * pyfloat =>
                 within 1 50 (fst (fst d)) /\ within (5 / 10) 20 (snd (fst d))
                 /\ within (5 / 10) 10 (snd d)).
  { unfold get_groove_dimensions. do 5 apply yields_print.
    apply yields_bind with (P := within 1 50).
    { apply yields_weaken with (P := within 1 50) (E := only_eof);
        [auto | apply eof_is_cli |].
      apply get_positive_float_yields. discriminate. }
    intros height Hh.
    apply yields_bind with (P := within (5 / 10) 20).
    { apply yields_weaken with (P := within (5 / 10) 20) (E := only_eof);
        [auto | apply eof_is_cli |].
      apply get_positive_float_yields. discriminate. }
    intros width Hw.
    apply yields_bind with (P := within (5 / 10) 10).
    { apply yields_weaken with (P := within (5 / 10) 10) (E := only_eof);
        [auto | apply eof_is_cli |].
      apply get_positive_float_yields. discriminate. }
    intros depth Hd. apply yields_print. apply yields_ret. simpl. auto. }
  intros [[height width] depth] (Hh & Hw & Hd). cbn [fst snd] in Hh, Hw, Hd.
  apply yields_bind with (P := within (5 / 10) 200).
  { unfold get_clip_height. do 5 apply yields_print.
    apply yields_bind with (P := within (5 / 10) 200).
    { apply yields_weaken with (P := within (5 / 10) 200) (E := only_eof);
        [auto | apply eof_is_cli |].
      apply get_positive_float_yields. intros d Hd'. injection Hd' as <-.
      apply within_default. lra. }
    intros v Hv. apply yields_print. now apply yields_ret. }
  intros clip Hclip.
  apply yields_bind
    with (P := fun c : pyfloat * pyfloat =>
                 within 0 1 (fst c) /\ within 0 (5 / 10) (snd c)).
  { unfold get_optional_clearances. do 5 apply yields_print.
    apply yields_bind with (P := within 0 1).
    { apply yields_weaken with (P := within 0 1) (E := only_eof);
        [auto | apply eof_is_cli |].
      apply optional_value_yields. lra. }
    intros c Hc.
    apply yields_bind with (P := within 0 (5 / 10)).
    { apply yields_weaken with (P := within 0 (5 / 10)) (E := only_eof);
        [auto | apply eof_is_cli |].
      apply optional_value_yields. lra. }
    intros r Hr. apply yields_print. apply yields_ret. simpl. auto. }
  intros [clearance offset] [Hc Hr]. cbn [fst snd] in Hc, Hr.
  do 13 apply yields_print.
  apply yields_bind with (P := fun _ => True).
  { intros stdin. destruct stdin as [|line rest].
    - left. exists EOFError. split; [now left | reflexivity].
    - right. exists line, rest. split; [reflexivity|]. split; [now exists [line] | exact I]. }
  intros answer _.
  destruct (negb (String.eqb (py_lower (py_strip answer)) "y")).
  - apply yields_print. intros stdin. left. exists (SystemExit 0).
    split; [right; now right | reflexivity].
  - apply yields_ret. unfold cli_ranges. simpl. repeat split; assumption || lia.
Qed.

End CollectFacts.

(** X22: [collect_all_inputs] raises nothing but EOFError (standard input
    ran out), ValueError (from [get_groove_shape]) or SystemExit(0) (the
    answer to the confirmation was not "y"); when it returns, every float it
    collected is NaN or within the range of its prompt (thickness 0.1..20,
    groove height 1..50, width 0.5..20, depth 0.5..10, clip height 0.5..200,
    clearance 0..1, retention offset 0..0.5) and the count is within
    1..100. *)
Theorem collect_all_inputs_spec (py_strip py_lower : string -> string)
    (py_isdigit : string -> bool) (py_int : string -> option Z)
    (py_float : string -> option pyfloat) (float_str : pyfloat -> string)
    (stdin : list string) :
  (forall e,
     snd (collect_all_inputs py_strip py_lower py_isdigit py_int py_float float_str stdin)
     = Raised e ->
     e = EOFError \/ e = ValueError \/ e = SystemExit 0)
  /\ (forall inputs rest,
        snd (collect_all_inputs py_strip py_lower py_isdigit py_int py_float float_str
               stdin)
        = Returned inputs rest ->
        consumed stdin rest
        /\ within (1 / 10) 20 (thickness inputs)
        /\ (1 <= groove_count inputs <= 100)%Z
        /\ within 1 50 (groove_height inputs)
        /\ within (5 / 10) 20 (groove_width inputs)
        /\ within (5 / 10) 10 (groove_depth inputs)
        /\ within (5 / 10) 200 (clip_height inputs)
        /\ within 0 1 (assembly_clearance inputs)
        /\ within 0 (5 / 10) (retention_offset inputs)).
Proof.
  destruct (collect_all_inputs_yields py_strip py_lower py_isdigit py_int py_float
              float_str stdin)
    as [(e & He & Hr) | (inputs & rest & Hr & Hcons & Hranges)]; rewrite Hr.
  - split; [|discriminate]. intros e' He'. injection He' as <-. exact He.
  - split; [discriminate|]. intros inputs' rest' H. injection H as <- <-.
    split; [exact Hcons | exact Hranges].
Qed.

Lemma get_positive_float_accepts (py_strip : string -> string)
    (py_float : string -> option pyfloat) (float_str : pyfloat -> string)
    (prompt : string) (lo hi x : R) (line : string) (rest : list string) :
  py_strip line <> "" ->
  py_float (py_strip line) = Some (Finite x) ->
  lo <= x <= hi ->
  snd (get_positive_float py_strip py_float float_str prompt (Finite lo) (Finite hi) None
         (line :: rest))
  = Returned (Finite x) rest.
Proof.
  intros Hne Hf Hx. cbn [get_positive_float].
  apply String.eqb_neq in Hne. rewrite Hne, Hf. unfold fgt. cbn [flt].
  replace (Rltb x lo) with false by (symmetry; apply Rltb_false; lra).
  replace (Rltb hi x) with false by (symmetry; apply Rltb_false; lra).
  reflexivity.
Qed.

(** A session at the terminal: defaults for thickness and count, shape 3,
    a 10 x 5 x 2.5 groove, defaults for the clip height and the clearances,
    and "y". *)
Definition sample_session : list string :=
  [""; ""; "3"; "10"; "5"; "2.5"; ""; ""; ""; "y"].

Definition sample_inputs : Inputs := {|
  thickness := Finite (265 / 100);
  groove_count := 10;
  groove_shape := SQUARE;
  groove_height := Finite 10;
  groove_width := Finite 5;
  groove_depth := Finite (25 / 10);
  clip_height := Finite 20;
  assembly_clearance := Finite (2 / 10);
  retention_offset := Finite (1 / 10)
|}.

Lemma sample_session_returns :
  snd (collect_all_inputs same same sample_isdigit sample_int sample_float hash_str
         sample_session)
  = Returned sample_inputs [].
Proof.
  unfold collect_all_inputs, sample_session.
  rewrite !io_bind_snd_print.
  rewrite (io_bind_Returned _ _ _ [""; "3"; "10"; "5"; "2.5"; ""; ""; ""; "y"]
             (Finite (265 / 100))) by reflexivity.
  rewrite (io_bind_Returned _ _ _ ["3"; "10"; "5"; "2.5"; ""; ""; ""; "y"] 10%Z)
    by reflexivity.
  rewrite (io_bind_Returned _ _ _ ["10"; "5"; "2.5"; ""; ""; ""; "y"] SQUARE)
    by reflexivity.
  rewrite (io_bind_Returned _ _ _ [""; ""; ""; "y"]
             (Finite 10, Finite 5, Finite (25 / 10))).
  2: { unfold get_groove_dimensions. rewrite !io_bind_snd_print.
       rewrite (io_bind_Returned _ _ _ ["5"; "2.5"; ""; ""; ""; "y"] (Finite 10))
         by (apply get_positive_float_accepts; [discriminate | reflexivity | lra]).
       rewrite (io_bind_Returned _ _ _ ["2.5"; ""; ""; ""; "y"] (Finite 5))
         by (apply get_positive_float_accepts; [discriminate | reflexivity | lra]).
       rewrite (io_bind_Returned _ _ _ [""; ""; ""; "y"] (Finite (25 / 10)))
         by (apply get_positive_float_accepts; [discriminate | reflexivity | lra]).
       rewrite io_bind_snd_print. reflexivity. }
  rewrite (io_bind_Returned _ _ _ [""; ""; "y"] (Finite 20)) by reflexivity.
  rewrite (io_bind_Returned _ _ _ ["y"] (Finite (2 / 10), Finite (1 / 10)))
    by reflexivity.
  rewrite !io_bind_snd_print.
  reflexivity.
Qed.

Lemma collect_all_inputs_spec_witness :
  consumed sample_session []
  /\ within (1 / 10) 20 (thickness sample_inputs)
  /\ (1 <= groove_count sample_inputs <= 100)%Z
  /\ within (5 / 10) 20 (groove_width sample_inputs)
  /\ within 0 1 (assembly_clearance sample_inputs).
Proof.
  destruct (collect_all_inputs_spec same same sample_isdigit sample_int sample_float
              hash_str sample_session) as [_ Hret].
  destruct (Hret sample_inputs [] sample_session_returns)
    as (Hcons & Ht & Hn & _ & Hw & _ & _ & Hc & _).
  repeat split; assumption || apply Hn.
Defined.

(** ** X23: what validation can reject after the prompts *)

Definition finite (v : pyfloat) : option R :=
  match v with
  | Finite x => Some x
  | _ => None
  end.

(** The dictionary [main] hands from [collect_all_inputs] to [run_pipeline],
    when every float in it is a real number. *)
Definition runtime_params_of (inputs : Inputs) : option RuntimeParams :=
  match finite (thickness inputs), finite (groove_height inputs),
        finite (groove_width inputs), finite (groove_depth inputs) with
  | Some t, Some h, Some w, Some d =>
      match finite (clip_height inputs), finite (assembly_clearance inputs),
            finite (retention_offset inputs) with
      | Some ch, Some c, Some r =>
          Some {|
            gen_cad_pipeline.thickness := t;
            gen_cad_pipeline.groove_count := groove_count inputs;
            gen_cad_pipeline.groove_shape := groove_shape inputs;
            gen_cad_pipeline.groove_height := h;
            gen_cad_pipeline.groove_width := w;
            gen_cad_pipeline.groove_depth := d;
            gen_cad_pipeline.clip_height := ch;
            gen_cad_pipeline.assembly_clearance := c;
            gen_cad_pipeline.retention_offset := r
          |}
      | _, _, _ => None
      end
  | _, _, _, _ => None
  end.

Lemma within_finite (lo hi x : R) : within lo hi (Finite x) -> lo <= x <= hi.
Proof. intros [H | (y & H & Hy)]; [discriminate | now injection H as ->]. Qed.

(** X23: for parameters collected at the terminal whose floats are all real
    numbers, the clip height is positive, so validation in the pipeline can
    only fail on the clearance or on the retention offset: it succeeds
    exactly when the clearance is below the groove width and the retention
    offset below the groove depth, and the retention offset can reach the
    depth only when both are 0.5. *)
Theorem terminal_inputs_and_validation (py_strip py_lower : string -> string)
    (py_isdigit : string -> bool) (py_int : string -> option Z)
    (py_float : string -> option pyfloat) (float_str : pyfloat -> string)
    (real_str : R -> string) (stdin rest : list string) (inputs : Inputs)
    (runtime_params : RuntimeParams) :
  snd (collect_all_inputs py_strip py_lower py_isdigit py_int py_float float_str stdin)
  = Returned inputs rest ->
  runtime_params_of inputs = Some runtime_params ->
  0 < gen_cad_pipeline.clip_height runtime_params
  /\ (fst (ClipParameters.validate real_str (clip_params_of runtime_params)) = true
      <-> gen_cad_pipeline.assembly_clearance runtime_params
          < gen_cad_pipeline.groove_width runtime_params
          /\ gen_cad_pipeline.retention_offset runtime_params
             < gen_cad_pipeline.groove_depth runtime_params)
  /\ (gen_cad_pipeline.retention_offset runtime_params
      >= gen_cad_pipeline.groove_depth runtime_params ->
      gen_cad_pipeline.retention_offset runtime_params = 5 / 10
      /\ gen_cad_pipeline.groove_depth runtime_params = 5 / 10)
  /\ (1 <= gen_cad_pipeline.groove_count runtime_params <= 100)%Z.
Proof.
  intros Hrun Hrp.
  destruct (collect_all_inputs_yields py_strip py_lower py_isdigit py_int py_float
              float_str stdin)
    as [(e & _ & Hr) | (inputs' & rest' & Hr & _ & Hranges)];
    rewrite Hr in Hrun; [discriminate|].
  injection Hrun as -> ->.
  destruct Hranges as (Ht & Hn & Hh & Hw & Hd & Hch & Hc & Hro).
  unfold runtime_params_of in Hrp.
  destruct (thickness inputs) as [t| |]; try discriminate.
  destruct (groove_height inputs) as [h| |]; try discriminate.
  destruct (groove_width inputs) as [w| |]; try discriminate.
  destruct (groove_depth inputs) as [d| |]; try discriminate.
  destruct (clip_height inputs) as [ch| |]; try discriminate.
  destruct (assembly_clearance inputs) as [c| |]; try discriminate.
  destruct (retention_offset inputs) as [r| |]; try discriminate.
  cbn [finite] in Hrp. injection Hrp as <-. cbn.
  apply within_finite in Hw, Hd, Hch, Hc, Hro.
  split; [lra|]. split; [|split; [intros; split; lra | exact Hn]].
  split.
  - intros Hv. apply validate_true_inv in Hv. unfold source_width, source_depth in Hv.
    simpl in Hv. tauto.
  - intros [H1 H2]. rewrite validate_true_intro; [reflexivity | | |];
      unfold source_width, source_depth; simpl; lra.
Qed.

Lemma terminal_inputs_and_validation_witness :
  exists runtime_params : RuntimeParams,
    runtime_params_of sample_inputs = Some runtime_params
    /\ 0 < gen_cad_pipeline.clip_height runtime_params
    /\ (fst (ClipParameters.validate plain_str (clip_params_of runtime_params)) = true
        <-> gen_cad_pipeline.assembly_clearance runtime_params
            < gen_cad_pipeline.groove_width runtime_params
            /\ gen_cad_pipeline.retention_offset runtime_params
               < gen_cad_pipeline.groove_depth runtime_params).
Proof.
  eexists. split; [reflexivity|].
  destruct (terminal_inputs_and_validation same same sample_isdigit sample_int
              sample_float hash_str plain_str sample_session [] sample_inputs _
              sample_session_returns eq_refl) as (H1 & H2 & _).
  split; [exact H1 | exact H2].
Defined.

(** * Warnings do not change the result *)

(** [k] with other answers for the three questions that only produce
    warnings: whether the input has faces, how far the thickened body is from
    the input, and whether the preview export raises. *)
Definition with_warnings (k : Kernel) (faces : TopoDS_Shape -> bool)
    (deviation : TopoDS_Shape -> TopoDS_Shape -> R)
    (preview : TopoDS_Shape -> string -> option string) : Kernel := {|
  ReadFile := ReadFile k;
  IsValid := IsValid k;
  More_FACE := faces;
  MakeThickSolid_IsDone := MakeThickSolid_IsDone k;
  VolumeProperties_Mass := VolumeProperties_Mass k;
  GProp_GProps_Mass := GProp_GProps_Mass k;
  DistShapeShape_Value := deviation;
  DistShapeShape := DistShapeShape k;
  Fuse_status := Fuse_status k;
  Cut_status := Cut_status k;
  Write := Write k;
  Stl_raises := preview
|}.

Definition same_result {A : Type} (run run' : M A) : Prop := snd run = snd run'.

Lemma same_result_bind {A B : Type} (c c' : M A) (f f' : A -> M B) :
  same_result c c' ->
  (forall a, same_result (f a) (f' a)) ->
  same_result (bind c f) (bind c' f').
Proof.
  unfold same_result. destruct c as [tr r], c' as [tr' r']. cbn [snd]. intros <- Hf.
  destruct r as [a|e]; [|reflexivity]. rewrite !bind_Ok. apply Hf.
Qed.

Lemma bind_ext {A B : Type} (c : M A) (f g : A -> M B) :
  (forall a, f a = g a) -> bind c f = bind c g.
Proof.
  intros H. destruct c as [tr [a|e]]; [|reflexivity]. now rewrite !bind_Ok, H.
Qed.

Lemma same_result_refl {A : Type} (run : M A) : same_result run run.
Proof. reflexivity. Qed.

Section Warnings.

Variable k : Kernel.
Variable faces : TopoDS_Shape -> bool.
Variable deviation : TopoDS_Shape -> TopoDS_Shape -> R.
Variable preview : TopoDS_Shape -> string -> option string.

Let k' := with_warnings k faces deviation preview.

Lemma place_features_with_warnings (gg : GrooveGenerator.t) (body : TopoDS_Shape)
    (locations : list (R * R * R)) :
  forall (g : ClipGenerator.t) (grooves clips : list TopoDS_Shape),
    place_features k' gg g body locations grooves clips
    = place_features k gg g body locations grooves clips.
Proof.
  induction locations as [|[[rx ry] rz] rest IH]; intros g grooves clips; [reflexivity|].
  cbn [place_features]. change (DistShapeShape k') with (DistShapeShape k).
  destruct (Extrema_IsDone _ && (0 <? NbSolution _)%nat && SupportOnShape2_is_FACE _);
    [|apply IH].
  destruct (Normal _); [|apply IH].
  apply bind_ext. intros _.
  apply bind_ext. intros [clip_shape g'].
  apply bind_ext. intros _.
  apply bind_ext. intros [placed_clip g''].
  apply IH.
Qed.

End Warnings.

Section WarningsResult.

Variable k : Kernel.
Variable faces : TopoDS_Shape -> bool.
Variable deviation : TopoDS_Shape -> TopoDS_Shape -> R.
Variable preview : TopoDS_Shape -> string -> option string.
Variable float_str : R -> string.
Variable float_4f : R -> string.

Let k' := with_warnings k faces deviation preview.

Lemma fuse_tools_with_warnings (tools : list TopoDS_Shape) :
  forall tool_body, fuse_tools k' tool_body tools = fuse_tools k tool_body tools.
Proof.
  induction tools as [|tool rest IH]; intros tool_body; [reflexivity|].
  cbn [fuse_tools]. change (Fuse_status k') with (Fuse_status k).
  destruct (Fuse_status k tool_body tool); [apply IH | apply IH | reflexivity].
Qed.

Lemma cut_each_with_warnings (tools : list TopoDS_Shape) :
  forall temp, cut_each k' temp tools = cut_each k temp tools.
Proof.
  induction tools as [|tool rest IH]; intros temp; [reflexivity|].
  cbn [cut_each]. change (Cut_status k') with (Cut_status k).
  destruct (Cut_status k temp tool); [apply IH | apply IH | reflexivity].
Qed.

Lemma fuse_each_with_warnings (clips : list TopoDS_Shape) :
  forall temp, fuse_each k' temp clips = fuse_each k temp clips.
Proof.
  induction clips as [|clip rest IH]; intros temp; [reflexivity|].
  cbn [fuse_each]. change (Fuse_status k') with (Fuse_status k).
  destruct (Fuse_status k temp clip); [apply IH | apply IH | reflexivity].
Qed.

Lemma cut_grooves_with_warnings (body : TopoDS_Shape) (tools : list TopoDS_Shape) :
  cut_grooves k' body tools = cut_grooves k body tools.
Proof.
  unfold cut_grooves, bulk_cut. destruct tools as [|first rest]; [reflexivity|].
  rewrite fuse_tools_with_warnings, cut_each_with_warnings. reflexivity.
Qed.

Lemma fuse_clips_with_warnings (body : TopoDS_Shape) (clips : list TopoDS_Shape) :
  fuse_clips k' body clips = fuse_clips k body clips.
Proof.
  unfold fuse_clips, bulk_fuse. destruct clips as [|first rest]; [reflexivity|].
  rewrite fuse_tools_with_warnings, fuse_each_with_warnings. reflexivity.
Qed.

Lemma features_with_warnings (body : TopoDS_Shape) (output_path : string)
    (runtime_params : RuntimeParams) :
  same_result (features_and_export k' float_str body output_path runtime_params)
              (features_and_export k float_str body output_path runtime_params).
Proof.
  unfold features_and_export.
  apply same_result_bind; [reflexivity|]. intros _.
  destruct (ClipParameters.validate float_str (clip_params_of runtime_params))
    as [is_valid msg].
  destruct (negb is_valid); [reflexivity|].
  apply same_result_bind.
  { unfold same_result. now rewrite (place_features_with_warnings k faces deviation preview). }
  intros [gs cs].
  apply same_result_bind.
  { unfold same_result. now rewrite cut_grooves_with_warnings. }
  intros solid.
  apply same_result_bind.
  { unfold same_result. now rewrite fuse_clips_with_warnings. }
  intros final. unfold same_result. rewrite !validate_and_export_eq. reflexivity.
Qed.

Lemma run_with_warnings (input_path output_path : string)
    (runtime_params : RuntimeParams) :
  same_result (run_pipeline k' float_str float_4f input_path output_path runtime_params)
              (run_pipeline k float_str float_4f input_path output_path runtime_params).
Proof.
  unfold run_pipeline.
  apply same_result_bind; [reflexivity|]. intros _.
  change (ReadFile k') with (ReadFile k).
  destruct (negb (ReadFile k input_path =? 1)%Z); [reflexivity|].
  apply same_result_bind; [reflexivity|]. intros input_ok.
  destruct (negb input_ok); [reflexivity|].
  apply same_result_bind.
  { change (More_FACE k') with faces.
    destruct (negb (faces _)), (negb (More_FACE k _)); reflexivity. }
  intros _. unfold thicken_and_continue.
  apply same_result_bind; [reflexivity|]. intros _.
  apply same_result_bind; [reflexivity|]. intros [body|]; [|reflexivity].
  apply same_result_bind; [reflexivity|]. intros oriented.
  unfold check_geometry_and_continue.
  apply same_result_bind; [reflexivity|]. intros _.
  apply same_result_bind.
  { change (DistShapeShape_Value k') with deviation.
    destruct (Rgtb (deviation _ _) _), (Rgtb (DistShapeShape_Value k _ _) _);
      reflexivity. }
  intros _. apply features_with_warnings.
Qed.

End WarningsResult.

(** X24: the three warnings of a run are not fatal: whether the input holds
    faces, how far the thickened body deviates from the input and whether the
    STL preview can be written change what is printed, but not what
    [run_pipeline] returns (or raises). *)
Theorem warnings_do_not_change_the_result (k : Kernel)
    (faces : TopoDS_Shape -> bool) (deviation : TopoDS_Shape -> TopoDS_Shape -> R)
    (preview : TopoDS_Shape -> string -> option string)
    (float_str float_4f : R -> string) (input_path output_path : string)
    (runtime_params : RuntimeParams) :
  snd (run_pipeline (with_warnings k faces deviation preview) float_str float_4f
         input_path output_path runtime_params)
  = snd (run_pipeline k float_str float_4f input_path output_path runtime_params).
Proof.
  apply run_with_warnings.
Qed.
